(** * cursor-git-tracker: a shallow embedding of [cursor-git-tracker.py]

    The development follows the source file top-down: the configuration
    record with its defaults, the trackability filter ([should_track_file]),
    the event handler ([on_modified], [_try_commit], [_create_commit]) and
    the backup-branch rotation ([_create_backup_branch],
    [_cleanup_backup_branches]).

    The handler is stateful and catches exceptions, so its methods are written
    in a small state-and-exception monad over the handler object.  What the
    program takes from outside (the clock, [fnmatch], GitPython, the iteration
    order of a Python [set]) is modelled in the first modules below, each with
    the behaviour it is assumed to have. *)

From Stdlib Require Import ZArith List String Ascii Bool Lia.
From Stdlib Require Import Permutation Sorted Nnat.
Import ListNotations.
Open Scope string_scope.
Open Scope Z_scope.

(** ** Python strings *)

Module Py.

(** The newline character of ["\n"]. *)
Definition nl : string := String (ascii_of_nat 10) EmptyString.

(** [sep.join(xs)]. *)
Definition join (sep : string) (xs : list string) : string :=
  String.concat sep xs.

(** [s.startswith(p)]. *)
Definition startswith (s p : string) : bool := String.prefix p s.

(** [os.path.relpath(path, start)] for a [path] below [start], which is
    what the observer scheduled on [start] delivers: the part after
    [start/].  Other paths are returned as they are (Python would build a
    path with [..] components; the watcher never produces one). *)
Definition relpath (path start : string) : string :=
  let root := start ++ "/" in
  if String.prefix root path
  then substring (String.length root)
                 (String.length path - String.length root) path
  else path.

End Py.

(** ** [fnmatch.fnmatch] on a POSIX system

    [fnmatch] lower-cases nothing on POSIX ([normcase] is the identity),
    translates the pattern to a regular expression and matches the whole
    name: [*] becomes [.*] and so crosses [/], [?] becomes [.], any other
    character stands for itself.  Bracket expressions are not used by any
    pattern of [DEFAULT_CONFIG]; the model reads [[] as an ordinary
    character, which is what [fnmatch] does with an unclosed bracket. *)

Module Fnmatch.

Inductive token : Type :=
| Star
| Question
| Lit (c : ascii).

Fixpoint translate (pat : string) : list token :=
  match pat with
  | EmptyString => []
  | String c rest =>
      if Ascii.eqb c "*" then Star :: translate rest
      else if Ascii.eqb c "?" then Question :: translate rest
      else Lit c :: translate rest
  end.

Fixpoint matches (p : list token) (name : string) {struct p} : bool :=
  match p with
  | [] => match name with EmptyString => true | _ => false end
  | Star :: p' =>
      (fix skip (s : string) : bool :=
         matches p' s ||
         match s with
         | EmptyString => false
         | String _ s' => skip s'
         end) name
  | Question :: p' =>
      match name with
      | EmptyString => false
      | String _ s' => matches p' s'
      end
  | Lit c :: p' =>
      match name with
      | EmptyString => false
      | String d s' => Ascii.eqb c d && matches p' s'
      end
  end.

Definition fnmatch (name pat : string) : bool :=
  matches (translate pat) name.

End Fnmatch.

(** ** Configuration *)

Record Config : Type := mkConfig {
  file_patterns : list string;
  ignore_patterns : list string;
  backup_branch_prefix : string;
  max_backup_branches : Z;
  commit_cooldown : Z;
  create_backup_branches : bool
}.

Definition DEFAULT_CONFIG : Config := {|
  file_patterns := [
    "**/*.py"; "**/*.js"; "**/*.jsx"; "**/*.ts"; "**/*.tsx"; "**/*.java";
    "**/*.cpp"; "**/*.c"; "**/*.h"; "**/*.cs"; "**/*.go"; "**/*.rb";
    "**/*.php"; "**/*.swift"; "**/*.kt";
    "**/*.html"; "**/*.css"; "**/*.scss"; "**/*.sass"; "**/*.less";
    "**/*.vue"; "**/*.svelte";
    "**/*.json"; "**/*.yml"; "**/*.yaml"; "**/*.xml"; "**/*.md";
    "**/*.markdown"; "**/README*"; "**/LICENSE*"; "**/*.config.*" ];
  ignore_patterns := [
    "**/.git/**"; "**/.svn/**"; "**/.hg/**";
    "**/node_modules/**"; "**/venv/**"; "**/.virtualenv/**"; "**/vendor/**";
    "**/.bundle/**";
    "**/build/**"; "**/dist/**"; "**/out/**"; "**/target/**"; "**/bin/**";
    "**/obj/**";
    "**/__pycache__/**"; "**/.cache/**"; "**/.temp/**"; "**/.tmp/**";
    "**/.idea/**"; "**/.vscode/**"; "**/.vs/**";
    "**/logs/**"; "**/*.log"; "**/debug/**";
    "**/.DS_Store"; "**/Thumbs.db"; "**/*.swp"; "**/*.swo" ];
  backup_branch_prefix := "cursor-backup";
  max_backup_branches := 5;
  commit_cooldown := 5;
  create_backup_branches := true
|}.

(** ** [should_track_file]

    The two [for] loops with an early [return] are the two [existsb]. *)

Definition should_track_file (repo_path : string) (config : Config)
    (file_path : string) : bool :=
  let relative_path := Py.relpath file_path repo_path in
  if existsb (Fnmatch.fnmatch relative_path) (ignore_patterns config)
  then false
  else if existsb (Fnmatch.fnmatch relative_path) (file_patterns config)
  then true
  else false.

(** ** The clock

    [datetime.now()] is read as a broken-down local time.  [strftime] pads
    every field with zeros; the two formats of the program are
    ["%Y-%m-%d %H:%M:%S"] and ["%Y%m%d_%H%M%S"]. *)

Record datetime : Type := mkDatetime {
  year : nat; month : nat; day : nat;
  hour : nat; minute : nat; second : nat
}.

Definition digit (n : nat) : ascii := ascii_of_nat (48 + n mod 10).

Definition pad2 (n : nat) : string :=
  String (digit (n / 10)) (String (digit n) EmptyString).

Definition pad4 (n : nat) : string :=
  String (digit (n / 1000)) (String (digit (n / 100)) (pad2 n)).

Definition strftime_commit (d : datetime) : string :=
  pad4 (year d) ++ "-" ++ pad2 (month d) ++ "-" ++ pad2 (day d) ++ " " ++
  pad2 (hour d) ++ ":" ++ pad2 (minute d) ++ ":" ++ pad2 (second d).

Definition strftime_branch (d : datetime) : string :=
  pad4 (year d) ++ pad2 (month d) ++ pad2 (day d) ++ "_" ++
  pad2 (hour d) ++ pad2 (minute d) ++ pad2 (second d).

(** What one call of [on_modified] reads from the system clock:
    [time.time()] in [_try_commit] (seconds, as an integer), [datetime.now()]
    in [_create_commit], the committer date git stamps on a commit written in
    this call, and [datetime.now()] in [_create_backup_branch]. *)
Record Clock : Type := mkClock {
  time_time : Z;
  commit_now : datetime;
  git_now : Z;
  backup_now : datetime
}.

(** ** Exceptions and results *)

Inductive exn : Type :=
| FileNotFoundError
| OSError
| TypeError
| ValueError
| GitCommandError
| IndexError.

Inductive result (A : Type) : Type :=
| Return (a : A)
| Raise (e : exn).
Arguments Return {A} a.
Arguments Raise {A} e.

(** ** The repository, as GitPython shows it to the program

    Only what the handler touches is kept: which files exist in the working
    tree ([index.add] of a missing path raises), the paths staged so far, the
    local branches with the commit each points to, and where [HEAD] is.
    [repo.heads] enumerates the references in the order of their names, so
    [heads] is kept in that order by [create_head]. *)

Module Git.

Record Commit : Type := mkCommit {
  committed_datetime : Z;
  message : string;
  changes : list string
}.

Record Head : Type := mkHead {
  name : string;
  commit : Commit
}.

Inductive HEAD_ref : Type :=
| Attached (branch : string)
| Detached (c : Commit).

Record Repo : Type := mkRepo {
  working_tree : list string;
  index : list string;
  objects : list Commit;
  heads : list Head;
  HEAD : HEAD_ref
}.

Definition set_index (i : list string) (r : Repo) : Repo :=
  mkRepo (working_tree r) i (objects r) (heads r) (HEAD r).

Definition set_heads (hs : list Head) (r : Repo) : Repo :=
  mkRepo (working_tree r) (index r) (objects r) hs (HEAD r).

Definition set_HEAD (h : HEAD_ref) (r : Repo) : Repo :=
  mkRepo (working_tree r) (index r) (objects r) (heads r) h.

Definition has_head (n : string) (hs : list Head) : bool :=
  existsb (fun h => String.eqb n (name h)) hs.

Fixpoint lookup_head (n : string) (hs : list Head) : option Commit :=
  match hs with
  | [] => None
  | h :: rest => if String.eqb n (name h) then Some (commit h)
                 else lookup_head n rest
  end.

(** A new reference takes its place in the order of names. *)
Fixpoint insert_head (h : Head) (hs : list Head) : list Head :=
  match hs with
  | [] => [h]
  | g :: rest => if String.leb (name h) (name g) then h :: g :: rest
                 else g :: insert_head h rest
  end.

Definition remove_head (n : string) (hs : list Head) : list Head :=
  filter (fun h => negb (String.eqb n (name h))) hs.

Definition move_head (n : string) (c : Commit) (hs : list Head)
  : list Head :=
  if has_head n hs
  then map (fun h => if String.eqb n (name h) then mkHead n c else h) hs
  else insert_head (mkHead n c) hs.

Definition in_list (p : string) (l : list string) : bool :=
  existsb (String.eqb p) l.

(** [repo.index.add([path])]: a path that is not in the working tree
    raises. *)
Definition index_add (path : string) (r : Repo) : result Repo :=
  if in_list path (working_tree r)
  then Return (set_index (if in_list path (index r) then index r
                          else index r ++ [path]) r)
  else Raise FileNotFoundError.

(** [repo.index.commit(msg)]: one commit object from the index; the
    checked-out branch (or a detached [HEAD]) moves to it. *)
Definition index_commit (now : Z) (msg : string) (r : Repo) : result Repo :=
  let c := mkCommit now msg (index r) in
  match HEAD r with
  | Attached b =>
      Return (mkRepo (working_tree r) [] (objects r ++ [c])
                     (move_head b c (heads r)) (Attached b))
  | Detached _ =>
      Return (mkRepo (working_tree r) [] (objects r ++ [c])
                     (heads r) (Detached c))
  end.

(** [repo.active_branch]: raises on a detached [HEAD]. *)
Definition active_branch (r : Repo) : result string :=
  match HEAD r with
  | Attached b => Return b
  | Detached _ => Raise TypeError
  end.

Definition head_commit (r : Repo) : option Commit :=
  match HEAD r with
  | Attached b => lookup_head b (heads r)
  | Detached c => Some c
  end.

(** [repo.create_head(n)]: a new branch at the commit of [HEAD]; raises
    when [HEAD] has no commit yet or the name is taken. *)
Definition create_head (n : string) (r : Repo) : result Repo :=
  match head_commit r with
  | None => Raise ValueError
  | Some c =>
      if has_head n (heads r) then Raise OSError
      else Return (set_heads (insert_head (mkHead n c) (heads r)) r)
  end.

(** [head.checkout()] for the branch named [n]. *)
Definition checkout (n : string) (r : Repo) : result Repo :=
  if has_head n (heads r)
  then Return (set_HEAD (Attached n) r)
  else Raise GitCommandError.

Definition checked_out (n : string) (r : Repo) : bool :=
  match HEAD r with
  | Attached b => String.eqb n b
  | Detached _ => false
  end.

(** The branches other than the one that is checked out. *)
Definition other_heads (r : Repo) : list Head :=
  filter (fun h => negb (checked_out (name h) r)) (heads r).

(** [repo.delete_head(head, force=True)]: git refuses to delete the
    branch that is checked out, and one that does not exist. *)
Definition delete_head (n : string) (r : Repo) : result Repo :=
  if checked_out n r then Raise GitCommandError
  else if has_head n (heads r)
  then Return (set_heads (remove_head n (heads r)) r)
  else Raise GitCommandError.

End Git.

(** ** [sorted(xs, key=...)]

    Python's sort is stable, and a stable sort has one result, so insertion
    from the right stands for it. *)

Section Sorted.
Context {A : Type} (key : A -> Z).

Fixpoint insert_key (x : A) (l : list A) : list A :=
  match l with
  | [] => [x]
  | y :: l' => if key x <=? key y then x :: y :: l'
               else y :: insert_key x l'
  end.

Fixpoint sorted (l : list A) : list A :=
  match l with
  | [] => []
  | x :: l' => insert_key x (sorted l')
  end.
End Sorted.

(** ** The handler object

    [pending_changes] is a Python [set].  It is kept as the list of its
    members in the order they were first added since the set was last
    cleared; [set.add] of a member leaves the set as it is.  [logging] is the
    list of records written so far, oldest first. *)

Inductive LogRecord : Type :=
| INFO (msg : string)
| ERROR (msg : string) (e : exn).

Record CursorChangeHandler : Type := mkHandler {
  repo_path : string;
  repo : Git.Repo;
  last_commit_time : Z;
  pending_changes : list string;
  config : Config;
  last_backup_time : Z;
  logging : list LogRecord
}.

Definition set_add (x : string) (s : list string) : list string :=
  if Git.in_list x s then s else s ++ [x].

(** [__init__]: [git.Repo(repo_path)] opens the repository [r]; the two
    calls of [time.time()] read [t_commit] and [t_backup]. *)
Definition __init__ (path : string) (cfg : Config) (r : Git.Repo)
    (t_commit t_backup : Z) : CursorChangeHandler :=
  mkHandler path r t_commit [] cfg t_backup [].

(** ** State and exceptions

    A method is a function from the handler before to the handler after,
    with the value returned or the exception raised.  The state an exception
    leaves behind is kept: what a [try] block did before it raised is not
    undone. *)

Definition M (A : Type) : Type :=
  CursorChangeHandler -> result A * CursorChangeHandler.

Definition ret {A} (a : A) : M A := fun s => (Return a, s).

Definition raise {A} (e : exn) : M A := fun s => (Raise e, s).

Definition bind {A B} (m : M A) (k : A -> M B) : M B :=
  fun s =>
    match m s with
    | (Return a, s') => k a s'
    | (Raise e, s') => (Raise e, s')
    end.

Definition try_except {A} (body : M A) (handler : exn -> M A) : M A :=
  fun s =>
    match body s with
    | (Return a, s') => (Return a, s')
    | (Raise e, s') => handler e s'
    end.

Declare Scope py_scope.
Delimit Scope py_scope with py.
Notation "x <- m ;; k" := (bind m (fun x => k))
  (at level 100, m at next level, right associativity) : py_scope.
Notation "m ;; k" := (bind m (fun _ => k))
  (at level 100, right associativity) : py_scope.
Open Scope py_scope.

Definition get : M CursorChangeHandler := fun s => (Return s, s).

Definition put_repo (r : Git.Repo) : M unit :=
  fun s => (Return tt,
            mkHandler (repo_path s) r (last_commit_time s)
                      (pending_changes s) (config s) (last_backup_time s)
                      (logging s)).

Definition put_last_commit_time (t : Z) : M unit :=
  fun s => (Return tt,
            mkHandler (repo_path s) (repo s) t (pending_changes s)
                      (config s) (last_backup_time s) (logging s)).

Definition put_last_backup_time (t : Z) : M unit :=
  fun s => (Return tt,
            mkHandler (repo_path s) (repo s) (last_commit_time s)
                      (pending_changes s) (config s) t (logging s)).

Definition put_pending_changes (p : list string) : M unit :=
  fun s => (Return tt,
            mkHandler (repo_path s) (repo s) (last_commit_time s) p
                      (config s) (last_backup_time s) (logging s)).

Definition log (r : LogRecord) : M unit :=
  fun s => (Return tt,
            mkHandler (repo_path s) (repo s) (last_commit_time s)
                      (pending_changes s) (config s) (last_backup_time s)
                      (logging s ++ [r])).

(** A call into GitPython on [self.repo]. *)
Definition git (op : Git.Repo -> result Git.Repo) : M unit :=
  fun s =>
    match op (repo s) with
    | Return r => put_repo r s
    | Raise e => (Raise e, s)
    end.

Definition git_read {A} (op : Git.Repo -> result A) : M A :=
  fun s => (op (repo s), s).

Fixpoint for_each {A} (xs : list A) (body : A -> M unit) : M unit :=
  match xs with
  | [] => ret tt
  | x :: rest => body x ;; for_each rest body
  end.

(** ** [_cleanup_backup_branches] and [_create_backup_branch] *)

(** The [while] loop: [pop(0)] of an empty list raises, which happens only
    for a negative [max_backup_branches]. *)
Fixpoint cleanup_loop (max : Z) (backup_branches : list Git.Head) : M unit :=
  match backup_branches with
  | [] =>
      if Z.of_nat (List.length backup_branches) >? max
      then raise IndexError
      else ret tt
  | oldest_branch :: rest =>
      if Z.of_nat (List.length backup_branches) >? max
      then
        git (Git.delete_head (Git.name oldest_branch)) ;;
        log (INFO ("Removed old backup branch: " ++ Git.name oldest_branch)) ;;
        cleanup_loop max rest
      else ret tt
  end.

Definition backup_heads (prefix : string) (hs : list Git.Head)
  : list Git.Head :=
  sorted (fun x => Git.committed_datetime (Git.commit x))
         (filter (fun branch => Py.startswith (Git.name branch) prefix) hs).

Definition _cleanup_backup_branches : M unit :=
  self <- get ;;
  let backup_branches :=
    backup_heads (backup_branch_prefix (config self))
                 (Git.heads (repo self)) in
  cleanup_loop (max_backup_branches (config self)) backup_branches.

Definition _create_backup_branch (now : datetime) : M unit :=
  try_except
    (self <- get ;;
     let timestamp := strftime_branch now in
     let branch_name :=
       backup_branch_prefix (config self) ++ "-" ++ timestamp in
     current <- git_read Git.active_branch ;;
     git (Git.create_head branch_name) ;;
     git (Git.checkout branch_name) ;;
     git (Git.checkout current) ;;
     _cleanup_backup_branches ;;
     log (INFO ("Created backup branch: " ++ branch_name)))
    (fun e => log (ERROR "Error creating backup branch" e)).

(** ** The event handler

    Iterating a Python [set] of strings yields its members in the order of
    the hash table, which depends on the members, on the order they were
    added in and on the hash seed of the process, and on nothing else.
    [set_iter] is that order, as a function of the insertion history; all
    that is known of it is that it lists the members. *)

Record Event : Type := mkEvent {
  is_directory : bool;
  src_path : string
}.

Section Handler.

Variable set_iter : list string -> list string.

Definition commit_message (now : datetime) (pending : list string) : string :=
  let timestamp := strftime_commit now in
  "Cursor changes at " ++ timestamp ++ Py.nl ++ Py.nl ++
  "Files changed:" ++ Py.nl ++ Py.join Py.nl (set_iter pending).

(** The body of the [try] block of [_create_commit]. *)
Definition create_commit_body (clk : Clock) : M unit :=
  self <- get ;;
  for_each (set_iter (pending_changes self))
           (fun file_path => git (Git.index_add file_path)) ;;
  git (Git.index_commit (git_now clk)
         (commit_message (commit_now clk) (pending_changes self))) ;;
  log (INFO ("Created commit for changes in: " ++
             Py.join ", " (set_iter (pending_changes self)))) ;;
  put_pending_changes [].

Definition _create_commit (clk : Clock) : M unit :=
  try_except (create_commit_body clk)
             (fun e => log (ERROR "Error creating commit" e)).

(** The two conditions of [_try_commit]. *)
Definition flush_due (current_time : Z) (self : CursorChangeHandler) : bool :=
  (current_time - last_commit_time self >=? commit_cooldown (config self))
  && negb (Nat.eqb (List.length (pending_changes self)) 0).

Definition backup_due (current_time : Z) (self : CursorChangeHandler) : bool :=
  create_backup_branches (config self)
  && (current_time - last_backup_time self >=? 3600).

Definition _try_commit (clk : Clock) : M unit :=
  let current_time := time_time clk in
  self <- get ;;
  if flush_due current_time self then
    _create_commit clk ;;
    put_last_commit_time current_time ;;
    self <- get ;;
    if backup_due current_time self then
      _create_backup_branch (backup_now clk) ;;
      put_last_backup_time current_time
    else ret tt
  else ret tt.

Definition on_modified (clk : Clock) (event : Event) : M unit :=
  self <- get ;;
  if is_directory event then ret tt
  else
    let file_path := src_path event in
    if negb (should_track_file (repo_path self) (config self) file_path)
    then ret tt
    else
      let relative_path := Py.relpath file_path (repo_path self) in
      put_pending_changes (set_add relative_path (pending_changes self)) ;;
      _try_commit clk.

(** The observer delivers the events one after the other. *)
Fixpoint run (events : list (Clock * Event)) (self : CursorChangeHandler)
  : CursorChangeHandler :=
  match events with
  | [] => self
  | (clk, event) :: rest => run rest (snd (on_modified clk event self))
  end.

End Handler.

(** * The configuration file

    [Config.load_config] and [create_default_config] work on files of the
    repository directory.  A file system is the list of its files with their
    text, the most recently written first.  [json.load] and [json.dump] are
    the library's: [json_load] gives the value a text stands for, or nothing
    where the library raises [JSONDecodeError].  Numbers are kept as
    integers. *)

Module Json.

#[local] Unset Elimination Schemes.
Inductive value : Type :=
| Null
| Bool (b : bool)
| Int (z : Z)
| Str (s : string)
| Array (items : list value)
| Object (members : list (string * value)).
#[local] Set Elimination Schemes.

End Json.

(** A Python [dict] with string keys: its items in insertion order, each
    key once. *)
Definition dict : Type := list (string * Json.value).

(** [d.get(key)], and with it [key in d] and [d[key]]. *)
Fixpoint dict_get (key : string) (d : dict) : option Json.value :=
  match d with
  | [] => None
  | (k, v) :: rest => if String.eqb key k then Some v else dict_get key rest
  end.

(** [d[key] = v]: a key that is there keeps its place. *)
Fixpoint dict_set (key : string) (v : Json.value) (d : dict) : dict :=
  match d with
  | [] => [(key, v)]
  | (k, w) :: rest =>
      if String.eqb key k then (k, v) :: rest
      else (k, w) :: dict_set key v rest
  end.

(** [{**d, **other}] for the members of a parsed object, in the order of the
    text: every member is set in turn, so a later one wins. *)
Definition dict_merge (d : dict) (other : list (string * Json.value)) : dict :=
  fold_left (fun acc kv => dict_set (fst kv) (snd kv) acc) other d.

(** [Config.DEFAULT_CONFIG] as the dictionary it is. *)
Definition DEFAULT_CONFIG_dict : dict :=
  [ ("file_patterns",
     Json.Array (map Json.Str (file_patterns DEFAULT_CONFIG)));
    ("ignore_patterns",
     Json.Array (map Json.Str (ignore_patterns DEFAULT_CONFIG)));
    ("backup_branch_prefix", Json.Str (backup_branch_prefix DEFAULT_CONFIG));
    ("max_backup_branches", Json.Int (max_backup_branches DEFAULT_CONFIG));
    ("commit_cooldown", Json.Int (commit_cooldown DEFAULT_CONFIG));
    ("create_backup_branches",
     Json.Bool (create_backup_branches DEFAULT_CONFIG)) ].

Module Os.

Definition files : Type := list (string * string).

(** The text of the file at [path], if there is one. *)
Fixpoint read (path : string) (fs : files) : option string :=
  match fs with
  | [] => None
  | (p, text) :: rest => if String.eqb path p then Some text
                         else read path rest
  end.

(** [os.path.exists(path)]. *)
Definition path_exists (path : string) (fs : files) : bool :=
  match read path fs with
  | Some _ => true
  | None => false
  end.

(** [open(path, 'w')] and a write of [text]. *)
Definition write (path text : string) (fs : files) : files :=
  (path, text) :: fs.

Fixpoint ends_with_slash (a : string) : bool :=
  match a with
  | EmptyString => false
  | String c EmptyString => Ascii.eqb c "/"
  | String _ rest => ends_with_slash rest
  end.

(** [os.path.join(a, b)] on POSIX. *)
Definition path_join (a b : string) : string :=
  if String.prefix "/" b then b
  else match a with
       | EmptyString => b
       | _ => if ends_with_slash a then a ++ b else a ++ "/" ++ b
       end.

End Os.

Section ConfigFile.

Variable json_load : string -> option Json.value.
Variable json_dump : dict -> string.

(** [Config.load_config]: the configuration, or the exception that leaves
    the function, with the warnings logged.  The file is read when
    [os.path.exists] finds it.  Only [JSONDecodeError] is caught; unpacking
    a value that is not an object with [**] raises [TypeError]. *)
Definition load_config (fs : Os.files) (repo_path : string)
  : result dict * list string :=
  let config_path := Os.path_join repo_path "config.json" in
  match Os.read config_path fs with
  | Some user_text =>
      match json_load user_text with
      | Some (Json.Object user_config) =>
          (Return (dict_merge DEFAULT_CONFIG_dict user_config), [])
      | Some _ => (Raise TypeError, [])
      | None =>
          (Return DEFAULT_CONFIG_dict,
           ["Invalid config file. Using default configuration."])
      end
  | None => (Return DEFAULT_CONFIG_dict, [])
  end.

(** [create_default_config]: the files afterwards and what is printed. *)
Definition create_default_config (fs : Os.files) (repo_path : string)
  : Os.files * list string :=
  let config_path := Os.path_join repo_path ".cursor-tracker-config.json" in
  if negb (Os.path_exists config_path fs) then
    (Os.write config_path (json_dump DEFAULT_CONFIG_dict) fs,
     ["Created default configuration file at " ++ config_path])
  else (fs, []).

End ConfigFile.

(** * Vocabulary of the properties *)

(** A method leaves an observation [f] of the handler alone. *)
Definition preserves {A X} (f : CursorChangeHandler -> X) (m : M A) : Prop :=
  forall s, f (snd (m s)) = f s.

(** A method only adds records to the log. *)
Definition appends {A} (m : M A) : Prop :=
  forall s, exists l, logging (snd (m s)) = (logging s ++ l)%list.

(** The two records [_create_commit] can write. *)
Definition commit_record (r : LogRecord) : Prop :=
  (exists files, r = INFO ("Created commit for changes in: " ++ files)) \/
  (exists e, r = ERROR "Error creating commit" e).

(** The two records [_create_backup_branch] ends with. *)
Definition rotation_record (r : LogRecord) : Prop :=
  (exists n, r = INFO ("Created backup branch: " ++ n)) \/
  (exists e, r = ERROR "Error creating backup branch" e).

(** The pending set after the paths [ps] have been added one by one. *)
Definition add_all (ps : list string) (pending : list string) : list string :=
  fold_left (fun acc p => set_add p acc) ps pending.

(** What the observer hands to the handler inside the window that follows
    [last_commit_time]: changes of tracked files, the cooldown not over. *)
Definition in_window (s : CursorChangeHandler) (ce : Clock * Event) : Prop :=
  is_directory (snd ce) = false /\
  should_track_file (repo_path s) (config s) (src_path (snd ce)) = true /\
  time_time (fst ce) - last_commit_time s < commit_cooldown (config s).

(** The path [on_modified] records for an event. *)
Definition changed_path (s : CursorChangeHandler) (e : Event) : string :=
  Py.relpath (src_path e) (repo_path s).

(** A list in ascending order of a key. *)
Definition ascending {A} (key : A -> Z) (l : list A) : Prop :=
  StronglySorted (fun a b => key a <= key b) l.

(** The sort key of the cleanup: [x.commit.committed_datetime]. *)
Definition committed (b : Git.Head) : Z :=
  Git.committed_datetime (Git.commit b).

(** The record the loop writes for a branch it deleted. *)
Definition removed_record (b : Git.Head) : LogRecord :=
  INFO ("Removed old backup branch: " ++ Git.name b).

(** The branches [hs] without those called one of [names]. *)
Definition without (names : list string) (hs : list Git.Head)
  : list Git.Head :=
  filter (fun h => negb (Git.in_list (Git.name h) names)) hs.

(** [repo.heads] lists the branches by name, each name once. *)
Definition names_sorted (hs : list Git.Head) : Prop :=
  StronglySorted (fun g h => String.ltb (Git.name g) (Git.name h) = true) hs.

(** The branches whose names start with the prefix, as [repo.heads] lists
    them. *)
Definition backups (prefix : string) (hs : list Git.Head) : list Git.Head :=
  filter (fun branch => Py.startswith (Git.name branch) prefix) hs.



(** Two clock readings compared field by field, from the year down to the
    second. *)
Definition then_compare (r next : comparison) : comparison :=
  match r with
  | Eq => next
  | _ => r
  end.

Definition datetime_compare (d1 d2 : datetime) : comparison :=
  then_compare (Nat.compare (year d1) (year d2))
    (then_compare (Nat.compare (month d1) (month d2))
       (then_compare (Nat.compare (day d1) (day d2))
          (then_compare (Nat.compare (hour d1) (hour d2))
             (then_compare (Nat.compare (minute d1) (minute d2))
                (Nat.compare (second d1) (second d2)))))).

(** A clock reading [strftime] prints in full: a year of four digits and
    the other fields of two. *)
Definition printable (d : datetime) : Prop :=
  1000 <= Z.of_nat (year d) < 10000 /\
  (month d < 100 /\ day d < 100 /\
   hour d < 100 /\ minute d < 100 /\ second d < 100)%nat.

(** What the two loops of [should_track_file] decide for a relative path:
    no ignore pattern matches it and some file pattern does. *)
Definition accepted (config : Config) (relative_path : string) : bool :=
  negb (existsb (Fnmatch.fnmatch relative_path) (ignore_patterns config)) &&
  existsb (Fnmatch.fnmatch relative_path) (file_patterns config).

(** The branches whose names do not start with the prefix. *)
Definition others (prefix : string) (hs : list Git.Head) : list Git.Head :=
  filter (fun branch => negb (Py.startswith (Git.name branch) prefix)) hs.

(** The name [_create_backup_branch] gives the branch it creates. *)
Definition backup_name (s : CursorChangeHandler) (now : datetime) : string :=
  backup_branch_prefix (config s) ++ "-" ++ strftime_branch now.

(** The handler once the new branch exists and [HEAD] is back on [b]: the
    state in which the cleanup of a rotation runs. *)
Definition with_new_branch (s : CursorChangeHandler) (b n : string)
    (c : Git.Commit) : CursorChangeHandler :=
  snd (put_repo
         (Git.set_HEAD (Git.Attached b)
            (Git.set_HEAD (Git.Attached n)
               (Git.set_heads
                  (Git.insert_head (Git.mkHead n c) (Git.heads (repo s)))
                  (repo s)))) s).

(** Between two rotations the checked-out branch moves: the handler commits
    to it, the user commits to it or resets it.  [tip_moved c] is the
    repository once its tip is the commit [c]. *)
Definition tip_moved (c : Git.Commit) (r : Git.Repo) : Git.Repo :=
  match Git.HEAD r with
  | Git.Attached b => Git.set_heads (Git.move_head b c (Git.heads r)) r
  | Git.Detached _ => Git.set_HEAD (Git.Detached c) r
  end.

(** One rotation, made when the tip is [fst st] and the clock shows
    [snd st]. *)
Definition rotation (st : Git.Commit * datetime) (s : CursorChangeHandler)
  : CursorChangeHandler :=
  snd (_create_backup_branch (snd st)
         (snd (put_repo (tip_moved (fst st) (repo s)) s))).

Definition rotations (steps : list (Git.Commit * datetime))
    (s : CursorChangeHandler) : CursorChangeHandler :=
  fold_left (fun s st => rotation st s) steps s.

(** The branch a rotation creates. *)
Definition created (prefix : string) (st : Git.Commit * datetime)
  : Git.Head :=
  Git.mkHead (prefix ++ "-" ++ strftime_branch (snd st)) (fst st).

(** The last [n] elements of a list. *)
Definition keep_last {A} (n : nat) (l : list A) : list A :=
  skipn (List.length l - n) l.

(** Two rotations in order: the later one has the later name and a tip
    whose commit date is not earlier. *)
Definition in_order (prefix : string) (x y : Git.Commit * datetime) : Prop :=
  String.ltb (Git.name (created prefix x)) (Git.name (created prefix y))
  = true /\
  Git.committed_datetime (fst x) <= Git.committed_datetime (fst y).

(** ** Example inputs *)

(** A set that iterates in insertion order. *)
Definition insertion_order (l : list string) : list string := l.

(** A set that iterates the other way round, as another hash seed may
    make it. *)
Definition reverse_order (l : list string) : list string := rev l.

Definition stamp (h m s : nat) : datetime := mkDatetime 2024 3 7 h m s.

(** The clock of a call at [t] seconds. *)
Definition tick (t : Z) : Clock := mkClock t (stamp 9 5 1) t (stamp 9 5 1).

Definition modified (p : string) : Event := mkEvent false p.

(** A repository on [main] with two source files. *)
Definition repo_main : Git.Repo :=
  Git.mkRepo ["src/a.py"; "src/b.py"] [] []
             [Git.mkHead "main" (Git.mkCommit 0 "init" [])]
             (Git.Attached "main").

Definition handler_at_start : CursorChangeHandler :=
  __init__ "/repo" DEFAULT_CONFIG repo_main 0 0.

(** The handler after a first commit at 3598 s. *)
Definition handler_after_commit : CursorChangeHandler :=
  run insertion_order [(tick 3598, modified "/repo/src/a.py")]
      handler_at_start.

(** Two pending paths, both in the working tree. *)
Definition handler_two_pending : CursorChangeHandler :=
  mkHandler "/repo" repo_main 0 ["src/a.py"; "src/b.py"] DEFAULT_CONFIG 0 [].

(** A pending path that has been deleted from the working tree. *)
Definition handler_with_deleted_path : CursorChangeHandler :=
  mkHandler "/repo" repo_main 0 ["src/a.py"; "src/gone.py"] DEFAULT_CONFIG 0
            [].

(** The bound of the scenario: two backup branches. *)
Definition config_keep_two : Config :=
  mkConfig (file_patterns DEFAULT_CONFIG) (ignore_patterns DEFAULT_CONFIG)
           "cursor-backup" 2 5 true.

Definition handler_keep_two : CursorChangeHandler :=
  __init__ "/repo" config_keep_two repo_main 0 0.

(** Three rotations an hour apart, the tip one commit further each time. *)
Definition three_rotations : list (Git.Commit * datetime) :=
  [ (Git.mkCommit 100 "first" [], stamp 10 0 0);
    (Git.mkCommit 200 "second" [], stamp 11 0 0);
    (Git.mkCommit 300 "third" [], stamp 12 0 0) ].

(** Three rotations an hour apart, the checked-out branch taken back to an
    older commit before the second and before the third. *)
Definition three_rotations_going_back : list (Git.Commit * datetime) :=
  [ (Git.mkCommit 300 "third" [], stamp 10 0 0);
    (Git.mkCommit 200 "second" [], stamp 11 0 0);
    (Git.mkCommit 100 "first" [], stamp 12 0 0) ].

(** Three backup branches, the second one on the oldest commit, and a
    bound of two. *)
Definition handler_three_backups : CursorChangeHandler :=
  __init__ "/repo" config_keep_two
    (Git.mkRepo [] [] []
       [ Git.mkHead "cursor-backup-20240307_100000"
                    (Git.mkCommit 30 "c" []);
         Git.mkHead "cursor-backup-20240307_110000"
                    (Git.mkCommit 10 "a" []);
         Git.mkHead "cursor-backup-20240307_120000"
                    (Git.mkCommit 20 "b" []);
         Git.mkHead "main" (Git.mkCommit 30 "c" []) ]
       (Git.Attached "main"))
    0 0.

(** A [config.json] that sets the cooldown to thirty seconds, and a parser
    that knows this one text. *)
Definition double_quote : string := String (ascii_of_nat 34) EmptyString.

Definition cooldown_text : string :=
  "{" ++ double_quote ++ "commit_cooldown" ++ double_quote ++ ": 30}".

Definition json_load_cooldown (text : string) : option Json.value :=
  if String.eqb text cooldown_text
  then Some (Json.Object [("commit_cooldown", Json.Int 30)])
  else None.

Definition files_with_config : Os.files :=
  [("/repo/config.json", cooldown_text)].

(** * Properties *)

(** ** The state-and-exception monad *)

Lemma bind_Return {A B} (m : M A) (k : A -> M B) s a s' :
  m s = (Return a, s') -> bind m k s = k a s'.
Proof. unfold bind; intros ->; reflexivity. Qed.

Lemma bind_Raise {A B} (m : M A) (k : A -> M B) s e s' :
  m s = (Raise e, s') -> bind m k s = (Raise e, s').
Proof. unfold bind; intros ->; reflexivity. Qed.

Lemma preserves_ret {A X} (f : CursorChangeHandler -> X) (a : A) :
  preserves f (ret a).
Proof. intros s; reflexivity. Qed.

Lemma preserves_raise {A X} (f : CursorChangeHandler -> X) e :
  preserves f (@raise A e).
Proof. intros s; reflexivity. Qed.

Lemma preserves_get {X} (f : CursorChangeHandler -> X) : preserves f get.
Proof. intros s; reflexivity. Qed.

Lemma preserves_bind {A B X} (f : CursorChangeHandler -> X)
    (m : M A) (k : A -> M B) :
  preserves f m -> (forall a, preserves f (k a)) -> preserves f (bind m k).
Proof.
  intros Hm Hk s. unfold bind.
  specialize (Hm s). destruct (m s) as [[a|e] s1]; simpl in *.
  - rewrite Hk. exact Hm.
  - exact Hm.
Qed.

Lemma preserves_try {A X} (f : CursorChangeHandler -> X)
    (m : M A) (h : exn -> M A) :
  preserves f m -> (forall e, preserves f (h e)) ->
  preserves f (try_except m h).
Proof.
  intros Hm Hh s. unfold try_except.
  specialize (Hm s). destruct (m s) as [[a|e] s1]; simpl in *.
  - exact Hm.
  - rewrite Hh. exact Hm.
Qed.

Lemma preserves_for_each {A X} (f : CursorChangeHandler -> X)
    (xs : list A) (body : A -> M unit) :
  (forall x, preserves f (body x)) -> preserves f (for_each xs body).
Proof.
  intros Hb. induction xs as [|x xs IH]; simpl.
  - apply preserves_ret.
  - apply preserves_bind; auto.
Qed.

Lemma preserves_git {X} (f : CursorChangeHandler -> X) op :
  (forall s r, f (snd (put_repo r s)) = f s) -> preserves f (git op).
Proof.
  intros H s. unfold git. destruct (op (repo s)); [apply H | reflexivity].
Qed.

Lemma preserves_git_repo {X} (g : Git.Repo -> X) op :
  (forall r r', op r = Return r' -> g r' = g r) ->
  preserves (fun s => g (repo s)) (git op).
Proof.
  intros H s. unfold git. destruct (op (repo s)) eqn:E; simpl; auto.
Qed.

Lemma preserves_git_read {A X} (f : CursorChangeHandler -> X)
    (op : Git.Repo -> result A) :
  preserves f (git_read op).
Proof. intros s; reflexivity. Qed.

Create HintDb frame.
#[local] Hint Resolve preserves_ret preserves_raise preserves_get
  preserves_git_read : frame.
#[local] Hint Extern 2 (preserves _ (bind _ _)) =>
  apply preserves_bind; [ | intro ] : frame.
#[local] Hint Extern 2 (preserves _ (try_except _ _)) =>
  apply preserves_try; [ | intro ] : frame.
#[local] Hint Extern 2 (preserves _ (for_each _ _)) =>
  apply preserves_for_each; intro : frame.
#[local] Hint Extern 3 (preserves _ (git _)) =>
  apply preserves_git; reflexivity : frame.
#[local] Hint Extern 1 (preserves _ (log _)) =>
  intro; reflexivity : frame.
#[local] Hint Extern 1 (preserves _ (put_pending_changes _)) =>
  intro; reflexivity : frame.
#[local] Hint Extern 1 (preserves _ (put_last_commit_time _)) =>
  intro; reflexivity : frame.
#[local] Hint Extern 1 (preserves _ (put_last_backup_time _)) =>
  intro; reflexivity : frame.

(** ** What the rotation leaves alone *)

Lemma cleanup_loop_preserves {X} (f : CursorChangeHandler -> X) max bs :
  (forall s r, f (snd (put_repo r s)) = f s) ->
  (forall s r, f (snd (log r s)) = f s) ->
  preserves f (cleanup_loop max bs).
Proof.
  intros Hr Hl. induction bs as [|b bs IH]; cbn [cleanup_loop].
  - destruct (_ >? _); auto with frame.
  - destruct (_ >? _); auto with frame.
    apply preserves_bind; [apply preserves_git; exact Hr | intro].
    apply preserves_bind; [exact (fun s => Hl s _) | intro]. exact IH.
Qed.

Lemma cleanup_preserves {X} (f : CursorChangeHandler -> X) :
  (forall s r, f (snd (put_repo r s)) = f s) ->
  (forall s r, f (snd (log r s)) = f s) ->
  preserves f _cleanup_backup_branches.
Proof.
  intros Hr Hl. unfold _cleanup_backup_branches.
  apply preserves_bind; [auto with frame | intro].
  apply cleanup_loop_preserves; assumption.
Qed.

Lemma create_backup_branch_preserves {X} (f : CursorChangeHandler -> X) now :
  (forall s r, f (snd (put_repo r s)) = f s) ->
  (forall s r, f (snd (log r s)) = f s) ->
  preserves f (_create_backup_branch now).
Proof.
  intros Hr Hl. unfold _create_backup_branch.
  apply preserves_try; [ | intro; exact (fun s => Hl s _) ].
  apply preserves_bind; [auto with frame | intro].
  apply preserves_bind; [auto with frame | intro].
  repeat (apply preserves_bind; [apply preserves_git; exact Hr | intro]).
  apply preserves_bind; [apply cleanup_preserves; assumption | intro].
  exact (fun s => Hl s _).
Qed.

(** The cleanup touches the branches of the repository only. *)
Lemma cleanup_repo_frame {X} (g : Git.Repo -> X) :
  (forall r hs, g (Git.set_heads hs r) = g r) ->
  preserves (fun s => g (repo s)) _cleanup_backup_branches.
Proof.
  intros Hh.
  assert (Hdelete : forall n, preserves (fun s => g (repo s))
                                (git (Git.delete_head n))).
  { intro n. apply preserves_git_repo. intros r r'. unfold Git.delete_head.
    destruct (Git.checked_out n r); [ discriminate | ].
    destruct (Git.has_head n (Git.heads r)); [ | discriminate ].
    intros [= <-]. apply Hh. }
  assert (Hloop : forall max bs, preserves (fun s => g (repo s))
                                   (cleanup_loop max bs)).
  { intros max bs. induction bs as [|b bs IH]; cbn [cleanup_loop];
      destruct (_ >? _); auto with frame. }
  unfold _cleanup_backup_branches. auto with frame.
Qed.

(** The rotation touches the branches and [HEAD] of the repository only. *)
Lemma rotation_repo_frame {X} (g : Git.Repo -> X) now :
  (forall r hs, g (Git.set_heads hs r) = g r) ->
  (forall r h, g (Git.set_HEAD h r) = g r) ->
  preserves (fun s => g (repo s)) (_create_backup_branch now).
Proof.
  intros Hh HH.
  assert (Hcreate : forall n, preserves (fun s => g (repo s))
                                (git (Git.create_head n))).
  { intro n. apply preserves_git_repo. intros r r'. unfold Git.create_head.
    destruct (Git.head_commit r); [ | discriminate ].
    destruct (Git.has_head n (Git.heads r)); [ discriminate | ].
    intros [= <-]. apply Hh. }
  assert (Hcheckout : forall n, preserves (fun s => g (repo s))
                                  (git (Git.checkout n))).
  { intro n. apply preserves_git_repo. intros r r'. unfold Git.checkout.
    destruct (Git.has_head n (Git.heads r)); [ | discriminate ].
    intros [= <-]. apply HH. }
  assert (Hdelete : forall n, preserves (fun s => g (repo s))
                                (git (Git.delete_head n))).
  { intro n. apply preserves_git_repo. intros r r'. unfold Git.delete_head.
    destruct (Git.checked_out n r); [ discriminate | ].
    destruct (Git.has_head n (Git.heads r)); [ | discriminate ].
    intros [= <-]. apply Hh. }
  assert (Hloop : forall max bs, preserves (fun s => g (repo s))
                                   (cleanup_loop max bs)).
  { intros max bs. induction bs as [|b bs IH]; cbn [cleanup_loop];
      destruct (_ >? _); auto with frame. }
  unfold _create_backup_branch, _cleanup_backup_branches.
  auto 20 with frame.
Qed.

(** No exception leaves [_create_backup_branch]. *)
Lemma create_backup_branch_returns now s :
  fst (_create_backup_branch now s) = Return tt.
Proof.
  unfold _create_backup_branch, try_except.
  match goal with |- context [match ?b s with _ => _ end] =>
    destruct (b s) as [[[]|e] s1] end; reflexivity.
Qed.

(** ** The log only grows *)

Lemma appends_same {A} (m : M A) :
  preserves logging m -> appends m.
Proof. intros H s. exists []. rewrite app_nil_r. apply H. Qed.

Lemma appends_log r : appends (log r).
Proof. intros s. exists [r]. reflexivity. Qed.

Lemma appends_bind {A B} (m : M A) (k : A -> M B) :
  appends m -> (forall a, appends (k a)) -> appends (bind m k).
Proof.
  intros Hm Hk s. unfold bind.
  destruct (Hm s) as [l1 H1]. destruct (m s) as [[a|e] s1]; cbn [snd] in *.
  - destruct (Hk a s1) as [l2 H2]. exists (l1 ++ l2)%list.
    rewrite H2, H1. symmetry. apply app_assoc.
  - exists l1. exact H1.
Qed.

Lemma appends_cleanup_loop max bs : appends (cleanup_loop max bs).
Proof.
  induction bs as [|b bs IH]; cbn [cleanup_loop]; destruct (_ >? _);
    try solve [ apply appends_same; auto with frame ].
  apply appends_bind; [ apply appends_same; auto with frame | intros _ ].
  apply appends_bind; [ apply appends_log | intros _; exact IH ].
Qed.

Lemma bind_inv {A B} (m : M A) (k : A -> M B) s b s' :
  bind m k s = (Return b, s') ->
  exists a s1, m s = (Return a, s1) /\ k a s1 = (Return b, s').
Proof.
  unfold bind. destruct (m s) as [[a|e] s1]; [ | discriminate ].
  intros H. exists a, s1. split; [ reflexivity | exact H ].
Qed.

(** Every call of [_create_backup_branch] ends by writing one of its two
    records, whatever happened before. *)
Lemma rotation_logs now s :
  exists removed r,
    logging (snd (_create_backup_branch now s)) =
      (logging s ++ removed ++ [r])%list /\
    ((exists n, r = INFO ("Created backup branch: " ++ n)) \/
     (exists e, r = ERROR "Error creating backup branch" e)).
Proof.
  unfold _create_backup_branch, try_except.
  match goal with |- context [match ?b s with _ => _ end] =>
    set (body := b) end.
  destruct (body s) as [[[]|e] s1] eqn:E.
  - subst body.
    apply bind_inv in E. destruct E as (self & s2 & E1 & E).
    apply bind_inv in E. destruct E as (current & s3 & E2 & E).
    apply bind_inv in E. destruct E as ([] & s4 & E3 & E).
    apply bind_inv in E. destruct E as ([] & s5 & E4 & E).
    apply bind_inv in E. destruct E as ([] & s6 & E5 & E).
    apply bind_inv in E. destruct E as ([] & s7 & E6 & E).
    unfold get in E1. injection E1 as <- <-.
    unfold git_read in E2. injection E2 as _ <-.
    assert (H3 : logging s4 = logging s).
    { pose proof (preserves_git logging (Git.create_head
        (backup_branch_prefix (config s) ++ "-" ++ strftime_branch now))
        (fun _ _ => eq_refl) s) as H. rewrite E3 in H. exact H. }
    assert (H4 : logging s5 = logging s4).
    { pose proof (preserves_git logging (Git.checkout
        (backup_branch_prefix (config s) ++ "-" ++ strftime_branch now))
        (fun _ _ => eq_refl) s4) as H. rewrite E4 in H. exact H. }
    assert (H5 : logging s6 = logging s5).
    { pose proof (preserves_git logging (Git.checkout current)
        (fun _ _ => eq_refl) s5) as H. rewrite E5 in H. exact H. }
    assert (H6 : exists l, logging s7 = (logging s6 ++ l)%list).
    { unfold _cleanup_backup_branches, bind, get in E6.
      pose proof (appends_cleanup_loop
                    (max_backup_branches (config s6))
                    (backup_heads (backup_branch_prefix (config s6))
                                  (Git.heads (repo s6))) s6) as [l H].
      rewrite E6 in H. exists l. exact H. }
    destruct H6 as [l H6]. exists l. eexists. split.
    + unfold log in E. injection E as <-. cbn [snd logging].
      rewrite H6, H5, H4, H3. rewrite <- app_assoc. reflexivity.
    + left. eexists. reflexivity.
  - assert (Hb : appends body).
    { assert (Hc : appends _cleanup_backup_branches).
      { unfold _cleanup_backup_branches. apply appends_bind.
        - apply appends_same; auto with frame.
        - intro. apply appends_cleanup_loop. }
      subst body.
      repeat (apply appends_bind;
              [ first [ exact Hc
                      | solve [ apply appends_same; auto with frame ] ]
              | intro; cbv zeta ]).
      apply appends_log. }
    destruct (Hb s) as [l Hl]. rewrite E in Hl. cbn [snd] in Hl.
    exists l. eexists. split.
    + cbn [snd log logging]. rewrite Hl, <- app_assoc. reflexivity.
    + right. eexists. reflexivity.
Qed.

(** ** What a commit attempt does *)

(** Staging touches the index and nothing else. *)
Lemma staging_frame (xs : list string) s :
  let s1 := snd (for_each xs (fun p => git (Git.index_add p)) s) in
  Git.objects (repo s1) = Git.objects (repo s) /\
  Git.heads (repo s1) = Git.heads (repo s) /\
  Git.HEAD (repo s1) = Git.HEAD (repo s) /\
  Git.working_tree (repo s1) = Git.working_tree (repo s) /\
  pending_changes s1 = pending_changes s /\
  logging s1 = logging s /\
  last_commit_time s1 = last_commit_time s /\
  last_backup_time s1 = last_backup_time s /\
  config s1 = config s /\
  repo_path s1 = repo_path s.
Proof.
  assert (Hadd : forall (X : Type) (g : Git.Repo -> X) p,
             (forall r i, g (Git.set_index i r) = g r) ->
             preserves (fun s => g (repo s)) (git (Git.index_add p))).
  { intros X g p Hg. apply preserves_git_repo. intros r r'.
    unfold Git.index_add. destruct (Git.in_list p (Git.working_tree r));
      [ | discriminate ].
    intros [= <-]. apply Hg. }
  cbv zeta. repeat split.
  1-4: apply (preserves_for_each (fun s => _ (repo s))); intro;
       apply Hadd; reflexivity.
  all: apply preserves_for_each; intro; apply preserves_git; reflexivity.
Qed.

(** Staging succeeds exactly when every path is in the working tree. *)
Lemma staging_succeeds (xs : list string) s :
  (forall p, In p xs -> Git.in_list p (Git.working_tree (repo s)) = true) ->
  fst (for_each xs (fun p => git (Git.index_add p)) s) = Return tt.
Proof.
  revert s. induction xs as [|x xs IH]; intros s Hin; cbn [for_each].
  - reflexivity.
  - unfold bind.
    destruct (git (Git.index_add x) s) as [[[]|e] s1] eqn:E.
    + apply IH. intros p Hp.
      assert (Hw : Git.working_tree (repo s1) = Git.working_tree (repo s)).
      { pose proof (staging_frame [x] s) as H. cbn [for_each] in H.
        unfold bind in H. rewrite E in H. apply H. }
      rewrite Hw. apply Hin. right. exact Hp.
    + exfalso. unfold git, Git.index_add in E.
      rewrite (Hin x (or_introl eq_refl)) in E. discriminate.
Qed.

Lemma in_list_true p l : Git.in_list p l = true <-> In p l.
Proof.
  unfold Git.in_list. rewrite existsb_exists. split.
  - intros (x & Hx & E). apply String.eqb_eq in E. subst. exact Hx.
  - intros H. exists p. split; [ exact H | apply String.eqb_refl ].
Qed.

Lemma in_list_false p l : Git.in_list p l = false <-> ~ In p l.
Proof.
  rewrite <- in_list_true. destruct (Git.in_list p l); intuition congruence.
Qed.

(** Staging paths that are not yet in the index appends them in order. *)
Lemma staging_index (xs : list string) s :
  (forall p, In p xs -> Git.in_list p (Git.working_tree (repo s)) = true) ->
  NoDup (Git.index (repo s) ++ xs) ->
  Git.index (repo (snd (for_each xs (fun p => git (Git.index_add p)) s))) =
  (Git.index (repo s) ++ xs)%list.
Proof.
  revert s. induction xs as [|x xs IH]; intros s Hin Hnd; cbn [for_each].
  - cbn [ret snd]. symmetry. apply app_nil_r.
  - unfold bind.
    assert (Hx : Git.in_list x (Git.index (repo s)) = false).
    { apply in_list_false. intros Hx.
      apply NoDup_remove_2 in Hnd. apply Hnd.
      apply in_or_app. left. exact Hx. }
    unfold git at 1. unfold Git.index_add.
    rewrite (Hin x (or_introl eq_refl)), Hx.
    cbn [put_repo]. rewrite IH.
    + cbn [repo Git.set_index Git.index]. rewrite <- app_assoc. reflexivity.
    + intros p Hp. cbn [repo Git.set_index Git.working_tree].
      apply Hin. right. exact Hp.
    + cbn [repo Git.set_index Git.index]. rewrite <- app_assoc. exact Hnd.
Qed.

Section HandlerFacts.

Variable set_iter : list string -> list string.

Lemma create_commit_cases clk s :
  let s' := snd (_create_commit set_iter clk s) in
  fst (_create_commit set_iter clk s) = Return tt /\
  last_commit_time s' = last_commit_time s /\
  last_backup_time s' = last_backup_time s /\
  config s' = config s /\
  repo_path s' = repo_path s /\
  Git.active_branch (repo s') = Git.active_branch (repo s) /\
  Git.working_tree (repo s') = Git.working_tree (repo s) /\
  ((exists s1,
      create_commit_body set_iter clk s = (Return tt, s1) /\
      Git.index_commit (git_now clk)
        (commit_message set_iter (commit_now clk) (pending_changes s))
        (repo (snd (for_each (set_iter (pending_changes s))
                      (fun p => git (Git.index_add p)) s))) =
      Return (repo s') /\
      Git.objects (repo s') =
        (Git.objects (repo s) ++
         [Git.mkCommit (git_now clk)
            (commit_message set_iter (commit_now clk) (pending_changes s))
            (Git.index (repo
               (snd (for_each (set_iter (pending_changes s))
                       (fun p => git (Git.index_add p)) s))))])%list /\
      pending_changes s' = [] /\
      logging s' =
        (logging s ++
         [INFO ("Created commit for changes in: " ++
                Py.join ", " (set_iter (pending_changes s)))])%list)
   \/
   (exists e s1,
      create_commit_body set_iter clk s = (Raise e, s1) /\
      fst (for_each (set_iter (pending_changes s))
             (fun p => git (Git.index_add p)) s) = Raise e /\
      Git.objects (repo s') = Git.objects (repo s) /\
      Git.heads (repo s') = Git.heads (repo s) /\
      pending_changes s' = pending_changes s /\
      logging s' = (logging s ++ [ERROR "Error creating commit" e])%list)).
Proof.
  cbv zeta.
  pose proof (staging_frame (set_iter (pending_changes s)) s) as F.
  cbv zeta in F.
  unfold _create_commit, try_except.
  destruct (create_commit_body set_iter clk s) as [[[]|e] s1] eqn:E;
    unfold create_commit_body in E; unfold bind, get in E;
    destruct (for_each (set_iter (pending_changes s))
                (fun p => git (Git.index_add p)) s) as [[[]|e2] s2] eqn:E2;
    cbn [snd fst] in F;
    destruct F as (Fo & Fh & FH & Fw & Fp & Fl & Fc & Fb & Fg & Fr);
    unfold git, Git.index_commit in E;
    destruct (Git.HEAD (repo s2)) eqn:EH;
    cbv beta iota delta [put_repo log put_pending_changes] in E;
    cbn [repo repo_path last_commit_time pending_changes config
         last_backup_time logging] in E;
    inversion E; subst; clear E;
    cbn [snd fst log repo repo_path last_commit_time pending_changes config
         last_backup_time logging Git.objects Git.heads Git.HEAD
         Git.working_tree];
    unfold Git.active_branch; cbn [Git.HEAD]; rewrite <- ?FH, ?EH;
    repeat (split; [ solve [ reflexivity | congruence ] | ]).
  all: try (left; eexists; repeat split;
            unfold Git.index_commit;
            rewrite ?EH, ?Fo, ?Fl, ?Fp; reflexivity).
  all: try (right; do 2 eexists; repeat split;
       rewrite ?Fo, ?Fl, ?Fp, ?Fh; reflexivity).
Qed.

(** [_try_commit], case by case. *)
Lemma try_commit_cases clk s :
  let now := time_time clk in
  let s1 := snd (put_last_commit_time now
                   (snd (_create_commit set_iter clk s))) in
  _try_commit set_iter clk s =
  (Return tt,
   if flush_due now s then
     if backup_due now s then
       snd (put_last_backup_time now
              (snd (_create_backup_branch (backup_now clk) s1)))
     else s1
   else s).
Proof.
  cbv zeta. unfold _try_commit. unfold bind at 1. unfold get at 1.
  destruct (flush_due (time_time clk) s) eqn:Ef; [ | reflexivity ].
  destruct (create_commit_cases clk s)
    as (Hret & Hc & Hb & Hg & _).
  unfold bind at 1.
  destruct (_create_commit set_iter clk s) as [r s1] eqn:E.
  cbn [fst snd] in *. subst r.
  unfold bind at 1. unfold put_last_commit_time at 1.
  unfold bind at 1. unfold get at 1.
  cbn [put_last_commit_time snd].
  match goal with |- context [backup_due ?t ?st] =>
    assert (Hbd : backup_due t st = backup_due t s)
      by (unfold backup_due; cbn [config last_backup_time];
          rewrite Hg, Hb; reflexivity);
    rewrite Hbd; clear Hbd
  end.
  destruct (backup_due (time_time clk) s); [ | reflexivity ].
  unfold bind at 1.
  match goal with |- context [_create_backup_branch ?n ?st] =>
    pose proof (create_backup_branch_returns n st) as Hr;
    destruct (_create_backup_branch n st) as [r s2]
  end.
  cbn [fst snd] in *. subst r. reflexivity.
Qed.

End HandlerFacts.

(** ** The flush decision *)

(** C2. [_try_commit] attempts a commit if and only if the pending set is
    not empty and the cooldown has elapsed since [last_commit_time]; the
    attempt writes one of the two commit records to the log, and without it
    the handler is left exactly as it was.  With an empty pending set nothing
    happens at any clock value. *)
Theorem flush_iff_pending_and_cooldown :
  forall set_iter clk s,
    let now := time_time clk in
    let s' := snd (_try_commit set_iter clk s) in
    (flush_due now s = true <->
     pending_changes s <> [] /\
     now - last_commit_time s >= commit_cooldown (config s)) /\
    (flush_due now s = true ->
     last_commit_time s' = now /\
     exists r rest,
       logging s' = (logging s ++ r :: rest)%list /\ commit_record r) /\
    (flush_due now s = false ->
     _try_commit set_iter clk s = (Return tt, s)) /\
    (pending_changes s = [] ->
     _try_commit set_iter clk s = (Return tt, s)).
Proof.
  intros set_iter clk s now s'.
  assert (Hiff : flush_due now s = true <->
                 pending_changes s <> [] /\
                 now - last_commit_time s >= commit_cooldown (config s)).
  { unfold flush_due. rewrite andb_true_iff, negb_true_iff, Z.geb_le.
    rewrite Nat.eqb_neq. split.
    - intros [Ht Hp]. split; [ | lia ].
      intros Hnil. apply Hp. rewrite Hnil. reflexivity.
    - intros [Hp Ht]. split; [ lia | ].
      destruct (pending_changes s); [ congruence | discriminate ]. }
  assert (Hno : flush_due now s = false ->
                _try_commit set_iter clk s = (Return tt, s)).
  { intros Hf. rewrite try_commit_cases. fold now. rewrite Hf.
    reflexivity. }
  split; [ exact Hiff | ]. split; [ | split; [ exact Hno | ] ].
  - intros Hf. subst s'. rewrite try_commit_cases. fold now. rewrite Hf.
    cbn [snd]. split.
    { destruct (backup_due now s); [ | reflexivity ].
      cbn [put_last_backup_time snd last_commit_time].
      apply (create_backup_branch_preserves last_commit_time);
        reflexivity. }
    destruct (create_commit_cases set_iter clk s)
      as (_ & _ & _ & _ & _ & _ & _ & Hcases).
    assert (Hrec : exists r,
               logging (snd (_create_commit set_iter clk s)) =
               (logging s ++ [r])%list /\ commit_record r).
    { destruct Hcases
        as [(s1 & _ & _ & _ & _ & Hl) | (e & s1 & _ & _ & _ & _ & _ & Hl)].
      - eexists. split; [ exact Hl | ]. left. eexists. reflexivity.
      - eexists. split; [ exact Hl | ]. right. eexists. reflexivity. }
    destruct Hrec as (r & Hl & Hr).
    destruct (backup_due now s).
    + match goal with |- context [_create_backup_branch ?n ?st] =>
        destruct (rotation_logs n st) as (removed & r' & Hrot & _) end.
      cbn [put_last_backup_time snd logging]. rewrite Hrot.
      cbn [put_last_commit_time snd logging]. rewrite Hl.
      exists r, (removed ++ [r'])%list. split; [ | exact Hr ].
      rewrite <- app_assoc. reflexivity.
    + exists r, []. split; [ exact Hl | exact Hr ].
  - intros Hnil. apply Hno. unfold flush_due. rewrite Hnil.
    apply andb_false_r.
Qed.

(** ** The backup check *)

(** C1, as the code has it.  The backup check sits inside the branch taken
    when a commit is attempted.  On a call that does not attempt a commit
    the handler is left as it was: no rotation, [last_backup_time] kept.  On
    a call that does, the rotation runs after the commit attempt if and only
    if backups are enabled and 3600 s have passed since [last_backup_time];
    it ends with one of its two log records, and [last_backup_time] becomes
    the current time whether the rotation succeeded or not. *)
Theorem backup_check_follows_flush :
  forall set_iter clk s,
    let now := time_time clk in
    let s' := snd (_try_commit set_iter clk s) in
    let committed :=
      snd (put_last_commit_time now (snd (_create_commit set_iter clk s))) in
    (backup_due now s = true <->
     create_backup_branches (config s) = true /\
     now - last_backup_time s >= 3600) /\
    (flush_due now s = false -> s' = s) /\
    (flush_due now s = true -> backup_due now s = true ->
     s' = snd (put_last_backup_time now
                 (snd (_create_backup_branch (backup_now clk) committed))) /\
     last_backup_time s' = now /\
     exists removed r,
       logging s' = (logging committed ++ removed ++ [r])%list /\
       rotation_record r) /\
    (flush_due now s = true -> backup_due now s = false ->
     s' = committed /\ last_backup_time s' = last_backup_time s).
Proof.
  intros set_iter clk s now s' committed.
  assert (Hs' : s' = if flush_due now s then
                       if backup_due now s then
                         snd (put_last_backup_time now
                                (snd (_create_backup_branch (backup_now clk)
                                        committed)))
                       else committed
                     else s).
  { subst s'. rewrite try_commit_cases. reflexivity. }
  split; [ | split; [ | split ] ].
  - unfold backup_due. rewrite andb_true_iff, Z.geb_le. intuition lia.
  - intros Hf. rewrite Hs', Hf. reflexivity.
  - intros Hf Hb. rewrite Hs', Hf, Hb. split; [ reflexivity | ].
    split; [ reflexivity | ].
    destruct (rotation_logs (backup_now clk) committed)
      as (removed & r & Hl & Hr).
    exists removed, r. split; [ exact Hl | exact Hr ].
  - intros Hf Hb. rewrite Hs', Hf, Hb. split; [ reflexivity | ].
    subst committed. cbn [put_last_commit_time snd last_backup_time].
    apply (create_commit_cases set_iter clk s).
Qed.

(** C1, counterexample.  The handler committed at 3598 s and has not made a
    backup since it started at 0 s.  A tracked file changes at 3600 s:
    backups are enabled and an hour has passed, but the cooldown of 5 s has
    not, so no commit is attempted, the rotation does not run (no branch, no
    log record) and [last_backup_time] stays at 0. *)
Lemma backup_check_skipped_without_flush :
  create_backup_branches (config handler_after_commit) = true /\
  3600 - last_backup_time handler_after_commit >= 3600 /\
  flush_due 3600
    (snd (put_pending_changes ["src/a.py"] handler_after_commit)) = false /\
  last_backup_time
    (snd (on_modified insertion_order (tick 3600)
            (modified "/repo/src/a.py") handler_after_commit)) = 0 /\
  Git.heads (repo
    (snd (on_modified insertion_order (tick 3600)
            (modified "/repo/src/a.py") handler_after_commit))) =
  Git.heads (repo handler_after_commit) /\
  logging
    (snd (on_modified insertion_order (tick 3600)
            (modified "/repo/src/a.py") handler_after_commit)) =
  logging handler_after_commit.
Proof. vm_compute. repeat split; congruence. Qed.

(** ** A failed commit *)

(** C5. When the [try] block of [_create_commit] raises during a flush,
    [_try_commit] still returns normally, the pending set is what it was,
    no commit object was written, the error is in the log, and
    [last_commit_time] is the current time. *)
Theorem failed_commit_keeps_pending :
  forall set_iter clk s e s1,
    flush_due (time_time clk) s = true ->
    create_commit_body set_iter clk s = (Raise e, s1) ->
    let out := _try_commit set_iter clk s in
    fst out = Return tt /\
    pending_changes (snd out) = pending_changes s /\
    last_commit_time (snd out) = time_time clk /\
    Git.objects (repo (snd out)) = Git.objects (repo s) /\
    In (ERROR "Error creating commit" e) (logging (snd out)).
Proof.
  intros set_iter clk s e s1 Hf Hraise out. subst out.
  rewrite try_commit_cases, Hf. cbn [fst snd].
  destruct (create_commit_cases set_iter clk s)
    as (_ & _ & _ & _ & _ & _ & _ & Hcases).
  destruct Hcases as [(s2 & Hok & _) | (e' & s2 & Hr & _ & Ho & _ & Hp & Hl)];
    [ congruence | ].
  assert (e' = e) by congruence. subst e'.
  split; [ reflexivity | ].
  destruct (backup_due (time_time clk) s).
  - cbn [put_last_backup_time snd pending_changes last_commit_time repo
         logging].
    match goal with |- context [_create_backup_branch ?n ?st] =>
      set (st0 := st);
      pose proof (create_backup_branch_preserves pending_changes n
                    (fun _ _ => eq_refl) (fun _ _ => eq_refl) st0) as Fp;
      pose proof (create_backup_branch_preserves last_commit_time n
                    (fun _ _ => eq_refl) (fun _ _ => eq_refl) st0) as Fc;
      pose proof (rotation_repo_frame Git.objects n
                    (fun _ _ => eq_refl) (fun _ _ => eq_refl) st0) as Fo;
      destruct (rotation_logs n st0) as (removed & r & Fl & _)
    end.
    cbv beta in Fo. rewrite Fp, Fc, Fo, Fl. subst st0.
    cbn [put_last_commit_time snd pending_changes last_commit_time repo
         logging].
    rewrite Hp, Ho, Hl. repeat split.
    rewrite <- app_assoc. apply in_or_app. right. left. reflexivity.
  - cbn [put_last_commit_time snd pending_changes last_commit_time repo
         logging].
    rewrite Hp, Ho, Hl. repeat split.
    apply in_or_app. right. left. reflexivity.
Qed.

(** C5 at a handler whose second pending path has been deleted. *)
Lemma failed_commit_keeps_pending_witness :
  pending_changes
    (snd (_try_commit insertion_order (tick 10) handler_with_deleted_path)) =
  ["src/a.py"; "src/gone.py"] /\
  last_commit_time
    (snd (_try_commit insertion_order (tick 10) handler_with_deleted_path)) =
  10.
Proof.
  destruct (failed_commit_keeps_pending insertion_order (tick 10)
              handler_with_deleted_path FileNotFoundError
              (snd (create_commit_body insertion_order (tick 10)
                      handler_with_deleted_path))
              eq_refl eq_refl)
    as (_ & Hp & Hc & _).
  split; [ exact Hp | exact Hc ].
Defined.

(** ** The trackability filter *)

(** The order of the two pattern lists: a match in [ignore_patterns] wins,
    then a match in [file_patterns] tracks, and no match at all does not. *)
Lemma should_track_file_order root cfg path :
  let relative_path := Py.relpath path root in
  ((exists pat, In pat (ignore_patterns cfg) /\
                Fnmatch.fnmatch relative_path pat = true) ->
   should_track_file root cfg path = false) /\
  ((forall pat, In pat (ignore_patterns cfg) ->
                Fnmatch.fnmatch relative_path pat = false) ->
   (exists pat, In pat (file_patterns cfg) /\
                Fnmatch.fnmatch relative_path pat = true) ->
   should_track_file root cfg path = true) /\
  ((forall pat, In pat (ignore_patterns cfg) ->
                Fnmatch.fnmatch relative_path pat = false) ->
   (forall pat, In pat (file_patterns cfg) ->
                Fnmatch.fnmatch relative_path pat = false) ->
   should_track_file root cfg path = false).
Proof.
  cbv zeta. unfold should_track_file.
  assert (Hnone : forall f (l : list string),
             (forall x, In x l -> f x = false) -> existsb f l = false).
  { intros f l H. destruct (existsb f l) eqn:E; [ | reflexivity ].
    apply existsb_exists in E. destruct E as (x & Hx & Hfx).
    rewrite (H x Hx) in Hfx. discriminate. }
  repeat split.
  - intros Hex. apply existsb_exists in Hex. rewrite Hex. reflexivity.
  - intros Hi Hex. rewrite (Hnone _ _ Hi).
    apply existsb_exists in Hex. rewrite Hex. reflexivity.
  - intros Hi Hf. rewrite (Hnone _ _ Hi), (Hnone _ _ Hf). reflexivity.
Qed.

(** A change to a file the filter rejects leaves the handler as it was. *)
Lemma untracked_change_is_dropped set_iter clk event s :
  should_track_file (repo_path s) (config s) (src_path event) = false ->
  on_modified set_iter clk event s = (Return tt, s).
Proof.
  intros H. unfold on_modified, bind, get. rewrite H.
  destruct (is_directory event); reflexivity.
Qed.

(** C9, at the path of the scenario.  With the default configuration
    [build/output.js] at the top of the repository matches no ignore
    pattern: [**/build/**] asks for a [/] before [build].  It matches the
    file pattern [**/*.js], so it is tracked and recorded as pending. *)
Theorem build_output_js_is_recorded :
  Py.relpath "/repo/build/output.js" "/repo" = "build/output.js" /\
  Fnmatch.fnmatch "build/output.js" "**/build/**" = false /\
  existsb (Fnmatch.fnmatch "build/output.js")
          (ignore_patterns DEFAULT_CONFIG) = false /\
  Fnmatch.fnmatch "build/output.js" "**/*.js" = true /\
  should_track_file "/repo" DEFAULT_CONFIG "/repo/build/output.js" = true /\
  pending_changes
    (snd (on_modified insertion_order (tick 1)
            (modified "/repo/build/output.js") handler_at_start)) =
  ["build/output.js"].
Proof. vm_compute. repeat split. Qed.

(** The same slash is asked for by [**/*.py]: a source file at the top of
    the repository is not tracked at all. *)
Lemma top_level_source_file_is_not_tracked :
  should_track_file "/repo" DEFAULT_CONFIG "/repo/main.py" = false.
Proof. reflexivity. Qed.

(** One directory further down the same file is ignored. *)
Lemma nested_build_output_js_is_ignored :
  should_track_file "/repo" DEFAULT_CONFIG "/repo/src/build/output.js"
  = false.
Proof. reflexivity. Qed.

(** ** The commit message *)

Lemma strftime_commit_shape d :
  String.length (strftime_commit d) = 19%nat /\
  String.get 4 (strftime_commit d) = Some "-"%char /\
  String.get 7 (strftime_commit d) = Some "-"%char /\
  String.get 10 (strftime_commit d) = Some " "%char /\
  String.get 13 (strftime_commit d) = Some ":"%char /\
  String.get 16 (strftime_commit d) = Some ":"%char.
Proof. repeat split. Qed.

(** C4, as the code has it.  When every pending path can be staged,
    [_create_commit] writes one commit whose message is the text
    ["Cursor changes at "], the clock read as [YYYY-MM-DD HH:MM:SS] (19
    characters), an empty line, the line ["Files changed:"] and the pending
    paths joined by newlines, each path once, in the order in which the set
    is iterated: the same order the paths were staged in. *)
Theorem commit_message_format :
  forall set_iter clk s,
    (forall l, Permutation (set_iter l) l) ->
    NoDup (pending_changes s) ->
    (forall p, In p (pending_changes s) ->
               Git.in_list p (Git.working_tree (repo s)) = true) ->
    exists c files,
      Git.objects (repo (snd (_create_commit set_iter clk s))) =
        (Git.objects (repo s) ++ [c])%list /\
      Git.message c =
        "Cursor changes at " ++ strftime_commit (commit_now clk) ++
        Py.nl ++ Py.nl ++ "Files changed:" ++ Py.nl ++
        String.concat Py.nl files /\
      String.length (strftime_commit (commit_now clk)) = 19%nat /\
      files = set_iter (pending_changes s) /\
      NoDup files /\
      (forall p, In p files <-> In p (pending_changes s)) /\
      (Git.index (repo s) = [] -> Git.changes c = files).
Proof.
  intros set_iter clk s Hperm Hnd Htree.
  assert (Hstage : forall p, In p (set_iter (pending_changes s)) ->
                     Git.in_list p (Git.working_tree (repo s)) = true).
  { intros p Hp. apply Htree. apply (Permutation_in _ (Hperm _)). exact Hp. }
  assert (Hnd' : NoDup (set_iter (pending_changes s))).
  { apply (Permutation_NoDup (Permutation_sym (Hperm _))). exact Hnd. }
  destruct (create_commit_cases set_iter clk s)
    as (_ & _ & _ & _ & _ & _ & _ & Hcases).
  pose proof (staging_succeeds (set_iter (pending_changes s)) s Hstage) as Hok.
  destruct Hcases as [(s1 & _ & _ & Ho & _) | (e & s1 & _ & Hr & _)];
    [ | congruence ].
  eexists. exists (set_iter (pending_changes s)).
  split; [ exact Ho | ]. cbn [Git.message Git.changes].
  split; [ reflexivity | ]. split; [ apply strftime_commit_shape | ].
  split; [ reflexivity | ]. split; [ exact Hnd' | ]. split.
  - intros p. split.
    + apply Permutation_in. apply Hperm.
    + apply Permutation_in. apply Permutation_sym. apply Hperm.
  - intros Hidx. rewrite (staging_index _ _ Hstage).
    + rewrite Hidx. reflexivity.
    + rewrite Hidx. exact Hnd'.
Qed.

(** C4 for the two paths of the scenario, both present, with a set that
    iterates in insertion order. *)
Lemma commit_message_format_witness :
  exists c,
    Git.objects (repo (snd (_create_commit insertion_order (tick 5)
                              handler_two_pending))) = [c] /\
    Git.message c =
      "Cursor changes at 2024-03-07 09:05:01" ++ Py.nl ++ Py.nl ++
      "Files changed:" ++ Py.nl ++ "src/a.py" ++ Py.nl ++ "src/b.py".
Proof.
  destruct (commit_message_format insertion_order (tick 5)
              handler_two_pending)
    as (c & files & Ho & Hm & _ & Hf & _).
  - intros l. apply Permutation_refl.
  - repeat constructor; cbn; intuition discriminate.
  - intros p [<- | [<- | []]]; reflexivity.
  - exists c. split; [ exact Ho | ]. rewrite Hm, Hf. reflexivity.
Defined.

(** C4, counterexample.  The pending set holds [src/a.py] and [src/b.py].
    Iterated in one order it gives one commit message, iterated in the other
    order it gives another: the set and the clock do not determine the
    message. *)
Lemma commit_message_depends_on_set_order :
  map Git.message
      (Git.objects (repo (snd (_create_commit insertion_order (tick 5)
                                 handler_two_pending)))) =
  [ "Cursor changes at 2024-03-07 09:05:01" ++ Py.nl ++ Py.nl ++
    "Files changed:" ++ Py.nl ++ "src/a.py" ++ Py.nl ++ "src/b.py" ] /\
  map Git.message
      (Git.objects (repo (snd (_create_commit reverse_order (tick 5)
                                 handler_two_pending)))) =
  [ "Cursor changes at 2024-03-07 09:05:01" ++ Py.nl ++ Py.nl ++
    "Files changed:" ++ Py.nl ++ "src/b.py" ++ Py.nl ++ "src/a.py" ] /\
  Permutation (insertion_order (pending_changes handler_two_pending))
              (reverse_order (pending_changes handler_two_pending)).
Proof.
  split; [ reflexivity | ]. split; [ reflexivity | ].
  apply Permutation_rev.
Qed.

(** ** Changes inside the cooldown window *)

Lemma set_add_In x p l : In p (set_add x l) <-> In p l \/ p = x.
Proof.
  unfold set_add. destruct (Git.in_list x l) eqn:E.
  - apply in_list_true in E. split; [ auto | ].
    intros [H | ->]; assumption.
  - rewrite in_app_iff. cbn [In]. intuition congruence.
Qed.

Lemma set_add_NoDup x l : NoDup l -> NoDup (set_add x l).
Proof.
  intros H. unfold set_add. destruct (Git.in_list x l) eqn:E; [ exact H | ].
  apply in_list_false in E.
  apply NoDup_rev in H. rewrite <- (rev_involutive (l ++ [x])).
  apply NoDup_rev. rewrite rev_app_distr. cbn [rev app].
  constructor; [ | exact H ].
  intros Hin. apply E. apply in_rev. exact Hin.
Qed.

Lemma add_all_In ps : forall l p, In p (add_all ps l) <-> In p l \/ In p ps.
Proof.
  induction ps as [|x ps IH]; intros l p; cbn [add_all fold_left In].
  - tauto.
  - fold (add_all ps (set_add x l)). rewrite IH, set_add_In.
    intuition congruence.
Qed.

Lemma add_all_NoDup ps : forall l, NoDup l -> NoDup (add_all ps l).
Proof.
  induction ps as [|x ps IH]; intros l H; cbn [add_all fold_left].
  - exact H.
  - apply IH. apply set_add_NoDup. exact H.
Qed.

Lemma add_all_app ps qs l : add_all (ps ++ qs) l = add_all qs (add_all ps l).
Proof. unfold add_all. apply fold_left_app. Qed.

Section WindowFacts.

Variable set_iter : list string -> list string.

Lemma on_modified_tracked clk event s :
  is_directory event = false ->
  should_track_file (repo_path s) (config s) (src_path event) = true ->
  on_modified set_iter clk event s =
  _try_commit set_iter clk
    (snd (put_pending_changes
            (set_add (changed_path s event) (pending_changes s)) s)).
Proof.
  intros Hd Ht. unfold on_modified, bind, get. rewrite Hd, Ht. reflexivity.
Qed.

(** No exception leaves [on_modified]. *)
Lemma on_modified_returns clk event s :
  fst (on_modified set_iter clk event s) = Return tt.
Proof.
  unfold on_modified, bind, get. destruct (is_directory event);
    [ reflexivity | ].
  destruct (should_track_file _ _ _); [ | reflexivity ].
  cbn [negb put_pending_changes]. rewrite try_commit_cases. reflexivity.
Qed.

(** Inside the window only the pending set changes. *)
Lemma run_in_window events : forall s,
  Forall (in_window s) events ->
  run set_iter events s =
  snd (put_pending_changes
         (add_all (map (fun ce => changed_path s (snd ce)) events)
                  (pending_changes s)) s).
Proof.
  induction events as [|[clk event] events IH]; intros s Hall.
  - destruct s; reflexivity.
  - inversion Hall as [|x l Hin Hrest]; subst. destruct Hin as (Hd & Ht & Hw).
    cbn [fst snd] in Hd, Ht, Hw. cbn [run map snd add_all fold_left].
    rewrite (on_modified_tracked clk event s Hd Ht), try_commit_cases.
    cbn [snd].
    assert (Hf : flush_due (time_time clk)
                   (snd (put_pending_changes
                           (set_add (changed_path s event)
                                    (pending_changes s)) s)) = false).
    { unfold flush_due. cbn [put_pending_changes snd last_commit_time config].
      apply andb_false_iff. left. rewrite Z.geb_leb. apply Z.leb_gt. lia. }
    rewrite Hf. rewrite IH.
    + reflexivity.
    + revert Hrest. apply Forall_impl. intros ce H. exact H.
Qed.

End WindowFacts.

Lemma try_commit_objects set_iter clk s :
  Git.objects (repo (snd (_try_commit set_iter clk s))) =
  if flush_due (time_time clk) s
  then Git.objects (repo (snd (_create_commit set_iter clk s)))
  else Git.objects (repo s).
Proof.
  rewrite try_commit_cases. cbn [snd].
  destruct (flush_due (time_time clk) s); [ | reflexivity ].
  destruct (backup_due (time_time clk) s); [ | reflexivity ].
  cbn [put_last_backup_time snd repo].
  rewrite (rotation_repo_frame Git.objects (backup_now clk)
             (fun _ _ => eq_refl) (fun _ _ => eq_refl)).
  reflexivity.
Qed.

(** C3. Take a handler whose pending set holds each path once, any number
    of changes of tracked files that arrive before the cooldown is over, and
    one more change.  The changes inside the window write no commit.  The
    last call writes at most one, and its file list is the iteration of the
    pending set: every path that was pending or changed, each once.  If the
    last change comes when the cooldown is over and all the paths can be
    staged, it writes exactly one. *)
Theorem window_yields_one_commit :
  forall set_iter,
    (forall l, Permutation (set_iter l) l) ->
    forall s events clk_end event_end,
      NoDup (pending_changes s) ->
      Forall (in_window s) events ->
      is_directory event_end = false ->
      should_track_file (repo_path s) (config s) (src_path event_end)
        = true ->
      let paths := (map (fun ce => changed_path s (snd ce)) events ++
                    [changed_path s event_end])%list in
      let files := set_iter (add_all paths (pending_changes s)) in
      let before_end := run set_iter events s in
      let at_end := snd (on_modified set_iter clk_end event_end before_end) in
      Git.objects (repo before_end) = Git.objects (repo s) /\
      NoDup files /\
      (forall p, In p files <-> In p (pending_changes s) \/ In p paths) /\
      (Git.objects (repo at_end) = Git.objects (repo s) \/
       exists c,
         Git.objects (repo at_end) = (Git.objects (repo s) ++ [c])%list /\
         Git.message c =
           "Cursor changes at " ++ strftime_commit (commit_now clk_end) ++
           Py.nl ++ Py.nl ++ "Files changed:" ++ Py.nl ++
           String.concat Py.nl files) /\
      (time_time clk_end - last_commit_time s >= commit_cooldown (config s) ->
       (forall p, In p files ->
                  Git.in_list p (Git.working_tree (repo s)) = true) ->
       exists c,
         Git.objects (repo at_end) = (Git.objects (repo s) ++ [c])%list).
Proof.
  intros set_iter Hperm s events clk_end event_end Hnd Hwin Hdir Htrack
         paths files before_end at_end.
  assert (Hbefore : before_end =
            snd (put_pending_changes
                   (add_all (map (fun ce => changed_path s (snd ce)) events)
                            (pending_changes s)) s)).
  { subst before_end. apply run_in_window. exact Hwin. }
  set (st := snd (put_pending_changes (add_all paths (pending_changes s)) s)).
  assert (Hend : at_end = snd (_try_commit set_iter clk_end st)).
  { subst at_end. rewrite Hbefore. rewrite on_modified_tracked.
    - subst st paths. rewrite add_all_app. reflexivity.
    - exact Hdir.
    - exact Htrack. }
  assert (Hobj : Git.objects (repo at_end) =
                 if flush_due (time_time clk_end) st
                 then Git.objects (repo (snd (_create_commit set_iter
                                                clk_end st)))
                 else Git.objects (repo s)).
  { rewrite Hend, try_commit_objects. reflexivity. }
  destruct (create_commit_cases set_iter clk_end st)
    as (_ & _ & _ & _ & _ & _ & _ & Hcases).
  split; [ rewrite Hbefore; reflexivity | ].
  split; [ | split; [ | split ] ].
  - apply (Permutation_NoDup (Permutation_sym (Hperm _))).
    apply add_all_NoDup. exact Hnd.
  - intros p. subst files. rewrite <- add_all_In. split.
    + apply Permutation_in. apply Hperm.
    + apply Permutation_in. apply Permutation_sym. apply Hperm.
  - rewrite Hobj. destruct (flush_due (time_time clk_end) st);
      [ | left; reflexivity ].
    destruct Hcases as [(s1 & _ & _ & Ho & _) | (e & s1 & _ & _ & Ho & _)].
    + right. eexists. split; [ exact Ho | reflexivity ].
    + left. exact Ho.
  - intros Htime Hstage. rewrite Hobj.
    assert (Hf : flush_due (time_time clk_end) st = true).
    { unfold flush_due. subst st.
      cbn [put_pending_changes snd last_commit_time config pending_changes].
      apply andb_true_iff. split; [ apply Z.geb_le; lia | ].
      apply negb_true_iff, Nat.eqb_neq. intros Hlen.
      apply length_zero_iff_nil in Hlen.
      assert (Hin : In (changed_path s event_end)
                       (add_all paths (pending_changes s))).
      { apply add_all_In. right. subst paths. apply in_or_app. right.
        left. reflexivity. }
      rewrite Hlen in Hin. exact Hin. }
    rewrite Hf.
    destruct Hcases as [(s1 & _ & _ & Ho & _) | (e & s1 & _ & Hr & _)].
    + eexists. exact Ho.
    + exfalso.
      rewrite (staging_succeeds (set_iter (pending_changes st)) st) in Hr;
        [ discriminate | ].
      exact Hstage.
Qed.

(** C3 on the scenario of the specification: cooldown 5 s, [src/a.py] at
    0 s, [src/b.py] at 2 s, [src/a.py] again at 4 s and once more at 5 s. *)
Lemma window_yields_one_commit_witness :
  exists c,
    Git.objects (repo
      (run insertion_order
         [(tick 0, modified "/repo/src/a.py");
          (tick 2, modified "/repo/src/b.py");
          (tick 4, modified "/repo/src/a.py");
          (tick 5, modified "/repo/src/a.py")] handler_at_start)) = [c].
Proof.
  destruct (window_yields_one_commit insertion_order
              (fun l => Permutation_refl l) handler_at_start
              [(tick 0, modified "/repo/src/a.py");
               (tick 2, modified "/repo/src/b.py");
               (tick 4, modified "/repo/src/a.py")]
              (tick 5) (modified "/repo/src/a.py"))
    as (_ & _ & _ & _ & Hone).
  - constructor.
  - repeat constructor; vm_compute; congruence.
  - reflexivity.
  - reflexivity.
  - destruct Hone as (c & Hc).
    + vm_compute. congruence.
    + intros p [<- | [<- | []]]; reflexivity.
    + exists c. exact Hc.
Defined.

(** ** The first interval after start-up *)

Lemma checked_out_active n r r' :
  Git.active_branch r' = Git.active_branch r ->
  Git.checked_out n r' = Git.checked_out n r.
Proof.
  unfold Git.active_branch, Git.checked_out.
  destruct (Git.HEAD r'), (Git.HEAD r); congruence.
Qed.

Lemma other_heads_same r r' :
  Git.heads r' = Git.heads r ->
  Git.active_branch r' = Git.active_branch r ->
  Git.other_heads r' = Git.other_heads r.
Proof.
  intros Hh Ha. unfold Git.other_heads. rewrite Hh.
  apply filter_ext. intros h. rewrite (checked_out_active _ _ _ Ha).
  reflexivity.
Qed.

(** Moving the branch [b] leaves the other branches where they are. *)
Lemma move_head_others b c hs :
  filter (fun h => negb (String.eqb (Git.name h) b)) (Git.move_head b c hs) =
  filter (fun h => negb (String.eqb (Git.name h) b)) hs.
Proof.
  unfold Git.move_head. destruct (Git.has_head b hs).
  - induction hs as [|h hs IH]; [ reflexivity | ].
    cbn [map filter]. rewrite IH.
    destruct (String.eqb b (Git.name h)) eqn:E.
    + cbn [Git.name]. rewrite String.eqb_refl.
      rewrite String.eqb_sym, E. reflexivity.
    + reflexivity.
  - induction hs as [|h hs IH]; cbn [Git.insert_head filter Git.name].
    + rewrite String.eqb_refl. reflexivity.
    + destruct (String.leb b (Git.name h)); cbn [filter Git.name].
      * rewrite String.eqb_refl. reflexivity.
      * rewrite IH. reflexivity.
Qed.

Lemma index_commit_other_heads t m r r' :
  Git.index_commit t m r = Return r' ->
  Git.other_heads r' = Git.other_heads r.
Proof.
  unfold Git.index_commit, Git.other_heads, Git.checked_out.
  destruct (Git.HEAD r) eqn:E; intros [= <-]; cbn [Git.heads Git.HEAD].
  - apply move_head_others.
  - reflexivity.
Qed.

Section StartFacts.

Variable set_iter : list string -> list string.

(** Before the cooldown is over a call changes the pending set at most. *)
Lemma on_modified_no_flush clk event s :
  time_time clk - last_commit_time s < commit_cooldown (config s) ->
  exists pending,
    snd (on_modified set_iter clk event s) =
    snd (put_pending_changes pending s).
Proof.
  intros Hw. unfold on_modified, bind, get.
  destruct (is_directory event);
    [ exists (pending_changes s); destruct s; reflexivity | ].
  destruct (should_track_file _ _ _);
    [ | exists (pending_changes s); destruct s; reflexivity ].
  cbn [negb put_pending_changes]. rewrite try_commit_cases. cbn [snd].
  match goal with |- context [flush_due ?t ?st] =>
    assert (Hf : flush_due t st = false)
      by (unfold flush_due; cbn [last_commit_time config];
          apply andb_false_iff; left; rewrite Z.geb_leb; apply Z.leb_gt; lia);
    rewrite Hf
  end.
  eexists. reflexivity.
Qed.

Lemma run_no_flush events : forall s,
  Forall (fun ce => time_time (fst ce) - last_commit_time s
                    < commit_cooldown (config s)) events ->
  repo (run set_iter events s) = repo s /\
  last_commit_time (run set_iter events s) = last_commit_time s.
Proof.
  induction events as [|[clk event] events IH]; intros s Hall.
  - split; reflexivity.
  - inversion Hall as [|x l Hw Hrest]; subst. cbn [fst] in Hw.
    cbn [run]. destruct (on_modified_no_flush clk event s Hw) as [p Hp].
    rewrite Hp. apply (IH (snd (put_pending_changes p s))). exact Hrest.
Qed.

(** Before the backup interval is over a call leaves the branches other
    than the checked-out one, and [last_backup_time], alone. *)
Lemma on_modified_no_backup clk event s :
  time_time clk - last_backup_time s < 3600 ->
  let s' := snd (on_modified set_iter clk event s) in
  last_backup_time s' = last_backup_time s /\
  config s' = config s /\
  Git.active_branch (repo s') = Git.active_branch (repo s) /\
  Git.other_heads (repo s') = Git.other_heads (repo s).
Proof.
  intros Hw. cbv zeta. unfold on_modified, bind, get.
  destruct (is_directory event); [ repeat split | ].
  destruct (should_track_file _ _ _); [ | repeat split ].
  cbn [negb put_pending_changes]. rewrite try_commit_cases. cbn [snd].
  match goal with |- context [flush_due ?t ?st] =>
    assert (Hb : backup_due t st = false)
      by (unfold backup_due; cbn [last_backup_time];
          apply andb_false_iff; right; rewrite Z.geb_leb; apply Z.leb_gt; lia);
    rewrite Hb; set (st0 := st); destruct (flush_due t st0)
  end; [ | repeat split ].
  destruct (create_commit_cases set_iter clk st0)
    as (_ & _ & Hlb & Hcfg & _ & Hact & _ & Hcases).
  cbn [put_last_commit_time snd last_backup_time config repo].
  repeat split; try assumption.
  destruct Hcases as [(s1 & _ & Hci & _) | (e & s1 & _ & _ & _ & Hh & _)].
  - rewrite (index_commit_other_heads _ _ _ _ Hci).
    destruct (staging_frame (set_iter (pending_changes st0)) st0)
      as (_ & Fh & FH & _).
    apply other_heads_same; [ exact Fh | ].
    unfold Git.active_branch. rewrite FH. reflexivity.
  - apply other_heads_same; assumption.
Qed.

Lemma run_no_backup events : forall s,
  Forall (fun ce => time_time (fst ce) - last_backup_time s < 3600) events ->
  last_backup_time (run set_iter events s) = last_backup_time s /\
  Git.active_branch (repo (run set_iter events s)) =
    Git.active_branch (repo s) /\
  Git.other_heads (repo (run set_iter events s)) = Git.other_heads (repo s).
Proof.
  induction events as [|[clk event] events IH]; intros s Hall.
  - repeat split.
  - inversion Hall as [|x l Hw Hrest]; subst. cbn [fst] in Hw.
    cbn [run].
    destruct (on_modified_no_backup clk event s Hw) as (Hb & _ & Ha & Ho).
    destruct (IH (snd (on_modified set_iter clk event s))) as (Hb' & Ha' & Ho').
    + rewrite Hb. exact Hrest.
    + rewrite Hb', Ha', Ho'. repeat split; assumption.
Qed.

End StartFacts.

(** C10. [__init__] sets [last_commit_time] and [last_backup_time] to the two
    clock readings it takes.  However many changes arrive, as long as they
    come less than [commit_cooldown] after the first reading the repository
    is untouched (no commit), and as long as they come less than 3600 s
    after the second reading no branch other than the checked-out one is
    created, moved or deleted and [last_backup_time] stays as it was set. *)
Theorem nothing_before_first_interval :
  forall set_iter path cfg r t_commit t_backup events,
    let start := __init__ path cfg r t_commit t_backup in
    let s' := run set_iter events start in
    last_commit_time start = t_commit /\
    last_backup_time start = t_backup /\
    (Forall (fun ce => time_time (fst ce) - t_commit < commit_cooldown cfg)
            events ->
     repo s' = r /\ Git.objects (repo s') = Git.objects r /\
     last_commit_time s' = t_commit) /\
    (Forall (fun ce => time_time (fst ce) - t_backup < 3600) events ->
     Git.other_heads (repo s') = Git.other_heads r /\
     Git.active_branch (repo s') = Git.active_branch r /\
     last_backup_time s' = t_backup).
Proof.
  intros set_iter path cfg r t_commit t_backup events start s'.
  split; [ reflexivity | ]. split; [ reflexivity | ]. split.
  - intros Hall. destruct (run_no_flush set_iter events start Hall) as [Hr Hc].
    subst s'. rewrite Hr. repeat split. exact Hc.
  - intros Hall.
    destruct (run_no_backup set_iter events start Hall) as (Hb & Ha & Ho).
    repeat split; assumption.
Qed.

(** ** Sorting by a key *)

Section SortedFacts.

Context {A : Type} (key : A -> Z).

Lemma insert_key_perm x l : Permutation (insert_key key x l) (x :: l).
Proof.
  induction l as [|y l IH]; cbn [insert_key]; [ reflexivity | ].
  destruct (key x <=? key y); [ reflexivity | ].
  rewrite IH. apply perm_swap.
Qed.

Lemma sorted_perm l : Permutation (sorted key l) l.
Proof.
  induction l as [|x l IH]; cbn [sorted]; [ reflexivity | ].
  rewrite insert_key_perm. apply perm_skip. exact IH.
Qed.

Lemma insert_key_ascending x l :
  ascending key l -> ascending key (insert_key key x l).
Proof.
  unfold ascending. induction l as [|y l IH]; intros Hs; cbn [insert_key].
  - constructor; constructor.
  - destruct (key x <=? key y) eqn:E.
    + apply Z.leb_le in E. constructor; [ exact Hs | ].
      constructor; [ exact E | ].
      apply StronglySorted_inv in Hs. destruct Hs as [_ Hall].
      revert Hall. apply Forall_impl. intros a Ha. lia.
    + apply Z.leb_gt in E. apply StronglySorted_inv in Hs.
      destruct Hs as [Hs Hall]. constructor; [ apply IH; exact Hs | ].
      apply (Permutation_Forall (Permutation_sym (insert_key_perm x l))).
      constructor; [ lia | exact Hall ].
Qed.

Lemma sorted_ascending l : ascending key (sorted key l).
Proof.
  induction l as [|x l IH]; cbn [sorted].
  - constructor.
  - apply insert_key_ascending. exact IH.
Qed.

(** Sorting a list that is in order already changes nothing. *)
Lemma sorted_id l : ascending key l -> sorted key l = l.
Proof.
  unfold ascending. induction l as [|x l IH]; intros Hs; [ reflexivity | ].
  apply StronglySorted_inv in Hs. destruct Hs as [Hs Hall].
  cbn [sorted]. rewrite (IH Hs).
  destruct l as [|y l]; [ reflexivity | ]. cbn [insert_key].
  apply Forall_inv in Hall. apply Z.leb_le in Hall. rewrite Hall.
  reflexivity.
Qed.

Lemma filter_insert_key (keep : A -> bool) x l :
  ascending key l ->
  filter keep (insert_key key x l) =
  if keep x then insert_key key x (filter keep l) else filter keep l.
Proof.
  unfold ascending. induction l as [|y l IH]; intros Hs.
  - cbn [insert_key filter]. destruct (keep x); reflexivity.
  - apply StronglySorted_inv in Hs. destruct Hs as [Hs Hall].
    cbn [insert_key]. destruct (key x <=? key y) eqn:E.
    + cbn [filter]. destruct (keep x) eqn:Ex; [ | reflexivity ].
      destruct (keep y) eqn:Ey.
      * cbn [insert_key]. rewrite E. reflexivity.
      * apply Z.leb_le in E.
        assert (Hhd : forall l', Forall (fun b => key x <= key b) l' ->
                        insert_key key x (filter keep l') =
                        x :: filter keep l').
        { intros l'. induction l' as [|z l' IH']; intros Hz;
            [ reflexivity | ]. cbn [filter].
          destruct (keep z).
          - cbn [insert_key]. apply Forall_inv in Hz.
            apply Z.leb_le in Hz. rewrite Hz. reflexivity.
          - apply IH'. apply Forall_inv_tail in Hz. exact Hz. }
        rewrite Hhd; [ reflexivity | ].
        revert Hall. apply Forall_impl. intros a Ha. lia.
    + cbn [filter]. rewrite (IH Hs).
      destruct (keep x), (keep y); cbn [insert_key]; rewrite ?E; reflexivity.
Qed.

(** A stable sort commutes with dropping elements. *)
Lemma filter_sorted (keep : A -> bool) l :
  filter keep (sorted key l) = sorted key (filter keep l).
Proof.
  induction l as [|x l IH]; [ reflexivity | ]. cbn [sorted filter].
  rewrite filter_insert_key by apply sorted_ascending.
  rewrite IH. destruct (keep x); reflexivity.
Qed.

End SortedFacts.

(** ** Retention cleanup *)

Lemma without_nil hs : without [] hs = hs.
Proof.
  unfold without, Git.in_list. cbn [existsb negb].
  induction hs as [|h hs IH]; [ reflexivity | ].
  cbn [filter]. rewrite IH. reflexivity.
Qed.

Lemma without_cons n names hs :
  without names (Git.remove_head n hs) = without (n :: names) hs.
Proof.
  unfold without, Git.remove_head.
  induction hs as [|h hs IH]; [ reflexivity | ].
  cbn [filter Git.in_list existsb]. rewrite String.eqb_sym.
  destruct (String.eqb (Git.name h) n); cbn [negb orb filter].
  - exact IH.
  - fold (Git.in_list (Git.name h) names).
    destruct (Git.in_list (Git.name h) names); cbn [negb]; rewrite IH;
      reflexivity.
Qed.

Lemma has_head_true n hs :
  Git.has_head n hs = true <-> In n (map Git.name hs).
Proof.
  unfold Git.has_head. rewrite existsb_exists, in_map_iff. split.
  - intros (h & Hh & E). apply String.eqb_eq in E. exists h. auto.
  - intros (h & E & Hh). exists h. split; [ exact Hh | ].
    apply String.eqb_eq. auto.
Qed.

Lemma has_head_remove n m hs :
  n <> m -> Git.has_head n hs = true ->
  Git.has_head n (Git.remove_head m hs) = true.
Proof.
  intros Hne. rewrite !has_head_true, !in_map_iff.
  intros (h & E & Hh). exists h. split; [ exact E | ].
  unfold Git.remove_head. apply filter_In. split; [ exact Hh | ].
  apply negb_true_iff, String.eqb_neq. congruence.
Qed.

Lemma cleanup_loop_spec max : forall bs s,
  NoDup (map Git.name bs) ->
  (forall b, In b bs ->
             Git.has_head (Git.name b) (Git.heads (repo s)) = true) ->
  exists k,
    Git.heads (repo (snd (cleanup_loop max bs s))) =
      without (map Git.name (firstn k bs)) (Git.heads (repo s)) /\
    logging (snd (cleanup_loop max bs s)) =
      (logging s ++ map removed_record (firstn k bs))%list /\
    cleanup_loop max (skipn k bs) (snd (cleanup_loop max bs s)) =
      cleanup_loop max bs s /\
    (fst (cleanup_loop max bs s) = Return tt ->
     Z.of_nat k = Z.max 0 (Z.of_nat (List.length bs) - max)).
Proof.
  induction bs as [|b rest IH]; intros s Hnd Hin.
  - exists 0%nat. cbn [cleanup_loop firstn skipn map]. rewrite without_nil.
    rewrite app_nil_r.
    destruct (Z.of_nat (List.length (@nil Git.Head)) >? max) eqn:E;
      cbn [raise ret snd fst]; repeat split; try discriminate.
    intros _. rewrite Z.gtb_ltb in E. apply Z.ltb_ge in E.
    cbn [List.length] in *. lia.
  - destruct (Z.of_nat (List.length (b :: rest)) >? max) eqn:E.
    + destruct (Git.checked_out (Git.name b) (repo s)) eqn:Ec.
      * assert (Hout : cleanup_loop max (b :: rest) s =
                       (Raise GitCommandError, s)).
        { cbn [cleanup_loop]. rewrite E. unfold bind, git, Git.delete_head.
          rewrite Ec. reflexivity. }
        exists 0%nat. rewrite Hout. cbn [firstn skipn map snd fst].
        rewrite without_nil, app_nil_r. repeat split;
          [ exact Hout | discriminate ].
      * set (s3 := snd (log (removed_record b)
                     (snd (put_repo
                             (Git.set_heads
                                (Git.remove_head (Git.name b)
                                                 (Git.heads (repo s)))
                                (repo s)) s)))).
        assert (Hout : cleanup_loop max (b :: rest) s =
                       cleanup_loop max rest s3).
        { cbn [cleanup_loop]. rewrite E. unfold bind, git, Git.delete_head.
          rewrite Ec, (Hin b (or_introl eq_refl)). reflexivity. }
        destruct (IH s3) as (k & Hh & Hl & Hfix & Hk).
        { inversion Hnd; assumption. }
        { intros b' Hb'. subst s3.
          cbn [log put_repo snd repo Git.set_heads Git.heads].
          apply has_head_remove; [ | apply Hin; right; exact Hb' ].
          inversion Hnd as [|x l Hnotin _]; subst. intros Heq.
          apply Hnotin. rewrite <- Heq. apply in_map. exact Hb'. }
        exists (S k). rewrite Hout. cbn [firstn skipn map].
        rewrite Hh, Hl, Hfix. subst s3.
        cbn [log put_repo snd repo Git.set_heads Git.heads logging].
        rewrite without_cons, <- app_assoc. repeat split.
        intros Hret. specialize (Hk Hret).
        apply Z.gtb_lt in E. cbn [List.length] in *. lia.
    + assert (Hout : cleanup_loop max (b :: rest) s = (Return tt, s)).
      { cbn [cleanup_loop]. rewrite E. reflexivity. }
      exists 0%nat. rewrite Hout. cbn [firstn skipn map snd fst].
      rewrite without_nil, app_nil_r. repeat split; [ exact Hout | ].
      intros _. rewrite Z.gtb_ltb in E. apply Z.ltb_ge in E. lia.
Qed.

Lemma filter_comm {A} (f g : A -> bool) l :
  filter f (filter g l) = filter g (filter f l).
Proof.
  induction l as [|x l IH]; [ reflexivity | ]. cbn [filter].
  destruct (f x) eqn:Ef, (g x) eqn:Eg; cbn [filter];
    rewrite ?Ef, ?Eg, IH; reflexivity.
Qed.

Lemma NoDup_names_filter (f : Git.Head -> bool) hs :
  NoDup (map Git.name hs) -> NoDup (map Git.name (filter f hs)).
Proof.
  induction hs as [|h hs IH]; intros Hnd; [ exact Hnd | ].
  inversion Hnd as [|x l Hnotin Hrest]; subst. cbn [filter].
  destruct (f h); [ | apply IH; exact Hrest ].
  cbn [map]. constructor; [ | apply IH; exact Hrest ].
  intros Hin. apply Hnotin. apply in_map_iff in Hin.
  destruct Hin as (g & E & Hg). apply filter_In in Hg.
  apply in_map_iff. exists g. tauto.
Qed.

(** Taking away the first branches by name leaves the others. *)
Lemma without_firstn k bs :
  NoDup (map Git.name bs) ->
  without (map Git.name (firstn k bs)) bs = skipn k bs.
Proof.
  intros Hnd. rewrite <- (firstn_skipn k bs) at 2.
  rewrite <- (firstn_skipn k bs) in Hnd.
  set (l1 := firstn k bs) in *. set (l2 := skipn k bs) in *.
  unfold without. rewrite filter_app.
  assert (H1 : filter (fun h => negb (Git.in_list (Git.name h)
                                       (map Git.name l1))) l1 = []).
  { assert (Hall : forall h, In h l1 ->
               negb (Git.in_list (Git.name h) (map Git.name l1)) = false).
    { intros h Hh. apply negb_false_iff, in_list_true, in_map. exact Hh. }
    clear Hnd. revert Hall. generalize (map Git.name l1).
    induction l1 as [|h l1 IH]; intros names Hall; [ reflexivity | ].
    cbn [filter]. rewrite (Hall h (or_introl eq_refl)).
    apply IH. intros g Hg. apply Hall. right. exact Hg. }
  assert (H2 : filter (fun h => negb (Git.in_list (Git.name h)
                                       (map Git.name l1))) l2 = l2).
  { apply forallb_filter_id. apply forallb_forall. intros h Hh.
    apply negb_true_iff, in_list_false. intros Hin.
    rewrite map_app in Hnd. revert Hnd Hin Hh. generalize (map Git.name l1).
    intros names Hnd Hin Hh. induction names as [|n names IH];
      [ destruct Hin | ].
    cbn [app] in Hnd. inversion Hnd as [|x l Hnotin Hrest]; subst.
    destruct Hin as [-> | Hin]; [ | exact (IH Hrest Hin) ].
    apply Hnotin. apply in_or_app. right. apply in_map. exact Hh. }
  rewrite H1, H2. reflexivity.
Qed.

(** After the oldest [k] backup branches are gone, the backup branches in
    order of age are the remaining ones. *)
Lemma backup_heads_without prefix hs k :
  NoDup (map Git.name hs) ->
  backup_heads prefix
    (without (map Git.name (firstn k (backup_heads prefix hs))) hs) =
  skipn k (backup_heads prefix hs).
Proof.
  intros Hnd. unfold backup_heads at 1. unfold without.
  rewrite filter_comm, <- filter_sorted.
  fold (backup_heads prefix hs).
  apply (without_firstn k (backup_heads prefix hs)).
  unfold backup_heads.
  apply (Permutation_NoDup
           (Permutation_map Git.name (Permutation_sym (sorted_perm _ _)))).
  apply NoDup_names_filter. exact Hnd.
Qed.

(** C7. The cleanup takes the branches whose names start with the prefix,
    in ascending order of the commit date of their commits, and deletes from
    the front: the [k] oldest go, each with its log record, the others stay;
    when it returns normally [k] is the number by which the count exceeded
    [max_backup_branches].  Run again on the result it returns the same way
    and changes nothing. *)
Theorem cleanup_deletes_oldest_and_is_idempotent :
  forall s,
    NoDup (map Git.name (Git.heads (repo s))) ->
    let prefix := backup_branch_prefix (config s) in
    let max := max_backup_branches (config s) in
    let bs := backup_heads prefix (Git.heads (repo s)) in
    let out := _cleanup_backup_branches s in
    (forall b, In b bs <->
               In b (Git.heads (repo s)) /\
               Py.startswith (Git.name b) prefix = true) /\
    ascending committed bs /\
    (exists k,
       Git.heads (repo (snd out)) =
         without (map Git.name (firstn k bs)) (Git.heads (repo s)) /\
       backup_heads prefix (Git.heads (repo (snd out))) = skipn k bs /\
       logging (snd out) =
         (logging s ++ map removed_record (firstn k bs))%list /\
       (fst out = Return tt ->
        Z.of_nat k = Z.max 0 (Z.of_nat (List.length bs) - max))) /\
    _cleanup_backup_branches (snd out) = out.
Proof.
  intros s Hnd prefix max bs out.
  assert (Hbs : forall b, In b bs <->
                  In b (Git.heads (repo s)) /\
                  Py.startswith (Git.name b) prefix = true).
  { intros b. subst bs. unfold backup_heads. split.
    - intros H. apply (Permutation_in _ (sorted_perm _ _)) in H.
      apply filter_In in H. exact H.
    - intros H. apply (Permutation_in _ (Permutation_sym (sorted_perm _ _))).
      apply filter_In. exact H. }
  assert (Hout : out = cleanup_loop max bs s) by reflexivity.
  destruct (cleanup_loop_spec max bs s) as (k & Hh & Hl & Hfix & Hk).
  { subst bs. unfold backup_heads.
    apply (Permutation_NoDup
             (Permutation_map Git.name (Permutation_sym (sorted_perm _ _)))).
    apply NoDup_names_filter. exact Hnd. }
  { intros b Hb. apply has_head_true. apply in_map. apply Hbs. exact Hb. }
  rewrite <- Hout in Hh, Hl, Hfix, Hk.
  assert (Hcfg : config (snd out) = config s).
  { apply (cleanup_preserves config); reflexivity. }
  assert (Hbs' : backup_heads prefix (Git.heads (repo (snd out))) =
                 skipn k bs).
  { rewrite Hh. apply backup_heads_without. exact Hnd. }
  split; [ exact Hbs | ].
  split; [ apply sorted_ascending | ].
  split; [ exists k; repeat split; assumption | ].
  unfold _cleanup_backup_branches at 1. unfold bind, get.
  rewrite Hcfg. fold prefix max. rewrite Hbs'. exact Hfix.
Qed.

(** C7 on three backup branches with a bound of two: the branch on the
    oldest commit goes, and a second run changes nothing. *)
Lemma cleanup_deletes_oldest_and_is_idempotent_witness :
  map Git.name
      (Git.heads (repo (snd (_cleanup_backup_branches
                               handler_three_backups)))) =
  ["cursor-backup-20240307_100000"; "cursor-backup-20240307_120000";
   "main"] /\
  _cleanup_backup_branches
    (snd (_cleanup_backup_branches handler_three_backups)) =
  _cleanup_backup_branches handler_three_backups.
Proof.
  destruct (cleanup_deletes_oldest_and_is_idempotent handler_three_backups)
    as (_ & _ & _ & Hsame).
  - cbn. repeat constructor; cbn; intuition discriminate.
  - split; [ reflexivity | exact Hsame ].
Defined.

(** ** Rotation and the checked-out branch *)

Lemma has_head_insert n h hs :
  Git.has_head n (Git.insert_head h hs) =
  String.eqb n (Git.name h) || Git.has_head n hs.
Proof.
  unfold Git.has_head. induction hs as [|g hs IH]; [ reflexivity | ].
  cbn [Git.insert_head]. destruct (String.leb (Git.name h) (Git.name g));
    [ reflexivity | ].
  cbn [existsb]. rewrite IH.
  destruct (String.eqb n (Git.name h)), (String.eqb n (Git.name g));
    reflexivity.
Qed.

Lemma lookup_head_has n hs c :
  Git.lookup_head n hs = Some c -> Git.has_head n hs = true.
Proof.
  unfold Git.has_head. induction hs as [|h hs IH]; [ discriminate | ].
  cbn [Git.lookup_head existsb].
  destruct (String.eqb n (Git.name h)); [ reflexivity | exact IH ].
Qed.

Lemma try_except_snd {A X} (f : CursorChangeHandler -> X)
    (m : M A) (h : exn -> M A) s :
  (forall e, preserves f (h e)) ->
  f (snd (try_except m h s)) = f (snd (m s)).
Proof.
  intros Hh. unfold try_except. destruct (m s) as [[a|e] s1];
    [ reflexivity | apply Hh ].
Qed.

Lemma bind_snd {A B X} (f : CursorChangeHandler -> X)
    (m : M A) (k : A -> M B) s :
  (forall a, preserves f (k a)) ->
  f (snd (bind m k s)) = f (snd (m s)).
Proof.
  intros Hk. unfold bind. destruct (m s) as [[a|e] s1];
    [ apply Hk | reflexivity ].
Qed.

(** A rotation that gets as far as creating its branch: what is left of it
    is the cleanup, run on the repository with the new branch and [HEAD]
    back where it was. *)
Lemma rotation_run {X} (f : CursorChangeHandler -> X) now s b c :
  (forall r s, f (snd (log r s)) = f s) ->
  Git.HEAD (repo s) = Git.Attached b ->
  Git.lookup_head b (Git.heads (repo s)) = Some c ->
  Git.has_head (backup_branch_prefix (config s) ++ "-" ++ strftime_branch now)
               (Git.heads (repo s)) = false ->
  f (snd (_create_backup_branch now s)) =
  f (snd (_cleanup_backup_branches
       (snd (put_repo
          (Git.set_HEAD (Git.Attached b)
             (Git.set_HEAD
                (Git.Attached (backup_branch_prefix (config s) ++ "-" ++
                               strftime_branch now))
                (Git.set_heads
                   (Git.insert_head
                      (Git.mkHead (backup_branch_prefix (config s) ++ "-" ++
                                   strftime_branch now) c)
                      (Git.heads (repo s)))
                   (repo s)))) s)))).
Proof.
  intros Hlog EH El Eh. unfold _create_backup_branch.
  rewrite (try_except_snd f) by (intros e s'; apply Hlog).
  unfold bind at 1. unfold get at 1. cbv zeta.
  unfold bind at 1. unfold git_read, Git.active_branch. rewrite EH.
  unfold bind at 1. unfold git at 1. unfold Git.create_head, Git.head_commit.
  rewrite EH, El, Eh. cbn [put_repo].
  unfold bind at 1. unfold git at 1. unfold Git.checkout.
  cbn [repo Git.set_heads Git.heads].
  rewrite has_head_insert. cbn [Git.name]. rewrite String.eqb_refl.
  cbn [orb put_repo].
  unfold bind at 1. unfold git at 1. unfold Git.checkout.
  cbn [repo Git.set_HEAD Git.set_heads Git.heads].
  rewrite has_head_insert, (lookup_head_has _ _ _ El), orb_true_r.
  cbn [put_repo].
  rewrite (bind_snd f) by (intros a s'; apply Hlog).
  reflexivity.
Qed.

(** A rotation that stops before creating its branch changes the log
    only. *)
Lemma rotation_stops {X} (f : CursorChangeHandler -> X) now s :
  (forall r s, f (snd (log r s)) = f s) ->
  Git.active_branch (repo s) = Raise TypeError \/
  Git.head_commit (repo s) = None \/
  Git.has_head (backup_branch_prefix (config s) ++ "-" ++ strftime_branch now)
               (Git.heads (repo s)) = true ->
  f (snd (_create_backup_branch now s)) = f s.
Proof.
  intros Hlog Hstop. unfold _create_backup_branch.
  rewrite (try_except_snd f) by (intros e s'; apply Hlog).
  unfold bind at 1. unfold get at 1. cbv zeta.
  unfold bind at 1. unfold git_read.
  destruct (Git.active_branch (repo s)) as [b|e] eqn:Ea; [ | reflexivity ].
  unfold bind at 1. unfold git at 1. unfold Git.create_head.
  destruct (Git.head_commit (repo s)) as [c|] eqn:Ec; [ | reflexivity ].
  destruct (Git.has_head _ (Git.heads (repo s))) eqn:Eh; [ reflexivity | ].
  destruct Hstop as [H | [H | H]]; discriminate.
Qed.

Lemma rotation_HEAD now s :
  Git.HEAD (repo (snd (_create_backup_branch now s))) = Git.HEAD (repo s).
Proof.
  destruct (Git.HEAD (repo s)) as [b|c0] eqn:EH.
  - destruct (Git.lookup_head b (Git.heads (repo s))) as [c|] eqn:El.
    + destruct (Git.has_head
                  (backup_branch_prefix (config s) ++ "-" ++
                   strftime_branch now) (Git.heads (repo s))) eqn:Eh.
      * rewrite (rotation_stops (fun s => Git.HEAD (repo s)));
          [ exact EH | reflexivity | tauto ].
      * rewrite (rotation_run (fun s => Git.HEAD (repo s)) now s b c);
          try assumption; try reflexivity.
        rewrite (cleanup_repo_frame Git.HEAD) by reflexivity. reflexivity.
    + rewrite (rotation_stops (fun s => Git.HEAD (repo s)));
        [ exact EH | reflexivity | ].
      right. left. unfold Git.head_commit. rewrite EH. exact El.
  - rewrite (rotation_stops (fun s => Git.HEAD (repo s)));
      [ exact EH | reflexivity | ].
    left. unfold Git.active_branch. rewrite EH. reflexivity.
Qed.

(** C8. Whatever the repository looks like and however the rotation ends,
    [HEAD] after [_create_backup_branch] is [HEAD] before it: the two
    checkouts cancel, and a rotation that stops early stops before the
    first of them. *)
Theorem rotation_keeps_checkout :
  forall now s,
    Git.HEAD (repo (snd (_create_backup_branch now s))) = Git.HEAD (repo s) /\
    Git.active_branch (repo (snd (_create_backup_branch now s))) =
      Git.active_branch (repo s).
Proof.
  intros now s. pose proof (rotation_HEAD now s) as H.
  split; [ exact H | ]. unfold Git.active_branch. rewrite H. reflexivity.
Qed.

(** ** The order of branch names *)

Lemma ascii_compare_refl x : Ascii.compare x x = Eq.
Proof. apply N.compare_refl. Qed.

Lemma ascii_compare_lt_trans x y z :
  Ascii.compare x y = Lt -> Ascii.compare y z = Lt -> Ascii.compare x z = Lt.
Proof.
  unfold Ascii.compare. rewrite !N.compare_lt_iff. apply N.lt_trans.
Qed.

Lemma string_compare_refl a : String.compare a a = Eq.
Proof.
  induction a as [|x a IH]; [ reflexivity | ].
  cbn [String.compare]. rewrite ascii_compare_refl. exact IH.
Qed.

Lemma string_compare_lt_trans a : forall b c,
  String.compare a b = Lt -> String.compare b c = Lt ->
  String.compare a c = Lt.
Proof.
  induction a as [|x a IH]; intros [|y b] [|z c]; cbn [String.compare];
    try discriminate; try reflexivity.
  destruct (Ascii.compare x y) eqn:Exy; try discriminate;
    destruct (Ascii.compare y z) eqn:Eyz; try discriminate; intros H1 H2.
  - apply Ascii.compare_eq_iff in Exy, Eyz. subst.
    rewrite ascii_compare_refl. exact (IH _ _ H1 H2).
  - apply Ascii.compare_eq_iff in Exy. subst. rewrite Eyz. reflexivity.
  - apply Ascii.compare_eq_iff in Eyz. subst. rewrite Exy. reflexivity.
  - rewrite (ascii_compare_lt_trans _ _ _ Exy Eyz). reflexivity.
Qed.

Lemma ltb_compare a b : String.ltb a b = true <-> String.compare a b = Lt.
Proof.
  unfold String.ltb. destruct (String.compare a b); intuition congruence.
Qed.

Lemma ltb_trans a b c :
  String.ltb a b = true -> String.ltb b c = true -> String.ltb a c = true.
Proof. rewrite !ltb_compare. apply string_compare_lt_trans. Qed.

Lemma ltb_irrefl a : String.ltb a a = false.
Proof. unfold String.ltb. rewrite string_compare_refl. reflexivity. Qed.

Lemma leb_false_ltb a b : String.leb a b = false -> String.ltb b a = true.
Proof.
  unfold String.leb, String.ltb. rewrite (String.compare_antisym b a).
  destruct (String.compare a b); cbn [CompOpp]; congruence.
Qed.

Lemma leb_true_ltb a b :
  String.leb a b = true -> a <> b -> String.ltb a b = true.
Proof.
  unfold String.leb, String.ltb. intros H Hne.
  destruct (String.compare a b) eqn:E; try congruence.
  apply String.compare_eq_iff in E. contradiction.
Qed.

Lemma ltb_leb_false a b : String.ltb a b = true -> String.leb b a = false.
Proof.
  unfold String.leb, String.ltb. rewrite (String.compare_antisym b a).
  destruct (String.compare a b); cbn [CompOpp]; congruence.
Qed.

Lemma names_sorted_NoDup hs : names_sorted hs -> NoDup (map Git.name hs).
Proof.
  unfold names_sorted. induction hs as [|h hs IH]; intros Hs.
  - constructor.
  - apply StronglySorted_inv in Hs. destruct Hs as [Hs Hall].
    cbn [map]. constructor; [ | apply IH; exact Hs ].
    intros Hin. apply in_map_iff in Hin. destruct Hin as (g & E & Hg).
    rewrite Forall_forall in Hall. specialize (Hall g Hg).
    rewrite E, ltb_irrefl in Hall. discriminate.
Qed.

Lemma names_sorted_filter f hs :
  names_sorted hs -> names_sorted (filter f hs).
Proof.
  unfold names_sorted. induction hs as [|h hs IH]; intros Hs; [ exact Hs | ].
  apply StronglySorted_inv in Hs. destruct Hs as [Hs Hall]. cbn [filter].
  destruct (f h); [ | apply IH; exact Hs ].
  constructor; [ apply IH; exact Hs | ].
  rewrite Forall_forall in *. intros g Hg. apply filter_In in Hg.
  apply Hall. tauto.
Qed.

Lemma insert_head_perm h hs : Permutation (Git.insert_head h hs) (h :: hs).
Proof.
  induction hs as [|g hs IH]; cbn [Git.insert_head]; [ reflexivity | ].
  destruct (String.leb (Git.name h) (Git.name g)); [ reflexivity | ].
  rewrite IH. apply perm_swap.
Qed.

Lemma insert_head_sorted h hs :
  names_sorted hs -> Git.has_head (Git.name h) hs = false ->
  names_sorted (Git.insert_head h hs).
Proof.
  unfold names_sorted. induction hs as [|g hs IH]; intros Hs Hfresh.
  - constructor; constructor.
  - apply StronglySorted_inv in Hs. destruct Hs as [Hs Hall].
    unfold Git.has_head in Hfresh. cbn [existsb] in Hfresh.
    apply orb_false_iff in Hfresh. destruct Hfresh as [Hne Hfresh].
    apply String.eqb_neq in Hne.
    cbn [Git.insert_head].
    destruct (String.leb (Git.name h) (Git.name g)) eqn:E.
    + pose proof (leb_true_ltb _ _ E Hne) as Hlt.
      constructor; [ constructor; assumption | ].
      constructor; [ exact Hlt | ].
      revert Hall. apply Forall_impl. intros a Ha.
      exact (ltb_trans _ _ _ Hlt Ha).
    + constructor; [ apply IH; assumption | ].
      apply (Permutation_Forall (Permutation_sym (insert_head_perm h hs))).
      constructor; [ apply leb_false_ltb; exact E | exact Hall ].
Qed.

Lemma move_head_sorted b c hs :
  names_sorted hs -> names_sorted (Git.move_head b c hs).
Proof.
  intros Hs. unfold Git.move_head.
  destruct (Git.has_head b hs) eqn:Eh;
    [ | apply insert_head_sorted; assumption ].
  clear Eh. unfold names_sorted in *.
  induction hs as [|h hs IH]; [ constructor | ].
  apply StronglySorted_inv in Hs. destruct Hs as [Hs Hall].
  assert (Hname : forall g,
            Git.name (if String.eqb b (Git.name g) then Git.mkHead b c
                      else g) = Git.name g).
  { intros g. destruct (String.eqb b (Git.name g)) eqn:E; [ | reflexivity ].
    apply String.eqb_eq in E. exact E. }
  cbn [map]. constructor; [ apply IH; exact Hs | ].
  rewrite Forall_map, Hname. revert Hall. apply Forall_impl.
  intros g Hg. rewrite Hname. exact Hg.
Qed.

(** ** A sequence of rotations *)

Lemma prefix_append p s : String.prefix p (p ++ s) = true.
Proof.
  induction p as [|c p IH]; cbn [String.prefix String.append].
  - destruct s; reflexivity.
  - destruct (ascii_dec c c) as [_|Hne]; [ exact IH | contradiction ].
Qed.

Lemma move_head_backups prefix b c hs :
  Py.startswith b prefix = false ->
  backups prefix (Git.move_head b c hs) = backups prefix hs.
Proof.
  intros Hb. unfold backups, Git.move_head.
  destruct (Git.has_head b hs).
  - induction hs as [|h hs IH]; [ reflexivity | ]. cbn [map filter].
    rewrite IH. destruct (String.eqb b (Git.name h)) eqn:E;
      [ | reflexivity ].
    apply String.eqb_eq in E. cbn [Git.name]. rewrite <- E, Hb. reflexivity.
  - induction hs as [|h hs IH]; cbn [Git.insert_head filter Git.name].
    + rewrite Hb. reflexivity.
    + destruct (String.leb b (Git.name h)); cbn [filter Git.name].
      * rewrite Hb. reflexivity.
      * rewrite IH. reflexivity.
Qed.

Lemma lookup_head_insert n c hs :
  Git.has_head n hs = false ->
  Git.lookup_head n (Git.insert_head (Git.mkHead n c) hs) = Some c.
Proof.
  unfold Git.has_head. induction hs as [|h hs IH]; intros Hfresh;
    cbn [Git.insert_head Git.name].
  - cbn [Git.lookup_head Git.name Git.commit]. rewrite String.eqb_refl.
    reflexivity.
  - cbn [existsb] in Hfresh. apply orb_false_iff in Hfresh.
    destruct Hfresh as [Hne Hfresh].
    destruct (String.leb n (Git.name h)); cbn [Git.lookup_head Git.name
                                                 Git.commit].
    + rewrite String.eqb_refl. reflexivity.
    + rewrite Hne. apply IH. exact Hfresh.
Qed.

Lemma lookup_head_move b c hs :
  Git.lookup_head b (Git.move_head b c hs) = Some c.
Proof.
  unfold Git.move_head. destruct (Git.has_head b hs) eqn:Eh;
    [ | apply lookup_head_insert; exact Eh ].
  unfold Git.has_head in Eh. induction hs as [|h hs IH]; [ discriminate | ].
  cbn [existsb] in Eh. cbn [map Git.lookup_head].
  destruct (String.eqb b (Git.name h)) eqn:E.
  - cbn [Git.name Git.commit]. rewrite String.eqb_refl. reflexivity.
  - rewrite E. apply IH. exact Eh.
Qed.

(** A new branch whose name comes after those of all the backup branches
    is listed last among them. *)
Lemma insert_head_backups_last prefix h hs :
  names_sorted hs ->
  Py.startswith (Git.name h) prefix = true ->
  Forall (fun g => String.ltb (Git.name g) (Git.name h) = true)
         (backups prefix hs) ->
  backups prefix (Git.insert_head h hs) = (backups prefix hs ++ [h])%list.
Proof.
  unfold names_sorted, backups.
  induction hs as [|g hs IH]; intros Hs Hh Hlt.
  - cbn [Git.insert_head filter]. rewrite Hh. reflexivity.
  - apply StronglySorted_inv in Hs. destruct Hs as [Hs Hall].
    cbn [Git.insert_head].
    destruct (String.leb (Git.name h) (Git.name g)) eqn:E.
    + assert (Hnone : filter (fun branch =>
                                Py.startswith (Git.name branch) prefix)
                             (g :: hs) = []).
      { destruct (filter _ (g :: hs)) as [|x l] eqn:Ef; [ reflexivity | ].
        exfalso. apply Forall_inv in Hlt.
        assert (Hx : In x (g :: hs)).
        { eapply proj1. apply filter_In. rewrite Ef. left. reflexivity. }
        assert (Hgh : String.ltb (Git.name g) (Git.name h) = true).
        { destruct Hx as [<- | Hx]; [ exact Hlt | ].
          rewrite Forall_forall in Hall.
          exact (ltb_trans _ _ _ (Hall x Hx) Hlt). }
        apply ltb_leb_false in Hgh. congruence. }
      cbn [filter] in *. rewrite Hh. rewrite Hnone. reflexivity.
    + cbn [filter] in *.
      destruct (Py.startswith (Git.name g) prefix).
      * cbn [app]. f_equal. apply IH; [ exact Hs | exact Hh | ].
        apply Forall_inv_tail in Hlt. exact Hlt.
      * apply IH; assumption.
Qed.

(** The loop returns normally when the bound is not negative and none of
    the branches is checked out. *)
Lemma cleanup_loop_ok max : forall bs s,
  0 <= max ->
  NoDup (map Git.name bs) ->
  (forall b, In b bs ->
     Git.checked_out (Git.name b) (repo s) = false /\
     Git.has_head (Git.name b) (Git.heads (repo s)) = true) ->
  fst (cleanup_loop max bs s) = Return tt.
Proof.
  induction bs as [|b rest IH]; intros s Hmax Hnd Hin; cbn [cleanup_loop].
  - destruct (_ >? max) eqn:E; [ | reflexivity ].
    apply Z.gtb_lt in E. cbn [List.length] in E. lia.
  - destruct (_ >? max); [ | reflexivity ].
    destruct (Hin b (or_introl eq_refl)) as [Hc Hh].
    unfold bind at 1. unfold git at 1. unfold Git.delete_head.
    rewrite Hc, Hh. cbn [put_repo]. unfold bind at 1. cbn [log].
    apply IH; [ exact Hmax | inversion Hnd; assumption | ].
    intros b' Hb'. destruct (Hin b' (or_intror Hb')) as [Hc' Hh'].
    cbn [repo Git.set_heads Git.heads]. split.
    + unfold Git.checked_out in *. cbn [Git.HEAD Git.set_heads]. exact Hc'.
    + apply has_head_remove; [ | exact Hh' ].
      inversion Hnd as [|x l Hnotin _]; subst. intros Heq.
      apply Hnotin. rewrite <- Heq. apply in_map. exact Hb'.
Qed.

Lemma keep_last_app {A} n (l r : list A) :
  keep_last n (keep_last n l ++ r) = keep_last n (l ++ r).
Proof.
  unfold keep_last.
  assert (H : (skipn (List.length l - n) l ++ r =
               skipn (List.length l - n) (l ++ r))%list).
  { rewrite skipn_app.
    replace (List.length l - n - List.length l)%nat with 0%nat by lia.
    reflexivity. }
  rewrite H, skipn_skipn. f_equal.
  rewrite length_skipn, !length_app. lia.
Qed.

Lemma ascending_skipn {A} (key : A -> Z) k l :
  ascending key l -> ascending key (skipn k l).
Proof.
  unfold ascending. revert l. induction k as [|k IH]; intros l Hs;
    [ exact Hs | ].
  destruct l as [|x l]; [ exact Hs | ]. cbn [skipn]. apply IH.
  apply StronglySorted_inv in Hs. tauto.
Qed.

Lemma ascending_snoc {A} (key : A -> Z) l x :
  ascending key l -> Forall (fun a => key a <= key x) l ->
  ascending key (l ++ [x]).
Proof.
  unfold ascending. induction l as [|y l IH]; intros Hs Hall; cbn [app].
  - constructor; constructor.
  - apply StronglySorted_inv in Hs. destruct Hs as [Hs Hy].
    inversion Hall as [|z l' Hyx Hrest]; subst.
    constructor; [ apply IH; assumption | ].
    apply Forall_app. split; [ exact Hy | ]. constructor; [ exact Hyx | ].
    constructor.
Qed.

(** One rotation, from a repository in which the backup branches are [B],
    all of them older by name and by commit date than the branch about to be
    created: the backup branches afterwards are the last
    [max_backup_branches] of [B] followed by the new one. *)
Lemma rotation_step st s b B :
  0 <= max_backup_branches (config s) ->
  Git.HEAD (repo s) = Git.Attached b ->
  Py.startswith b (backup_branch_prefix (config s)) = false ->
  names_sorted (Git.heads (repo s)) ->
  backups (backup_branch_prefix (config s)) (Git.heads (repo s)) = B ->
  ascending committed B ->
  Forall (fun h =>
            String.ltb (Git.name h)
              (Git.name (created (backup_branch_prefix (config s)) st))
            = true /\
            committed h <= Git.committed_datetime (fst st)) B ->
  config (rotation st s) = config s /\
  Git.HEAD (repo (rotation st s)) = Git.Attached b /\
  names_sorted (Git.heads (repo (rotation st s))) /\
  backups (backup_branch_prefix (config s))
          (Git.heads (repo (rotation st s))) =
    keep_last (Z.to_nat (max_backup_branches (config s)))
              (B ++ [created (backup_branch_prefix (config s)) st]) /\
  ascending committed
    (keep_last (Z.to_nat (max_backup_branches (config s)))
               (B ++ [created (backup_branch_prefix (config s)) st])).
Proof.
  intros Hmax EH Hb Hsorted HB Hasc Hold.
  destruct st as [c now]. cbn [fst snd] in *.
  set (prefix := backup_branch_prefix (config s)) in *.
  set (max := max_backup_branches (config s)) in *.
  set (new := created prefix (c, now)) in *.
  set (s0 := snd (put_repo (tip_moved c (repo s)) s)).
  assert (Hrepo0 : repo s0 =
            Git.set_heads (Git.move_head b c (Git.heads (repo s))) (repo s)).
  { subst s0. cbn [put_repo snd repo]. unfold tip_moved. rewrite EH.
    reflexivity. }
  assert (EH0 : Git.HEAD (repo s0) = Git.Attached b).
  { rewrite Hrepo0. exact EH. }
  assert (Hheads0 : Git.heads (repo s0) =
                    Git.move_head b c (Git.heads (repo s))).
  { rewrite Hrepo0. reflexivity. }
  assert (Hcfg0 : config s0 = config s) by reflexivity.
  assert (Hsorted0 : names_sorted (Git.heads (repo s0))).
  { rewrite Hheads0. apply move_head_sorted. exact Hsorted. }
  assert (HB0 : backups prefix (Git.heads (repo s0)) = B).
  { rewrite Hheads0, move_head_backups by exact Hb. exact HB. }
  assert (El0 : Git.lookup_head b (Git.heads (repo s0)) = Some c).
  { rewrite Hheads0. apply lookup_head_move. }
  assert (Hnew : Py.startswith (Git.name new) prefix = true).
  { apply prefix_append. }
  assert (Hfresh : Git.has_head (Git.name new) (Git.heads (repo s0)) = false).
  { destruct (Git.has_head (Git.name new) (Git.heads (repo s0))) eqn:E;
      [ | reflexivity ].
    exfalso. apply has_head_true, in_map_iff in E.
    destruct E as (g & Eg & Hg).
    assert (HgB : In g B).
    { rewrite <- HB0. apply filter_In. split; [ exact Hg | ].
      rewrite Eg. exact Hnew. }
    rewrite Forall_forall in Hold. destruct (Hold g HgB) as [Hlt _].
    rewrite Eg, ltb_irrefl in Hlt. discriminate. }
  set (s6 := snd (put_repo
          (Git.set_HEAD (Git.Attached b)
             (Git.set_HEAD (Git.Attached (Git.name new))
                (Git.set_heads
                   (Git.insert_head new (Git.heads (repo s0)))
                   (repo s0)))) s0)).
  assert (Hrun : forall X (f : CursorChangeHandler -> X),
             (forall r s, f (snd (log r s)) = f s) ->
             f (rotation (c, now) s) =
             f (snd (_cleanup_backup_branches s6))).
  { intros X f Hlog. unfold rotation. cbn [fst snd]. fold s0.
    apply (rotation_run f now s0 b c Hlog EH0 El0). exact Hfresh. }
  assert (Hheads6 : Git.heads (repo s6) =
                    Git.insert_head new (Git.heads (repo s0)))
    by reflexivity.
  assert (Hsorted6 : names_sorted (Git.heads (repo s6))).
  { rewrite Hheads6. apply insert_head_sorted; assumption. }
  assert (HB6 : backups prefix (Git.heads (repo s6)) = (B ++ [new])%list).
  { rewrite Hheads6, insert_head_backups_last; try assumption.
    - rewrite HB0. reflexivity.
    - rewrite HB0. revert Hold. apply Forall_impl. intros g Hg. apply Hg. }
  assert (Hasc6 : ascending committed (B ++ [new])).
  { apply ascending_snoc; [ exact Hasc | ].
    revert Hold. apply Forall_impl. intros g Hg. apply Hg. }
  assert (Hbs : backup_heads prefix (Git.heads (repo s6)) =
                (B ++ [new])%list).
  { unfold backup_heads. fold (backups prefix (Git.heads (repo s6))).
    rewrite HB6. apply (sorted_id committed). exact Hasc6. }
  assert (Hnd : NoDup (map Git.name (B ++ [new]))).
  { rewrite <- HB6. apply NoDup_names_filter.
    apply names_sorted_NoDup. exact Hsorted6. }
  assert (Hin : forall g, In g (B ++ [new])%list ->
            Git.checked_out (Git.name g) (repo s6) = false /\
            Git.has_head (Git.name g) (Git.heads (repo s6)) = true).
  { intros g Hg. rewrite <- HB6 in Hg. apply filter_In in Hg.
    destruct Hg as [Hg Hpre]. split.
    - unfold Git.checked_out. cbn [s6 put_repo snd repo Git.set_HEAD Git.HEAD].
      apply String.eqb_neq. intros Heq. rewrite Heq in Hpre.
      congruence.
    - apply has_head_true. apply in_map. exact Hg. }
  destruct (cleanup_loop_spec max (B ++ [new]) s6 Hnd)
    as (k & Hh & _ & _ & Hk).
  { intros g Hg. apply Hin. exact Hg. }
  specialize (Hk (cleanup_loop_ok max _ s6 Hmax Hnd Hin)).
  assert (Hclean : _cleanup_backup_branches s6 =
                   cleanup_loop max (B ++ [new]) s6).
  { unfold _cleanup_backup_branches, bind, get.
    change (config s6) with (config s). fold prefix max. rewrite Hbs.
    reflexivity. }
  assert (Hkeep : skipn k (B ++ [new]) =
                  keep_last (Z.to_nat max) (B ++ [new])).
  { unfold keep_last. f_equal. lia. }
  assert (Hheads : Git.heads (repo (rotation (c, now) s)) =
                   without (map Git.name (firstn k (B ++ [new])))
                           (Git.heads (repo s6))).
  { rewrite (Hrun _ (fun s => Git.heads (repo s))) by reflexivity.
    rewrite Hclean. exact Hh. }
  split; [ | split; [ | split; [ | split ] ] ].
  - rewrite (Hrun _ config) by reflexivity.
    rewrite (cleanup_preserves config) by reflexivity. reflexivity.
  - unfold rotation. cbn [fst snd]. fold s0. rewrite rotation_HEAD.
    exact EH0.
  - rewrite Hheads. apply names_sorted_filter. exact Hsorted6.
  - rewrite Hheads. unfold backups, without. rewrite filter_comm.
    fold (backups prefix (Git.heads (repo s6))). rewrite HB6.
    fold (without (map Git.name (firstn k (B ++ [new]))) (B ++ [new])).
    rewrite without_firstn by exact Hnd. exact Hkeep.
  - unfold keep_last. apply ascending_skipn. exact Hasc6.
Qed.

Lemma in_skipn_firstn {A} k (l : list A) x : In x (firstn k l) -> In x l.
Proof.
  intros H. rewrite <- (firstn_skipn k l). apply in_or_app. left. exact H.
Qed.

Lemma in_skipn {A} k (l : list A) x : In x (skipn k l) -> In x l.
Proof.
  intros H. rewrite <- (firstn_skipn k l). apply in_or_app. right. exact H.
Qed.

Lemma rotations_from cfg b : forall steps s B,
  config s = cfg ->
  0 <= max_backup_branches cfg ->
  Git.HEAD (repo s) = Git.Attached b ->
  Py.startswith b (backup_branch_prefix cfg) = false ->
  names_sorted (Git.heads (repo s)) ->
  backups (backup_branch_prefix cfg) (Git.heads (repo s)) = B ->
  ascending committed B ->
  (List.length B <= Z.to_nat (max_backup_branches cfg))%nat ->
  Forall (fun h =>
            Forall (fun st =>
                      String.ltb (Git.name h)
                        (Git.name (created (backup_branch_prefix cfg) st))
                      = true /\
                      committed h <= Git.committed_datetime (fst st))
                   steps) B ->
  StronglySorted (in_order (backup_branch_prefix cfg)) steps ->
  backups (backup_branch_prefix cfg)
          (Git.heads (repo (rotations steps s))) =
    keep_last (Z.to_nat (max_backup_branches cfg))
              (B ++ map (created (backup_branch_prefix cfg)) steps) /\
  Git.HEAD (repo (rotations steps s)) = Git.Attached b /\
  config (rotations steps s) = cfg.
Proof.
  induction steps as [|st rest IH];
    intros s B Hcfg Hmax EH Hb Hsorted HB Hasc Hlen Hold Hsteps.
  - cbn [rotations fold_left map]. rewrite app_nil_r. repeat split;
      try assumption.
    unfold keep_last. replace (List.length B - _)%nat with 0%nat by lia.
    exact HB.
  - apply StronglySorted_inv in Hsteps. destruct Hsteps as [Hrest Hst].
    subst cfg.
    destruct (rotation_step st s b B Hmax EH Hb Hsorted HB Hasc)
      as (Hcfg1 & EH1 & Hsorted1 & HB1 & Hasc1).
    { revert Hold. apply Forall_impl. intros h Hh.
      apply Forall_inv in Hh. exact Hh. }
    cbn [rotations fold_left]. fold (rotations rest (rotation st s)).
    destruct (IH (rotation st s) _ Hcfg1 Hmax EH1 Hb Hsorted1 HB1 Hasc1)
      as (HBf & EHf & Hcfgf).
    + unfold keep_last. rewrite length_skipn. lia.
    + rewrite Forall_forall. intros h Hh. apply in_skipn in Hh.
      apply in_app_or in Hh. destruct Hh as [Hh | [<- | []]].
      * rewrite Forall_forall in Hold. specialize (Hold h Hh).
        apply Forall_inv_tail in Hold. exact Hold.
      * revert Hst. apply Forall_impl. intros st' Hst'. exact Hst'.
    + exact Hrest.
    + rewrite HBf, EHf, Hcfgf, keep_last_app, <- app_assoc.
      repeat split.
Qed.

(** C6, as the code has it.  Start from a repository whose branches are
    listed by name, with an existing branch checked out and no branch that
    carries the backup prefix, and a bound [N >= 0].  Make any number of
    rotations, each at a later branch name than the one before and with a
    tip whose commit date is not earlier.  Every rotation succeeds; the
    backup branches that exist afterwards are the last [N] that were
    created, [min N (number of rotations)] of them, and [HEAD] is where it
    was. *)
Theorem rotations_keep_most_recent :
  forall steps s b,
    0 <= max_backup_branches (config s) ->
    Git.HEAD (repo s) = Git.Attached b ->
    Git.has_head b (Git.heads (repo s)) = true ->
    names_sorted (Git.heads (repo s)) ->
    backups (backup_branch_prefix (config s)) (Git.heads (repo s)) = [] ->
    StronglySorted (in_order (backup_branch_prefix (config s))) steps ->
    backups (backup_branch_prefix (config s))
            (Git.heads (repo (rotations steps s))) =
      keep_last (Z.to_nat (max_backup_branches (config s)))
                (map (created (backup_branch_prefix (config s))) steps) /\
    List.length (backups (backup_branch_prefix (config s))
                         (Git.heads (repo (rotations steps s)))) =
      Nat.min (Z.to_nat (max_backup_branches (config s)))
              (List.length steps) /\
    Git.HEAD (repo (rotations steps s)) = Git.Attached b.
Proof.
  intros steps s b Hmax EH Hhas Hsorted Hnone Hsteps.
  assert (Hb : Py.startswith b (backup_branch_prefix (config s)) = false).
  { destruct (Py.startswith b (backup_branch_prefix (config s))) eqn:E;
      [ | reflexivity ].
    exfalso. apply has_head_true, in_map_iff in Hhas.
    destruct Hhas as (g & Eg & Hg).
    assert (Hin : In g (backups (backup_branch_prefix (config s))
                                (Git.heads (repo s)))).
    { apply filter_In. split; [ exact Hg | ]. rewrite Eg. exact E. }
    rewrite Hnone in Hin. exact Hin. }
  destruct (rotations_from (config s) b steps s [] eq_refl Hmax EH Hb
              Hsorted Hnone)
    as (HB & EHf & _).
  - constructor.
  - cbn [List.length]. lia.
  - constructor.
  - exact Hsteps.
  - cbn [app] in HB. rewrite HB. repeat split; [ | exact EHf ].
    unfold keep_last. rewrite length_skipn, length_map. lia.
Qed.

(** C6 on the scenario of the specification: after B1, B2, B3 with a bound
    of two, B2 and B3 remain. *)
Lemma rotations_keep_most_recent_witness :
  map Git.name
      (backups "cursor-backup"
         (Git.heads (repo (rotations three_rotations handler_keep_two)))) =
  ["cursor-backup-20240307_110000"; "cursor-backup-20240307_120000"].
Proof.
  destruct (rotations_keep_most_recent three_rotations handler_keep_two
              "main") as (H & _).
  - cbn. lia.
  - reflexivity.
  - reflexivity.
  - repeat constructor.
  - reflexivity.
  - repeat constructor; cbn; lia.
  - cbn [config handler_keep_two __init__ config_keep_two
         backup_branch_prefix] in H.
    rewrite H. reflexivity.
Defined.

(** C6, counterexample.  With a bound of two, three rotations succeed one
    after the other (each logs its "Created backup branch" record), but the
    tips they snapshot have commit dates 300, 200 and 100.  The cleanup
    orders by commit date, so the third rotation deletes the branch it has
    just created: the first two branches remain, not the two most recently
    created ones. *)
Lemma rotation_deletes_newest_branch :
  map Git.name
      (backups "cursor-backup"
         (Git.heads (repo (rotations three_rotations_going_back
                                     handler_keep_two)))) =
  ["cursor-backup-20240307_100000"; "cursor-backup-20240307_110000"] /\
  logging (rotations three_rotations_going_back handler_keep_two) =
  [ INFO "Created backup branch: cursor-backup-20240307_100000";
    INFO "Created backup branch: cursor-backup-20240307_110000";
    INFO "Removed old backup branch: cursor-backup-20240307_120000";
    INFO "Created backup branch: cursor-backup-20240307_120000" ].
Proof. split; reflexivity. Qed.

(** * Further properties of the handler *)

(** ** Exceptions stay inside *)


(** ** What is staged *)




Lemma staging_raises (xs : list string) : forall s p,
  In p xs -> Git.in_list p (Git.working_tree (repo s)) = false ->
  fst (for_each xs (fun q => git (Git.index_add q)) s) =
  Raise FileNotFoundError.
Proof.
  induction xs as [|x xs IH]; intros s p Hp Hmiss; [ destruct Hp | ].
  cbn [for_each]. unfold bind. unfold git at 1. unfold Git.index_add.
  destruct (Git.in_list x (Git.working_tree (repo s))) eqn:Ex;
    [ | reflexivity ].
  cbn [put_repo]. destruct Hp as [-> | Hp]; [ congruence | ].
  apply (IH _ p Hp). exact Hmiss.
Qed.

Lemma create_commit_body_raises set_iter clk s p :
  In p (set_iter (pending_changes s)) ->
  Git.in_list p (Git.working_tree (repo s)) = false ->
  fst (create_commit_body set_iter clk s) = Raise FileNotFoundError.
Proof.
  intros Hp Hmiss. unfold create_commit_body. unfold bind at 1.
  unfold get at 1. unfold bind at 1.
  pose proof (staging_raises _ s p Hp Hmiss) as Hr.
  destruct (for_each _ _ s) as [r s1]. cbn [fst] in Hr. subst r.
  reflexivity.
Qed.





(** One call of [on_modified] while a pending path is missing. *)
Lemma on_modified_blocked set_iter clk event s p :
  (forall l, Permutation (set_iter l) l) ->
  In p (pending_changes s) ->
  Git.in_list p (Git.working_tree (repo s)) = false ->
  Git.objects (repo (snd (on_modified set_iter clk event s))) =
    Git.objects (repo s) /\
  Git.working_tree (repo (snd (on_modified set_iter clk event s))) =
    Git.working_tree (repo s) /\
  (forall q, In q (pending_changes s) ->
             In q (pending_changes (snd (on_modified set_iter clk event s)))).
Proof.
  intros Hperm Hp Hmiss. unfold on_modified, bind, get.
  destruct (is_directory event); [ repeat split; auto | ].
  destruct (should_track_file _ _ _); [ | repeat split; auto ].
  cbn [negb put_pending_changes]. rewrite try_commit_cases. cbn [snd].
  match goal with |- context [flush_due ?t ?st] => set (st0 := st) end.
  assert (Hkeep : forall q, In q (pending_changes s) ->
                            In q (pending_changes st0)).
  { intros q Hq. subst st0. cbn [pending_changes]. apply set_add_In.
    left. exact Hq. }
  destruct (flush_due (time_time clk) st0);
    [ | repeat split; [ exact Hkeep ] ].
  destruct (create_commit_cases set_iter clk st0)
    as (_ & _ & _ & _ & _ & _ & Hw & Hcases).
  assert (Hraise : fst (create_commit_body set_iter clk st0) =
                   Raise FileNotFoundError).
  { apply (create_commit_body_raises set_iter clk st0 p).
    - apply (Permutation_in _ (Permutation_sym (Hperm _))).
      apply Hkeep. exact Hp.
    - exact Hmiss. }
  destruct Hcases as [(s1 & Hok & _) | (e & s1 & _ & _ & Ho & _ & Hpend & _)].
  { rewrite Hok in Hraise. discriminate. }
  destruct (backup_due (time_time clk) st0).
  - cbn [put_last_backup_time snd repo pending_changes].
    rewrite (rotation_repo_frame Git.objects) by reflexivity.
    rewrite (rotation_repo_frame Git.working_tree) by reflexivity.
    rewrite (create_backup_branch_preserves pending_changes)
      by reflexivity.
    cbn [put_last_commit_time snd repo pending_changes].
    rewrite Ho, Hw, Hpend. repeat split. exact Hkeep.
  - cbn [put_last_commit_time snd repo pending_changes].
    rewrite Ho, Hw, Hpend. repeat split. exact Hkeep.
Qed.

(** X4. A pending path that is missing from the working tree blocks the
    handler for good: as long as the working tree stays as it is, whatever
    changes arrive and however much time passes, no commit is written and
    nothing leaves the pending set. *)
Theorem missing_pending_path_blocks_commits :
  forall set_iter events s p,
    (forall l, Permutation (set_iter l) l) ->
    In p (pending_changes s) ->
    Git.in_list p (Git.working_tree (repo s)) = false ->
    Git.objects (repo (run set_iter events s)) = Git.objects (repo s) /\
    (forall q, In q (pending_changes s) ->
               In q (pending_changes (run set_iter events s))).
Proof.
  intros set_iter events s p Hperm. revert s.
  induction events as [|[clk event] events IH]; intros s Hp Hmiss.
  - split; auto.
  - cbn [run].
    destruct (on_modified_blocked set_iter clk event s p Hperm Hp Hmiss)
      as (Ho & Hw & Hkeep).
    destruct (IH (snd (on_modified set_iter clk event s))) as (Ho' & Hkeep').
    + apply Hkeep. exact Hp.
    + rewrite Hw. exact Hmiss.
    + rewrite Ho', Ho. split; [ reflexivity | ].
      intros q Hq. apply Hkeep', Hkeep. exact Hq.
Qed.

(** X4 with [src/gone.py] deleted: edits of [src/a.py] over two hours write
    no commit. *)
Lemma missing_pending_path_blocks_commits_witness :
  Git.objects (repo
    (run insertion_order
       [(tick 10, modified "/repo/src/a.py");
        (tick 3700, modified "/repo/src/b.py");
        (tick 7300, modified "/repo/src/a.py")]
       handler_with_deleted_path)) = [].
Proof.
  destruct (missing_pending_path_blocks_commits insertion_order
              [(tick 10, modified "/repo/src/a.py");
               (tick 3700, modified "/repo/src/b.py");
               (tick 7300, modified "/repo/src/a.py")]
              handler_with_deleted_path "src/gone.py") as (Ho & _).
  - intros l. apply Permutation_refl.
  - right. left. reflexivity.
  - reflexivity.
  - exact Ho.
Defined.

(** ** What a rotation does to the branches *)

Lemma insert_head_others prefix h hs :
  Py.startswith (Git.name h) prefix = true ->
  others prefix (Git.insert_head h hs) = others prefix hs.
Proof.
  intros Hh. unfold others. induction hs as [|g hs IH];
    cbn [Git.insert_head filter].
  - rewrite Hh. reflexivity.
  - destruct (String.leb (Git.name h) (Git.name g)); cbn [filter].
    + rewrite Hh. reflexivity.
    + rewrite IH. reflexivity.
Qed.

Lemma without_others prefix names hs :
  (forall n, In n names -> Py.startswith n prefix = true) ->
  others prefix (without names hs) = others prefix hs.
Proof.
  intros Hnames. unfold others, without. rewrite filter_comm.
  induction hs as [|h hs IH]; [ reflexivity | ]. cbn [filter].
  destruct (Py.startswith (Git.name h) prefix) eqn:E; cbn [negb].
  - exact IH.
  - cbn [filter].
    destruct (Git.in_list (Git.name h) names) eqn:Ein.
    + apply in_list_true, Hnames in Ein. congruence.
    + cbn [negb]. rewrite IH. reflexivity.
Qed.

Lemma backup_heads_are_backups prefix hs b :
  In b (backup_heads prefix hs) ->
  In b hs /\ Py.startswith (Git.name b) prefix = true.
Proof.
  unfold backup_heads. intros H.
  apply (Permutation_in _ (sorted_perm _ _)) in H.
  apply filter_In in H. exact H.
Qed.

Lemma backup_heads_NoDup prefix hs :
  NoDup (map Git.name hs) -> NoDup (map Git.name (backup_heads prefix hs)).
Proof.
  intros Hnd. unfold backup_heads.
  apply (Permutation_NoDup
           (Permutation_map Git.name (Permutation_sym (sorted_perm _ _)))).
  apply NoDup_names_filter. exact Hnd.
Qed.

(** What the cleanup leaves: the branches without some of the oldest
    backup branches. *)
Lemma cleanup_heads s :
  NoDup (map Git.name (Git.heads (repo s))) ->
  exists k,
    Git.heads (repo (snd (_cleanup_backup_branches s))) =
    without (map Git.name
               (firstn k (backup_heads (backup_branch_prefix (config s))
                                       (Git.heads (repo s)))))
            (Git.heads (repo s)).
Proof.
  intros Hnd.
  destruct (cleanup_loop_spec (max_backup_branches (config s))
              (backup_heads (backup_branch_prefix (config s))
                            (Git.heads (repo s))) s)
    as (k & Hh & _).
  - apply backup_heads_NoDup. exact Hnd.
  - intros b Hb. apply has_head_true, in_map.
    apply (backup_heads_are_backups _ _ _ Hb).
  - exists k. exact Hh.
Qed.

Lemma cleanup_others s :
  NoDup (map Git.name (Git.heads (repo s))) ->
  others (backup_branch_prefix (config s))
         (Git.heads (repo (snd (_cleanup_backup_branches s)))) =
  others (backup_branch_prefix (config s)) (Git.heads (repo s)).
Proof.
  intros Hnd. destruct (cleanup_heads s Hnd) as (k & Hh). rewrite Hh.
  apply without_others. intros n Hn. apply in_map_iff in Hn.
  destruct Hn as (b & <- & Hb). apply in_skipn_firstn in Hb.
  apply (backup_heads_are_backups _ _ _ Hb).
Qed.

(** A rotation that finds its name free, step by step: the branch is
    created at the commit of the checked-out branch, the two checkouts go
    there and back, the cleanup runs, and the outcome of the cleanup decides
    which record is written. *)
Lemma rotation_unfolded now s b c :
  Git.HEAD (repo s) = Git.Attached b ->
  Git.lookup_head b (Git.heads (repo s)) = Some c ->
  Git.has_head (backup_name s now) (Git.heads (repo s)) = false ->
  _create_backup_branch now s =
  match _cleanup_backup_branches
          (with_new_branch s b (backup_name s now) c) with
  | (Return _, s') =>
      log (INFO ("Created backup branch: " ++ backup_name s now)) s'
  | (Raise e, s') => log (ERROR "Error creating backup branch" e) s'
  end.
Proof.
  unfold backup_name, with_new_branch. intros EH El Eh.
  unfold _create_backup_branch, try_except.
  unfold bind at 1. unfold get at 1. cbv zeta.
  unfold bind at 1. unfold git_read, Git.active_branch. rewrite EH.
  unfold bind at 1. unfold git at 1. unfold Git.create_head, Git.head_commit.
  rewrite EH, El, Eh. cbn [put_repo].
  unfold bind at 1. unfold git at 1. unfold Git.checkout.
  cbn [repo Git.set_heads Git.heads].
  rewrite has_head_insert. cbn [Git.name]. rewrite String.eqb_refl.
  cbn [orb put_repo].
  unfold bind at 1. unfold git at 1. unfold Git.checkout.
  cbn [repo Git.set_HEAD Git.set_heads Git.heads].
  rewrite has_head_insert, (lookup_head_has _ _ _ El), orb_true_r.
  cbn [put_repo snd]. unfold bind at 1.
  destruct (_cleanup_backup_branches _) as [[[]|e] s']; reflexivity.
Qed.

Lemma insert_head_NoDup h hs :
  Git.has_head (Git.name h) hs = false ->
  NoDup (map Git.name hs) ->
  NoDup (map Git.name (Git.insert_head h hs)).
Proof.
  intros Hfresh Hnd.
  apply (Permutation_NoDup
           (Permutation_map Git.name
              (Permutation_sym (insert_head_perm h hs)))).
  cbn [map]. constructor; [ | exact Hnd ].
  intros Hin. apply has_head_true in Hin. congruence.
Qed.

(** X5. A rotation creates and deletes branches that carry the backup
    prefix and nothing else: the branches whose names do not start with the
    prefix are afterwards exactly what they were, no commit is written,
    nothing is staged, and the pending set and the two timestamps of the
    handler are untouched. *)
Theorem rotation_touches_backup_branches_only :
  forall now s,
    NoDup (map Git.name (Git.heads (repo s))) ->
    others (backup_branch_prefix (config s))
           (Git.heads (repo (snd (_create_backup_branch now s)))) =
      others (backup_branch_prefix (config s)) (Git.heads (repo s)) /\
    Git.objects (repo (snd (_create_backup_branch now s))) =
      Git.objects (repo s) /\
    Git.index (repo (snd (_create_backup_branch now s))) =
      Git.index (repo s) /\
    pending_changes (snd (_create_backup_branch now s)) =
      pending_changes s /\
    last_commit_time (snd (_create_backup_branch now s)) =
      last_commit_time s /\
    last_backup_time (snd (_create_backup_branch now s)) =
      last_backup_time s.
Proof.
  intros now s Hnd. split; [ | repeat split ].
  - set (prefix := backup_branch_prefix (config s)).
    set (f := fun st : CursorChangeHandler =>
                others prefix (Git.heads (repo st))).
    change (f (snd (_create_backup_branch now s)) = f s).
    destruct (Git.HEAD (repo s)) as [b|c0] eqn:EH.
    + destruct (Git.lookup_head b (Git.heads (repo s))) as [c|] eqn:El.
      * destruct (Git.has_head (backup_name s now) (Git.heads (repo s)))
          eqn:Eh.
        -- apply rotation_stops; [ reflexivity | tauto ].
        -- rewrite (rotation_run f now s b c); try assumption;
             try reflexivity.
           fold (backup_name s now).
           fold (with_new_branch s b (backup_name s now) c).
           unfold f, prefix.
           change (config s)
             with (config (with_new_branch s b (backup_name s now) c)).
           rewrite cleanup_others.
           ++ cbn [with_new_branch put_repo snd repo config Git.set_HEAD
                   Git.set_heads Git.heads].
              apply insert_head_others. apply prefix_append.
           ++ cbn [with_new_branch put_repo snd repo Git.set_HEAD
                   Git.set_heads Git.heads].
              apply insert_head_NoDup; assumption.
      * apply rotation_stops; [ reflexivity | ].
        right. left. unfold Git.head_commit. rewrite EH. exact El.
    + apply rotation_stops; [ reflexivity | ].
      left. unfold Git.active_branch. rewrite EH. reflexivity.
  - apply (rotation_repo_frame Git.objects); reflexivity.
  - apply (rotation_repo_frame Git.index); reflexivity.
  - apply (create_backup_branch_preserves pending_changes); reflexivity.
  - apply (create_backup_branch_preserves last_commit_time); reflexivity.
  - apply (create_backup_branch_preserves last_backup_time); reflexivity.
Qed.

(** X5 on the repository with three backup branches and [main]: [main] is
    what remains outside the prefix. *)
Lemma rotation_touches_backup_branches_only_witness :
  map Git.name
      (others "cursor-backup"
         (Git.heads (repo (snd (_create_backup_branch (stamp 13 0 0)
                                  handler_three_backups))))) = ["main"].
Proof.
  destruct (rotation_touches_backup_branches_only (stamp 13 0 0)
              handler_three_backups) as (H & _).
  - cbn. repeat constructor; cbn; intuition discriminate.
  - cbn [config handler_three_backups __init__ config_keep_two
         backup_branch_prefix] in H.
    rewrite H. reflexivity.
Defined.


Lemma cleanup_loop_within max bs s :
  Z.of_nat (List.length bs) <= max ->
  cleanup_loop max bs s = (Return tt, s).
Proof.
  intros Hle.
  assert (E : (Z.of_nat (List.length bs) >? max) = false).
  { rewrite Z.gtb_ltb. apply Z.ltb_ge. exact Hle. }
  destruct bs; cbn [cleanup_loop]; rewrite E; reflexivity.
Qed.

Lemma backups_insert_length prefix h hs :
  Py.startswith (Git.name h) prefix = true ->
  List.length (backups prefix (Git.insert_head h hs)) =
  S (List.length (backups prefix hs)).
Proof.
  intros Hh. unfold backups. induction hs as [|g hs IH];
    cbn [Git.insert_head filter].
  - rewrite Hh. reflexivity.
  - destruct (String.leb (Git.name h) (Git.name g)); cbn [filter].
    + rewrite Hh. reflexivity.
    + destruct (Py.startswith (Git.name g) prefix); cbn [List.length];
        rewrite IH; reflexivity.
Qed.

Lemma backup_heads_length prefix hs :
  List.length (backup_heads prefix hs) = List.length (backups prefix hs).
Proof.
  unfold backup_heads, backups. apply Permutation_length, sorted_perm.
Qed.

(** A rotation below the bound: the handler afterwards. *)
Lemma rotation_below_bound now s b c :
  Git.HEAD (repo s) = Git.Attached b ->
  Git.lookup_head b (Git.heads (repo s)) = Some c ->
  Git.has_head (backup_name s now) (Git.heads (repo s)) = false ->
  Z.of_nat (List.length (backups (backup_branch_prefix (config s))
                                 (Git.heads (repo s))))
    < max_backup_branches (config s) ->
  snd (_create_backup_branch now s) =
  snd (log (INFO ("Created backup branch: " ++ backup_name s now))
         (with_new_branch s b (backup_name s now) c)).
Proof.
  intros EH El Eh Hlt. rewrite (rotation_unfolded now s b c EH El Eh).
  unfold _cleanup_backup_branches, bind, get.
  rewrite cleanup_loop_within; [ reflexivity | ].
  rewrite backup_heads_length.
  cbn [with_new_branch put_repo snd repo config Git.set_HEAD Git.set_heads
       Git.heads].
  rewrite backups_insert_length by apply prefix_append. lia.
Qed.

(** X7. When the checked-out branch has a commit, no branch of the new
    name exists and fewer backup branches exist than the bound allows, a
    rotation adds exactly one branch, named prefix, dash and timestamp, at
    the commit of the checked-out branch: every other branch, [HEAD], the
    commits and the index stay as they were, and the log gains the
    "Created backup branch" record alone. *)
Theorem rotation_below_bound_adds_one_branch :
  forall now s b c,
    Git.HEAD (repo s) = Git.Attached b ->
    Git.lookup_head b (Git.heads (repo s)) = Some c ->
    Git.has_head (backup_name s now) (Git.heads (repo s)) = false ->
    Z.of_nat (List.length (backups (backup_branch_prefix (config s))
                                   (Git.heads (repo s))))
      < max_backup_branches (config s) ->
    Git.heads (repo (snd (_create_backup_branch now s))) =
      Git.insert_head (Git.mkHead (backup_name s now) c)
                      (Git.heads (repo s)) /\
    Git.lookup_head (backup_name s now)
      (Git.heads (repo (snd (_create_backup_branch now s)))) = Some c /\
    Git.HEAD (repo (snd (_create_backup_branch now s))) = Git.Attached b /\
    logging (snd (_create_backup_branch now s)) =
      (logging s ++
       [INFO ("Created backup branch: " ++ backup_name s now)])%list.
Proof.
  intros now s b c EH El Eh Hlt.
  rewrite (rotation_below_bound now s b c EH El Eh Hlt).
  cbn [log snd with_new_branch put_repo repo logging Git.set_HEAD
       Git.set_heads Git.heads Git.HEAD].
  repeat split. apply lookup_head_insert. exact Eh.
Qed.

(** X7 on a fresh repository with the default bound of five. *)
Lemma rotation_below_bound_adds_one_branch_witness :
  map Git.name
      (Git.heads (repo (snd (_create_backup_branch (stamp 10 0 0)
                               handler_at_start)))) =
  ["cursor-backup-20240307_100000"; "main"].
Proof.
  destruct (rotation_below_bound_adds_one_branch (stamp 10 0 0)
              handler_at_start "main" (Git.mkCommit 0 "init" []))
    as (H & _).
  - reflexivity.
  - reflexivity.
  - reflexivity.
  - cbn. lia.
  - rewrite H. reflexivity.
Defined.


Lemma cleanup_loop_negative max : forall bs s,
  max < 0 ->
  NoDup (map Git.name bs) ->
  (forall b, In b bs ->
     Git.checked_out (Git.name b) (repo s) = false /\
     Git.has_head (Git.name b) (Git.heads (repo s)) = true) ->
  fst (cleanup_loop max bs s) = Raise IndexError /\
  Git.heads (repo (snd (cleanup_loop max bs s))) =
    without (map Git.name bs) (Git.heads (repo s)).
Proof.
  induction bs as [|b rest IH]; intros s Hmax Hnd Hin; cbn [cleanup_loop].
  - assert (E : (Z.of_nat (List.length (@nil Git.Head)) >? max) = true).
    { apply Z.gtb_lt. cbn [List.length]. lia. }
    rewrite E. cbn [raise fst snd map]. rewrite without_nil. split;
      reflexivity.
  - assert (E : (Z.of_nat (List.length (b :: rest)) >? max) = true).
    { apply Z.gtb_lt. lia. }
    rewrite E. destruct (Hin b (or_introl eq_refl)) as [Hc Hh].
    unfold bind at 1 3. unfold git at 1 2. unfold Git.delete_head.
    rewrite Hc, Hh. cbn [put_repo]. unfold bind at 1 2. cbn [log].
    match goal with |- context [cleanup_loop max rest ?st] =>
      destruct (IH st Hmax) as (Hr & Hheads) end.
    + inversion Hnd; assumption.
    + intros b' Hb'. destruct (Hin b' (or_intror Hb')) as [Hc' Hh'].
      cbn [repo Git.set_heads Git.heads]. split.
      * unfold Git.checked_out in *. cbn [Git.HEAD Git.set_heads].
        exact Hc'.
      * apply has_head_remove; [ | exact Hh' ].
        inversion Hnd as [|x l Hnotin _]; subst. intros Heq.
        apply Hnotin. rewrite <- Heq. apply in_map. exact Hb'.
    + split; [ exact Hr | ]. rewrite Hheads.
      cbn [repo Git.set_heads Git.heads map]. apply without_cons.
Qed.

(** X8. With a negative [max_backup_branches] the cleanup deletes every
    backup branch and then fails: the loop goes on to [pop(0)] an empty
    list, which raises [IndexError].  (None of the backup branches is
    checked out; a checked-out one would stop the loop earlier.) *)
Theorem negative_bound_removes_all_backups :
  forall s,
    max_backup_branches (config s) < 0 ->
    NoDup (map Git.name (Git.heads (repo s))) ->
    (forall b, In b (Git.heads (repo s)) ->
       Py.startswith (Git.name b) (backup_branch_prefix (config s)) = true ->
       Git.checked_out (Git.name b) (repo s) = false) ->
    fst (_cleanup_backup_branches s) = Raise IndexError /\
    backups (backup_branch_prefix (config s))
            (Git.heads (repo (snd (_cleanup_backup_branches s)))) = [] /\
    others (backup_branch_prefix (config s))
           (Git.heads (repo (snd (_cleanup_backup_branches s)))) =
      others (backup_branch_prefix (config s)) (Git.heads (repo s)).
Proof.
  intros s Hmax Hnd Hout.
  set (prefix := backup_branch_prefix (config s)).
  set (bs := backup_heads prefix (Git.heads (repo s))).
  destruct (cleanup_loop_negative (max_backup_branches (config s)) bs s Hmax)
    as (Hr & Hh).
  - apply backup_heads_NoDup. exact Hnd.
  - intros b Hb. apply backup_heads_are_backups in Hb.
    destruct Hb as [Hb Hp]. split.
    + apply Hout; assumption.
    + apply has_head_true, in_map. exact Hb.
  - change (_cleanup_backup_branches s)
      with (cleanup_loop (max_backup_branches (config s)) bs s).
    split; [ exact Hr | ]. split.
    + rewrite Hh. unfold backups, without. rewrite filter_comm.
      fold (backups prefix (Git.heads (repo s))).
      assert (Hall : forall h, In h (backups prefix (Git.heads (repo s))) ->
                negb (Git.in_list (Git.name h) (map Git.name bs)) = false).
      { intros h Hin. apply negb_false_iff, in_list_true, in_map.
        subst bs. unfold backup_heads.
        apply (Permutation_in _ (Permutation_sym (sorted_perm _ _))).
        exact Hin. }
      revert Hall. generalize (backups prefix (Git.heads (repo s))).
      intros l. induction l as [|h l IH]; intros Hall; [ reflexivity | ].
      cbn [filter]. rewrite (Hall h (or_introl eq_refl)).
      apply IH. intros g Hg. apply Hall. right. exact Hg.
    + rewrite Hh. apply without_others. intros n Hn.
      apply in_map_iff in Hn. destruct Hn as (b & <- & Hb).
      apply (backup_heads_are_backups _ _ _ Hb).
Qed.

(** X8 on three backup branches and a bound of -1. *)
Lemma negative_bound_removes_all_backups_witness :
  map Git.name
      (Git.heads (repo (snd (_cleanup_backup_branches
         (mkHandler "/repo" (repo handler_three_backups) 0 []
            (mkConfig [] [] "cursor-backup" (-1) 5 true) 0 []))))) =
  ["main"].
Proof.
  destruct (negative_bound_removes_all_backups
              (mkHandler "/repo" (repo handler_three_backups) 0 []
                 (mkConfig [] [] "cursor-backup" (-1) 5 true) 0 []))
    as (_ & _ & H).
  - cbn. lia.
  - cbn. repeat constructor; cbn; intuition discriminate.
  - intros b Hb Hp. cbn in Hb.
    destruct Hb as [<- | [<- | [<- | [<- | []]]]];
      first [ reflexivity | discriminate Hp ].
  - reflexivity.
Defined.

(** ** Commit and rotation in one call *)

Lemma has_head_move n b c hs :
  Git.has_head n (Git.move_head b c hs) =
  Git.has_head n hs || String.eqb n b.
Proof.
  unfold Git.move_head. destruct (Git.has_head b hs) eqn:Eb.
  - assert (Hmap : Git.has_head n
                     (map (fun h => if String.eqb b (Git.name h)
                                    then Git.mkHead b c else h) hs) =
                   Git.has_head n hs).
    { unfold Git.has_head. clear Eb. induction hs as [|h hs IH];
        [ reflexivity | ].
      cbn [map existsb]. rewrite IH. f_equal.
      destruct (String.eqb b (Git.name h)) eqn:E; [ | reflexivity ].
      apply String.eqb_eq in E. cbn [Git.name]. rewrite E. reflexivity. }
    rewrite Hmap. destruct (String.eqb n b) eqn:E.
    + apply String.eqb_eq in E. subst n. rewrite Eb. reflexivity.
    + rewrite orb_false_r. reflexivity.
  - rewrite has_head_insert. cbn [Git.name]. apply orb_comm.
Qed.

Lemma lookup_head_insert_other n h hs :
  String.eqb n (Git.name h) = false ->
  Git.lookup_head n (Git.insert_head h hs) = Git.lookup_head n hs.
Proof.
  intros Hne. induction hs as [|g hs IH]; cbn [Git.insert_head].
  - cbn [Git.lookup_head]. rewrite Hne. reflexivity.
  - destruct (String.leb (Git.name h) (Git.name g));
      cbn [Git.lookup_head].
    + rewrite Hne. reflexivity.
    + rewrite IH. reflexivity.
Qed.

(** X9. A call of [_try_commit] in which the commit goes through and the
    backup is due, made on a branch outside the backup prefix, with the new
    name free and the bound not reached: the commit is written first and the
    backup branch is created at that very commit, which is also where the
    checked-out branch now is; the pending set is empty and
    [last_backup_time] is the current time. *)
Theorem backup_snapshots_the_new_commit :
  forall set_iter clk s b,
    (forall l, Permutation (set_iter l) l) ->
    flush_due (time_time clk) s = true ->
    backup_due (time_time clk) s = true ->
    (forall p, In p (pending_changes s) ->
               Git.in_list p (Git.working_tree (repo s)) = true) ->
    Git.HEAD (repo s) = Git.Attached b ->
    Py.startswith b (backup_branch_prefix (config s)) = false ->
    Git.has_head (backup_name s (backup_now clk)) (Git.heads (repo s))
      = false ->
    Z.of_nat (List.length (backups (backup_branch_prefix (config s))
                                   (Git.heads (repo s))))
      < max_backup_branches (config s) ->
    exists c,
      Git.objects (repo (snd (_try_commit set_iter clk s))) =
        (Git.objects (repo s) ++ [c])%list /\
      Git.lookup_head b
        (Git.heads (repo (snd (_try_commit set_iter clk s)))) = Some c /\
      Git.lookup_head (backup_name s (backup_now clk))
        (Git.heads (repo (snd (_try_commit set_iter clk s)))) = Some c /\
      pending_changes (snd (_try_commit set_iter clk s)) = [] /\
      last_backup_time (snd (_try_commit set_iter clk s)) = time_time clk.
Proof.
  intros set_iter clk s b Hperm Hf Hb Htree EH Hbranch Hfresh Hlt.
  rewrite try_commit_cases, Hf, Hb. cbn [snd].
  assert (Hstage : forall p, In p (set_iter (pending_changes s)) ->
                     Git.in_list p (Git.working_tree (repo s)) = true).
  { intros p Hp. apply Htree. apply (Permutation_in _ (Hperm _)). exact Hp. }
  destruct (create_commit_cases set_iter clk s)
    as (_ & _ & _ & Hcfg & _ & _ & _ & Hcases).
  pose proof (staging_succeeds _ s Hstage) as Hok.
  destruct (staging_frame (set_iter (pending_changes s)) s)
    as (_ & Fh & FH & _).
  destruct Hcases as [(s1 & _ & Hci & Ho & Hp & _) | (e & s1 & _ & Hr & _)];
    [ | congruence ].
  unfold Git.index_commit in Hci. rewrite FH, EH, Fh in Hci.
  injection Hci as Hci.
  set (sc := snd (_create_commit set_iter clk s)) in *.
  set (c := Git.mkCommit (git_now clk)
              (commit_message set_iter (commit_now clk) (pending_changes s))
              (Git.index (repo (snd (for_each (set_iter (pending_changes s))
                                      (fun p => git (Git.index_add p)) s)))))
    in *.
  set (s1' := snd (put_last_commit_time (time_time clk) sc)).
  assert (Hrepo : repo s1' = repo sc) by reflexivity.
  assert (Hcfg1 : config s1' = config s) by exact Hcfg.
  assert (Hname : backup_name s1' (backup_now clk) =
                  backup_name s (backup_now clk)).
  { unfold backup_name. rewrite Hcfg1. reflexivity. }
  assert (Hheads : Git.heads (repo s1') =
                   Git.move_head b c (Git.heads (repo s))).
  { rewrite Hrepo, <- Hci. reflexivity. }
  assert (Hneq : String.eqb (backup_name s (backup_now clk)) b = false).
  { apply String.eqb_neq. intros Heq.
    assert (Hpre : Py.startswith (backup_name s (backup_now clk))
                     (backup_branch_prefix (config s)) = true)
      by apply prefix_append.
    rewrite Heq in Hpre. congruence. }
  pose proof (rotation_below_bound (backup_now clk) s1' b c) as Hrot.
  rewrite Hname, Hcfg1, Hheads in Hrot.
  rewrite Hrot; clear Hrot.
  - exists c.
    cbn [put_last_backup_time log snd with_new_branch put_repo repo
         pending_changes last_backup_time Git.set_HEAD Git.set_heads
         Git.heads Git.objects].
    rewrite Hheads, Hrepo.
    change (pending_changes s1') with (pending_changes sc).
    rewrite Ho, Hp. repeat split.
    + rewrite lookup_head_insert_other.
      * apply lookup_head_move.
      * cbn [Git.name]. rewrite String.eqb_sym. exact Hneq.
    + apply lookup_head_insert. rewrite has_head_move, Hfresh, Hneq.
      reflexivity.
  - rewrite Hrepo, <- Hci. reflexivity.
  - apply lookup_head_move.
  - rewrite has_head_move, Hfresh, Hneq. reflexivity.
  - rewrite move_head_backups by exact Hbranch. exact Hlt.
Qed.

(** X9 on an edit one hour after the handler started. *)
Lemma backup_snapshots_the_new_commit_witness :
  map (fun h => (Git.name h, Git.committed_datetime (Git.commit h)))
      (Git.heads (repo (snd (_try_commit insertion_order (tick 3600)
                               handler_two_pending)))) =
  [("cursor-backup-20240307_090501", 3600); ("main", 3600)].
Proof.
  destruct (backup_snapshots_the_new_commit insertion_order (tick 3600)
              handler_two_pending "main") as (c & _).
  - intros l. apply Permutation_refl.
  - reflexivity.
  - reflexivity.
  - intros p [<- | [<- | []]]; reflexivity.
  - reflexivity.
  - reflexivity.
  - reflexivity.
  - cbn. lia.
  - reflexivity.
Defined.

(** ** Patterns and the top of the repository *)




(** * Properties of the configuration file *)

Lemma dict_get_set key k v d :
  dict_get key (dict_set k v d) =
  if String.eqb key k then Some v else dict_get key d.
Proof.
  induction d as [|[k' w] d IH]; cbn [dict_set dict_get].
  - reflexivity.
  - destruct (String.eqb k k') eqn:E; cbn [dict_get].
    + apply String.eqb_eq in E. subst k'.
      destruct (String.eqb key k); reflexivity.
    + rewrite IH. destruct (String.eqb key k') eqn:E';
        [ | reflexivity ].
      apply String.eqb_eq in E'. subst k'.
      rewrite String.eqb_sym, E. reflexivity.
Qed.

Lemma dict_get_app key (a b : dict) :
  dict_get key (a ++ b)%list =
  match dict_get key a with
  | Some v => Some v
  | None => dict_get key b
  end.
Proof.
  induction a as [|[k v] a IH]; cbn [app dict_get]; [ reflexivity | ].
  destruct (String.eqb key k); [ reflexivity | exact IH ].
Qed.

(** Looking a key up in [{**d, **other}]: the last member of [other] with
    that key, or else what [d] has. *)
Lemma dict_get_merge key other : forall d,
  dict_get key (dict_merge d other) =
  match dict_get key (rev other) with
  | Some v => Some v
  | None => dict_get key d
  end.
Proof.
  unfold dict_merge. induction other as [|[k v] other IH]; intros d;
    cbn [fold_left rev fst snd]; [ reflexivity | ].
  rewrite IH, dict_get_app, dict_get_set. cbn [dict_get].
  destruct (dict_get key (rev other)); [ reflexivity | ].
  destruct (String.eqb key k); reflexivity.
Qed.

Lemma append_cancel (a x y : string) : a ++ x = a ++ y -> x = y.
Proof.
  induction a as [|c a IH]; cbn [String.append]; intros H; [ exact H | ].
  injection H as H. exact (IH H).
Qed.

(** The two functions name different files. *)
Lemma config_paths_differ repo_path :
  String.eqb (Os.path_join repo_path "config.json")
             (Os.path_join repo_path ".cursor-tracker-config.json") = false.
Proof.
  apply String.eqb_neq. unfold Os.path_join. cbn [String.prefix].
  destruct repo_path as [|c rest]; [ discriminate | ].
  destruct (Os.ends_with_slash (String c rest)); intros H;
    apply append_cancel in H; discriminate.
Qed.

Section ConfigFileFacts.

Variable json_load : string -> option Json.value.
Variable json_dump : dict -> string.

(** X11. When [config.json] holds a JSON object, [load_config] returns the
    defaults overridden key by key, one level deep: a key of the file has
    the value the file gives it (the last one, if the text repeats the key),
    whatever the default was, and every other key has its default. *)
Theorem load_config_overrides_key_by_key :
  forall fs repo_path text user,
    Os.read (Os.path_join repo_path "config.json") fs = Some text ->
    json_load text = Some (Json.Object user) ->
    exists cfg,
      load_config json_load fs repo_path = (Return cfg, []) /\
      forall key,
        dict_get key cfg =
        match dict_get key (rev user) with
        | Some v => Some v
        | None => dict_get key DEFAULT_CONFIG_dict
        end.
Proof.
  intros fs repo_path text user Hread Hload.
  exists (dict_merge DEFAULT_CONFIG_dict user). split.
  - unfold load_config. cbv zeta. rewrite Hread, Hload. reflexivity.
  - intros key. apply dict_get_merge.
Qed.


(** X13. [create_default_config] writes [.cursor-tracker-config.json] and
    [load_config] reads [config.json]: the file the program creates is not
    the file it reads, so creating it changes nothing in what [load_config]
    returns.  A file that is there already is left as it is, and a second
    call does nothing. *)
Theorem created_config_file_is_not_read :
  forall fs repo_path,
    load_config json_load
      (fst (create_default_config json_dump fs repo_path)) repo_path =
      load_config json_load fs repo_path /\
    (Os.path_exists (Os.path_join repo_path ".cursor-tracker-config.json") fs
       = true ->
     create_default_config json_dump fs repo_path = (fs, [])) /\
    create_default_config json_dump
      (fst (create_default_config json_dump fs repo_path)) repo_path =
      (fst (create_default_config json_dump fs repo_path), []).
Proof.
  intros fs repo_path.
  assert (Hcreated :
            Os.path_exists
              (Os.path_join repo_path ".cursor-tracker-config.json")
              (fst (create_default_config json_dump fs repo_path)) = true).
  { unfold create_default_config. cbv zeta.
    destruct (Os.path_exists _ fs) eqn:E; cbn [negb fst]; [ exact E | ].
    unfold Os.path_exists, Os.write. cbn [Os.read].
    rewrite String.eqb_refl. reflexivity. }
  assert (Hkeep : forall fs',
            Os.path_exists
              (Os.path_join repo_path ".cursor-tracker-config.json") fs'
              = true ->
            create_default_config json_dump fs' repo_path = (fs', [])).
  { intros fs' E. unfold create_default_config. cbv zeta. rewrite E.
    reflexivity. }
  split; [ | split; [ apply Hkeep | apply Hkeep; exact Hcreated ] ].
  unfold load_config, create_default_config. cbv zeta.
  destruct (Os.path_exists _ fs); cbn [negb fst]; [ reflexivity | ].
  unfold Os.write. cbn [Os.read]. rewrite config_paths_differ.
  reflexivity.
Qed.

End ConfigFileFacts.

(** X11 for a file that sets the cooldown: the cooldown is thirty seconds
    and the bound on the backup branches is the default five. *)
Lemma load_config_overrides_key_by_key_witness :
  exists cfg,
    load_config json_load_cooldown files_with_config "/repo"
      = (Return cfg, []) /\
    dict_get "commit_cooldown" cfg = Some (Json.Int 30) /\
    dict_get "max_backup_branches" cfg = Some (Json.Int 5).
Proof.
  destruct (load_config_overrides_key_by_key json_load_cooldown
              files_with_config "/repo" cooldown_text
              [("commit_cooldown", Json.Int 30)])
    as (cfg & Hcfg & Hget).
  - reflexivity.
  - reflexivity.
  - exists cfg. split; [ exact Hcfg | ].
    split; rewrite Hget; reflexivity.
Defined.

(** * Backup branch names and time *)

Lemma digit_compare a b :
  Ascii.compare (digit a) (digit b) = Nat.compare (a mod 10) (b mod 10).
Proof.
  unfold digit, Ascii.compare, ascii_of_nat.
  assert (Hlt : forall n, (N.of_nat (48 + n mod 10) < 256)%N).
  { intros n. pose proof (Nat.mod_upper_bound n 10). lia. }
  rewrite !N_ascii_embedding by apply Hlt.
  rewrite <- Nat2N.inj_compare.
  destruct (Nat.compare_spec (a mod 10) (b mod 10)) as [H | H | H].
  - rewrite H. apply Nat.compare_refl.
  - apply Nat.compare_lt_iff. lia.
  - apply Nat.compare_gt_iff. lia.
Qed.

Lemma string_compare_cons c1 c2 s1 s2 :
  String.compare (String c1 s1) (String c2 s2) =
  then_compare (Ascii.compare c1 c2) (String.compare s1 s2).
Proof.
  cbn [String.compare]. destruct (Ascii.compare c1 c2); reflexivity.
Qed.

Lemma string_compare_append a x y :
  String.compare (a ++ x) (a ++ y) = String.compare x y.
Proof.
  induction a as [|c a IH]; cbn [String.append]; [ reflexivity | ].
  rewrite string_compare_cons, ascii_compare_refl. exact IH.
Qed.

(** Comparing two numbers by their last digit after the rest. *)
Lemma compare_by_digits m n :
  Nat.compare m n =
  then_compare (Nat.compare (m / 10) (n / 10))
               (Nat.compare (m mod 10) (n mod 10)).
Proof.
  pose proof (Nat.div_mod_eq m 10) as Hm.
  pose proof (Nat.div_mod_eq n 10) as Hn.
  pose proof (Nat.mod_upper_bound m 10) as Hm'.
  pose proof (Nat.mod_upper_bound n 10) as Hn'.
  destruct (Nat.compare_spec (m / 10) (n / 10)) as [H | H | H];
    cbn [then_compare].
  - destruct (Nat.compare_spec (m mod 10) (n mod 10)) as [H' | H' | H'].
    + apply Nat.compare_eq_iff. lia.
    + apply Nat.compare_lt_iff. lia.
    + apply Nat.compare_gt_iff. lia.
  - apply Nat.compare_lt_iff. lia.
  - apply Nat.compare_gt_iff. lia.
Qed.

Lemma pad2_compare m n x y :
  (m < 100)%nat -> (n < 100)%nat ->
  String.compare (pad2 m ++ x) (pad2 n ++ y) =
  then_compare (Nat.compare m n) (String.compare x y).
Proof.
  intros Hm Hn. unfold pad2. cbn [String.append].
  rewrite !string_compare_cons, !digit_compare.
  rewrite (compare_by_digits m n).
  assert (Hs : forall k, (k < 100)%nat -> ((k / 10) mod 10 = k / 10)%nat).
  { intros k Hk. apply Nat.mod_small.
    pose proof (Nat.div_mod_eq k 10). lia. }
  rewrite (Hs m Hm), (Hs n Hn).
  destruct (Nat.compare (m / 10) (n / 10)); reflexivity.
Qed.

Lemma pad2_compare_last m n :
  (m < 100)%nat -> (n < 100)%nat ->
  String.compare (pad2 m) (pad2 n) = Nat.compare m n.
Proof.
  intros Hm Hn. unfold pad2.
  rewrite !string_compare_cons, !digit_compare.
  rewrite (compare_by_digits m n).
  assert (Hs : forall k, (k < 100)%nat -> ((k / 10) mod 10 = k / 10)%nat).
  { intros k Hk. apply Nat.mod_small.
    pose proof (Nat.div_mod_eq k 10). lia. }
  rewrite (Hs m Hm), (Hs n Hn).
  destruct (Nat.compare (m / 10) (n / 10));
    destruct (Nat.compare (m mod 10) (n mod 10)); reflexivity.
Qed.

(** A number below ten thousand compares as its four digits do. *)
Lemma compare_four_digits m n :
  Z.of_nat m < 10000 -> Z.of_nat n < 10000 ->
  Nat.compare m n =
  then_compare (Nat.compare ((m / 1000) mod 10) ((n / 1000) mod 10))
    (then_compare (Nat.compare ((m / 100) mod 10) ((n / 100) mod 10))
       (then_compare (Nat.compare ((m / 10) mod 10) ((n / 10) mod 10))
          (Nat.compare (m mod 10) (n mod 10)))).
Proof.
  intros Hm Hn.
  assert (E2 : forall k, (k / 100 = k / 10 / 10)%nat).
  { intros k. symmetry. exact (Nat.Div0.div_div k 10 10). }
  assert (E3 : forall k, (k / 1000 = k / 10 / 10 / 10)%nat).
  { intros k. rewrite <- E2. symmetry. exact (Nat.Div0.div_div k 10 100). }
  rewrite !E3, !E2.
  assert (Hs : forall k, Z.of_nat k < 10000 ->
                         ((k / 10 / 10 / 10) mod 10 = k / 10 / 10 / 10)%nat).
  { intros k Hk. apply Nat.mod_small.
    pose proof (Nat.div_mod_eq k 10).
    pose proof (Nat.div_mod_eq (k / 10) 10).
    pose proof (Nat.div_mod_eq (k / 10 / 10) 10). lia. }
  rewrite (Hs m Hm), (Hs n Hn).
  rewrite (compare_by_digits m n).
  rewrite (compare_by_digits (m / 10) (n / 10)).
  rewrite (compare_by_digits (m / 10 / 10) (n / 10 / 10)).
  destruct (Nat.compare (m / 10 / 10 / 10) (n / 10 / 10 / 10));
    destruct (Nat.compare ((m / 10 / 10) mod 10) ((n / 10 / 10) mod 10));
    destruct (Nat.compare ((m / 10) mod 10) ((n / 10) mod 10));
    reflexivity.
Qed.

Lemma pad4_compare m n x y :
  Z.of_nat m < 10000 -> Z.of_nat n < 10000 ->
  String.compare (pad4 m ++ x) (pad4 n ++ y) =
  then_compare (Nat.compare m n) (String.compare x y).
Proof.
  intros Hm Hn. unfold pad4, pad2. cbn [String.append].
  rewrite !string_compare_cons, !digit_compare.
  rewrite (compare_four_digits m n Hm Hn).
  destruct (Nat.compare ((m / 1000) mod 10) ((n / 1000) mod 10));
    destruct (Nat.compare ((m / 100) mod 10) ((n / 100) mod 10));
    destruct (Nat.compare ((m / 10) mod 10) ((n / 10) mod 10));
    destruct (Nat.compare (m mod 10) (n mod 10));
    reflexivity.
Qed.

(** X14. The names of the backup branches compare as strings exactly as the
    clock readings they were made at compare, field by field from the year
    down to the second: a rotation at a later reading has a later name, and
    two rotations have the same name only for the same reading, that is
    within one second. *)
Theorem backup_names_follow_the_clock :
  forall s d1 d2,
    printable d1 -> printable d2 ->
    String.compare (backup_name s d1) (backup_name s d2) =
      datetime_compare d1 d2 /\
    (backup_name s d1 = backup_name s d2 <-> d1 = d2).
Proof.
  intros s d1 d2 ((_ & Hy1) & Hm1 & Hd1 & Hh1 & Hi1 & Hs1)
         ((_ & Hy2) & Hm2 & Hd2 & Hh2 & Hi2 & Hs2).
  assert (Hcmp : String.compare (backup_name s d1) (backup_name s d2) =
                 datetime_compare d1 d2).
  { unfold backup_name. rewrite string_compare_append.
    change ("-" ++ strftime_branch d1)
      with (String "-" (strftime_branch d1)).
    change ("-" ++ strftime_branch d2)
      with (String "-" (strftime_branch d2)).
    rewrite string_compare_cons, ascii_compare_refl. cbn [then_compare].
    unfold strftime_branch, datetime_compare.
    rewrite pad4_compare by assumption. f_equal.
    rewrite pad2_compare by assumption. f_equal.
    rewrite pad2_compare by assumption. f_equal.
    change ("_" ++ ?x) with (String "_" x).
    rewrite string_compare_cons, ascii_compare_refl. cbn [then_compare].
    rewrite pad2_compare by assumption. f_equal.
    rewrite pad2_compare by assumption. f_equal.
    apply pad2_compare_last; assumption. }
  split; [ exact Hcmp | ]. split.
  - intros Heq. rewrite Heq, string_compare_refl in Hcmp.
    unfold datetime_compare, then_compare in Hcmp.
    destruct d1 as [y1 m1 a1 h1 i1 s1], d2 as [y2 m2 a2 h2 i2 s2].
    cbn [year month day hour minute second] in Hcmp.
    destruct (Nat.compare_spec y1 y2); try discriminate.
    destruct (Nat.compare_spec m1 m2); try discriminate.
    destruct (Nat.compare_spec a1 a2); try discriminate.
    destruct (Nat.compare_spec h1 h2); try discriminate.
    destruct (Nat.compare_spec i1 i2); try discriminate.
    destruct (Nat.compare_spec s1 s2); try discriminate.
    subst. reflexivity.
  - intros ->. reflexivity.
Qed.

(** X14 for two rotations an hour apart. *)
Lemma backup_names_follow_the_clock_witness :
  String.ltb (backup_name handler_at_start (stamp 10 0 0))
             (backup_name handler_at_start (stamp 11 0 0)) = true.
Proof.
  destruct (backup_names_follow_the_clock handler_at_start
              (stamp 10 0 0) (stamp 11 0 0)) as [H _].
  - unfold printable. cbn. lia.
  - unfold printable. cbn. lia.
  - unfold String.ltb. rewrite H. reflexivity.
Defined.

(** * What the handler records *)

(** Staging adds paths of the list to the index and nothing else, also when
    it stops half way. *)
Lemma staging_within (xs : list string) : forall s p,
  In p (Git.index
          (repo (snd (for_each xs (fun q => git (Git.index_add q)) s)))) ->
  In p (Git.index (repo s)) \/ In p xs.
Proof.
  induction xs as [|x xs IH]; intros s p; cbn [for_each].
  - cbn [ret snd]. auto.
  - unfold bind. unfold git at 1. unfold Git.index_add.
    destruct (Git.in_list x (Git.working_tree (repo s)));
      [ | cbn [snd]; auto ].
    cbn [put_repo]. intros H. apply IH in H.
    cbn [repo Git.set_index Git.index] in H.
    destruct H as [H | H]; [ | right; right; exact H ].
    destruct (Git.in_list x (Git.index (repo s))); [ left; exact H | ].
    apply in_app_or in H. destruct H as [H | [<- | []]];
      [ left; exact H | right; left; reflexivity ].
Qed.

(** The index after a commit attempt: empty when the commit was written,
    and otherwise what it was with some of the pending paths. *)
Lemma create_commit_index set_iter clk s p :
  In p (Git.index (repo (snd (_create_commit set_iter clk s)))) ->
  In p (Git.index (repo s)) \/ In p (set_iter (pending_changes s)).
Proof.
  unfold _create_commit, try_except, create_commit_body.
  unfold bind at 1. unfold get at 1. unfold bind at 1.
  pose proof (staging_within (set_iter (pending_changes s)) s p) as Hs.
  destruct (for_each (set_iter (pending_changes s))
              (fun q => git (Git.index_add q)) s) as [[[]|e] s1].
  - unfold bind, git, Git.index_commit.
    destruct (Git.HEAD (repo s1)); cbn; intros [].
  - cbn [snd log repo] in *. exact Hs.
Qed.

Lemma should_track_file_accepted root cfg path :
  should_track_file root cfg path = accepted cfg (Py.relpath path root).
Proof.
  unfold should_track_file, accepted. cbv zeta.
  destruct (existsb _ (ignore_patterns cfg)); [ reflexivity | ].
  destruct (existsb _ (file_patterns cfg)); reflexivity.
Qed.

(** One event keeps the pending paths within what the filter accepts, and
    the paths in the index and in new commits within [ok], which holds of
    the accepted paths and of what the index held. *)
Lemma on_modified_records_accepted set_iter clk event s
    (ok : string -> Prop) :
  (forall l, Permutation (set_iter l) l) ->
  (forall p, accepted (config s) p = true -> ok p) ->
  (forall p, In p (pending_changes s) -> accepted (config s) p = true) ->
  (forall p, In p (Git.index (repo s)) -> ok p) ->
  let s' := snd (on_modified set_iter clk event s) in
  config s' = config s /\
  (forall p, In p (pending_changes s') -> accepted (config s) p = true) /\
  (forall p, In p (Git.index (repo s')) -> ok p) /\
  (forall c, In c (Git.objects (repo s')) ->
             In c (Git.objects (repo s)) \/
             forall p, In p (Git.changes c) -> ok p).
Proof.
  intros Hperm Hacc Hpend Hindex. cbv zeta.
  unfold on_modified, bind, get.
  destruct (is_directory event); [ cbn [ret snd]; auto 10 | ].
  rewrite should_track_file_accepted.
  destruct (accepted (config s) (Py.relpath (src_path event) (repo_path s)))
    eqn:Ea; cbn [negb]; [ | cbn [ret snd]; auto 10 ].
  cbn [put_pending_changes].
  match goal with |- context [_try_commit _ _ ?st] => set (s0 := st) end.
  assert (Hpend0 : forall p, In p (pending_changes s0) ->
                             accepted (config s) p = true).
  { intros p Hp. cbn [s0 pending_changes] in Hp. apply set_add_In in Hp.
    destruct Hp as [Hp | ->]; [ apply Hpend; exact Hp | exact Ea ]. }
  assert (Hiter : forall p, In p (set_iter (pending_changes s0)) -> ok p).
  { intros p Hp. apply Hacc, Hpend0.
    apply (Permutation_in _ (Hperm (pending_changes s0))). exact Hp. }
  assert (Hindex0 : forall p, In p (Git.index (repo s0)) -> ok p)
    by exact Hindex.
  assert (Hobj0 : Git.objects (repo s0) = Git.objects (repo s))
    by reflexivity.
  assert (Hcfg0 : config s0 = config s) by reflexivity.
  rewrite try_commit_cases. cbn [snd].
  destruct (flush_due (time_time clk) s0); [ | auto 10 ].
  destruct (create_commit_cases set_iter clk s0)
    as (_ & _ & _ & Hc & _ & _ & _ & Hcases).
  pose proof (create_commit_index set_iter clk s0) as Hi.
  set (s1 := snd (_create_commit set_iter clk s0)) in *.
  assert (H1 : config s1 = config s /\
               (forall p, In p (pending_changes s1) ->
                          accepted (config s) p = true) /\
               (forall p, In p (Git.index (repo s1)) -> ok p) /\
               (forall c, In c (Git.objects (repo s1)) ->
                          In c (Git.objects (repo s)) \/
                          forall p, In p (Git.changes c) -> ok p)).
  { split; [ rewrite Hc; exact Hcfg0 | ].
    assert (Hstaged : forall p,
              In p (Git.index
                      (repo (snd (for_each (set_iter (pending_changes s0))
                                    (fun q => git (Git.index_add q)) s0)))) ->
              ok p).
    { intros p Hp. apply staging_within in Hp.
      destruct Hp as [Hp | Hp]; [ apply Hindex0; exact Hp | auto ]. }
    split; [ | split ].
    - destruct Hcases as [(s2 & _ & _ & _ & Hp & _)
                         | (e & s2 & _ & _ & _ & _ & Hp & _)];
        rewrite Hp; [ intros p [] | exact Hpend0 ].
    - intros p Hp. apply Hi in Hp.
      destruct Hp as [Hp | Hp]; [ apply Hindex0; exact Hp | auto ].
    - intros c Hin.
      destruct Hcases as [(s2 & _ & _ & Ho & _)
                         | (e & s2 & _ & _ & Ho & _)];
        rewrite Ho, Hobj0 in Hin; [ | left; exact Hin ].
      apply in_app_or in Hin. destruct Hin as [Hin | [<- | []]];
        [ left; exact Hin | right ].
      cbn [Git.changes]. exact Hstaged. }
  destruct (backup_due (time_time clk) s0); [ | exact H1 ].
  cbn [put_last_backup_time snd config pending_changes repo].
  match goal with |- context [_create_backup_branch ?n ?st] =>
    set (now := n); set (st1 := st)
  end.
  rewrite (create_backup_branch_preserves config now
             (fun _ _ => eq_refl) (fun _ _ => eq_refl) st1).
  rewrite (create_backup_branch_preserves pending_changes now
             (fun _ _ => eq_refl) (fun _ _ => eq_refl) st1).
  rewrite (rotation_repo_frame Git.index now
             (fun _ _ => eq_refl) (fun _ _ => eq_refl) st1).
  rewrite (rotation_repo_frame Git.objects now
             (fun _ _ => eq_refl) (fun _ _ => eq_refl) st1).
  exact H1.
Qed.

(** X15. Whatever the events, the handler holds and writes only paths the
    filter accepts: every pending path, every path it leaves in the index
    that was not staged before it started, and every path of a commit it
    writes that was not staged before it started, is a relative path that
    matches a file pattern and no ignore pattern of the configuration. *)
Theorem handler_records_accepted_paths_only :
  forall set_iter root config repo0 t1 t2 events,
    (forall l, Permutation (set_iter l) l) ->
    let s := run set_iter events (__init__ root config repo0 t1 t2) in
    (forall p, In p (pending_changes s) -> accepted config p = true) /\
    (forall p, In p (Git.index (repo s)) ->
               In p (Git.index repo0) \/ accepted config p = true) /\
    (forall c, In c (Git.objects (repo s)) ->
               In c (Git.objects repo0) \/
               forall p, In p (Git.changes c) ->
                         In p (Git.index repo0) \/ accepted config p = true).
Proof.
  intros set_iter root cfg repo0 t1 t2 events Hperm. cbv zeta.
  set (ok := fun p => In p (Git.index repo0) \/ accepted cfg p = true).
  assert (Hrun : forall evs s,
            config s = cfg ->
            (forall p, In p (pending_changes s) -> accepted cfg p = true) ->
            (forall p, In p (Git.index (repo s)) -> ok p) ->
            (forall c, In c (Git.objects (repo s)) ->
                       In c (Git.objects repo0) \/
                       forall p, In p (Git.changes c) -> ok p) ->
            (forall p, In p (pending_changes (run set_iter evs s)) ->
                       accepted cfg p = true) /\
            (forall p, In p (Git.index (repo (run set_iter evs s))) -> ok p) /\
            (forall c, In c (Git.objects (repo (run set_iter evs s))) ->
                       In c (Git.objects repo0) \/
                       forall p, In p (Git.changes c) -> ok p)).
  { induction evs as [|[clk event] evs IH]; intros s Hc Hp Hi Ho;
      cbn [run]; [ auto | ].
    destruct (on_modified_records_accepted set_iter clk event s ok Hperm)
      as (Hc1 & Hp1 & Hi1 & Ho1).
    - rewrite Hc. intros p Hacc. right. exact Hacc.
    - rewrite Hc. exact Hp.
    - exact Hi.
    - rewrite Hc in Hp1. apply IH.
      + rewrite Hc1. exact Hc.
      + exact Hp1.
      + exact Hi1.
      + intros c Hin. apply Ho1 in Hin.
        destruct Hin as [Hin | Hin]; [ apply Ho; exact Hin | right; exact Hin ]. }
  apply Hrun.
  - reflexivity.
  - intros p [].
  - intros p Hp. left. exact Hp.
  - intros c Hin. left. exact Hin.
Qed.

(** X15 for the first commit of the handler on [main]: every path of the
    commit passes the filter of the default configuration. *)
Lemma handler_records_accepted_paths_only_witness :
  forallb (fun c => forallb (accepted DEFAULT_CONFIG) (Git.changes c))
          (Git.objects (repo handler_after_commit)) = true.
Proof.
  destruct (handler_records_accepted_paths_only insertion_order
              "/repo" DEFAULT_CONFIG repo_main 0 0
              [(tick 3598, modified "/repo/src/a.py")])
    as (_ & _ & Ho).
  - intros l. apply Permutation_refl.
  - apply forallb_forall. intros c Hc.
    destruct (Ho c Hc) as [[] | H].
    apply forallb_forall. intros p Hp.
    destruct (H p Hp) as [[] | Hacc]. exact Hacc.
Defined.
